(** * A shallow embedding of neural_network/multilayer_perceptron.go

    The Go package trains a multilayer perceptron: [Fit] builds the layer
    list, then for every epoch shuffles the samples, runs the forward pass
    ([Predict]) and the layer-reverse backward pass.  The embedding keeps
    float64 as Rocq's primitive binary64 floats, Go pointers to [mat.Dense]
    as values threaded through the calls (with [option] for a nil pointer),
    and a Go panic as the [Panic] result. *)

From Stdlib Require Import ZArith List String Floats Lia Bool Permutation.
From stdpp Require Import base list.
Import ListNotations.

Set Warnings "-inexact-float".
Local Open Scope nat_scope.

(** ** Panics *)

Inductive result (A : Type) : Type :=
| Ok (a : A)
| Panic (msg : string).
Arguments Ok {A} a.
Arguments Panic {A} msg.

#[global] Instance result_ret : MRet result := fun A a => Ok a.
#[global] Instance result_bind : MBind result := fun A B f m =>
  match m with
  | Ok a => f a
  | Panic msg => Panic msg
  end.

(** ** gonum's dense matrices

    gonum/mat is an imported library; its operations are modelled by what
    they are documented to do.  [mat.Dense] holds its elements row-major in
    one slice ([RawMatrix]: Rows, Cols, Data).  An operation writes every
    element of its receiver, so the model builds the result anew and uses
    the receiver for the shape check only. *)

Record Dense : Type := mkDense {
  rows : nat;
  cols : nat;
  data : list float
}.

Definition at_ (m : Dense) (i j : nat) : float :=
  nth (i * cols m + j) (data m) 0%float.

(** [mat.Matrix], the interface the lazy views implement: Dims and At. *)
Record Matrix : Type := mkMatrix {
  Dims : nat * nat;
  At : nat -> nat -> float
}.

Definition of_dense (m : Dense) : Matrix :=
  {| Dims := (rows m, cols m); At := at_ m |}.

(** [m.T()] *)
Definition T (m : Matrix) : Matrix :=
  {| Dims := (snd (Dims m), fst (Dims m)); At := fun i j => At m j i |}.

(** Row-major fill of an r x c matrix. *)
Definition tabulate (r c : nat) (f : nat -> nat -> float) : Dense :=
  mkDense r c (flat_map (fun i => map (f i) (seq 0 c)) (seq 0 r)).

Definition ErrShape : string := "mat: dimension mismatch".
Definition ErrZeroLength : string := "mat: zero length in matrix dimension".
Definition ErrNegativeDimension : string := "mat: negative dimension".
Definition ErrNilPointer : string := "runtime error: invalid memory address or nil pointer dereference".
Definition ErrIndex : string := "runtime error: index out of range".

(** [mat.NewDense(r, c, nil)]: a zero matrix; panics on a dimension <= 0. *)
Definition NewDense (r c : Z) : result Dense :=
  if ((r <=? 0) || (c <=? 0))%Z then
    if ((r =? 0) || (c =? 0))%Z then Panic ErrZeroLength
    else Panic ErrNegativeDimension
  else Ok (tabulate (Z.to_nat r) (Z.to_nat c) (fun _ _ => 0%float)).

Definition IsEmpty (m : Dense) : bool := (rows m =? 0) || (cols m =? 0).

(** The receiver of an operation is resized when empty and must have the
    shape of the result otherwise. *)
Definition reuseAs (m : Dense) (r c : nat) : result unit :=
  if (r =? 0) || (c =? 0) then Panic ErrZeroLength
  else if IsEmpty m then Ok tt
  else if (rows m =? r) && (cols m =? c) then Ok tt
  else Panic ErrShape.

(** The inner loop of the generic matrix product:
    [var v float64; for i, e := range row { v += e * b.At(i, c) }]. *)
Definition dot (n : nat) (u v : nat -> float) : float :=
  fold_left (fun acc k => (acc + u k * v k)%float) (seq 0 n) 0%float.

(** [m.Mul(a, b)] *)
Definition Mul (m : Dense) (a b : Matrix) : result Dense :=
  let '(ar, ac) := Dims a in
  let '(br, bc) := Dims b in
  if negb (ac =? br) then Panic ErrShape
  else
    _ ← reuseAs m ar bc;
    Ok (tabulate ar bc (fun i j => dot ac (At a i) (fun k => At b k j))).

Definition elementwise (op : float -> float -> float) (m : Dense) (a b : Matrix)
  : result Dense :=
  let '(ar, ac) := Dims a in
  let '(br, bc) := Dims b in
  if negb ((ar =? br) && (ac =? bc)) then Panic ErrShape
  else
    _ ← reuseAs m ar ac;
    Ok (tabulate ar ac (fun i j => op (At a i j) (At b i j))).

(** [m.Sub(a, b)], [m.Add(a, b)], [m.MulElem(a, b)] *)
Definition Sub := elementwise PrimFloat.sub.
Definition Add := elementwise PrimFloat.add.
Definition MulElem := elementwise PrimFloat.mul.

(** [m.Clone(a)]: the receiver becomes a copy of [a], whatever its shape was. *)
Definition Clone (a : Matrix) : Dense :=
  tabulate (fst (Dims a)) (snd (Dims a)) (At a).

(** A list of fallible element computations, run in order. *)
Fixpoint sequence {A} (l : list (result A)) : result (list A) :=
  match l with
  | [] => Ok []
  | x :: l' => a ← x; r ← sequence l'; Ok (a :: r)
  end.

(** [m.Apply(fn, a)]: [fn] may panic. *)
Definition Apply (m : Dense) (fn : nat -> nat -> float -> result float) (a : Matrix)
  : result Dense :=
  let '(ar, ac) := Dims a in
  _ ← reuseAs m ar ac;
  d ← sequence (flat_map (fun i => map (fun j => fn i j (At a i j)) (seq 0 ac)) (seq 0 ar));
  Ok (mkDense ar ac d).

(** ** The lazy matrix views

    Modelled from the spec: the types onesAddedMat, appliedMat and
    firstColumnRemovedMat are declared outside the file under study.  Each
    wraps a [mat.Matrix]: the bias-augmented view shows a constant column of
    ones before the columns of the wrapped matrix; the elementwise-mapped
    view applies a scalar function on read; the bias-trimmed view drops
    column 0 of the wrapped matrix, as its name in the source says: wrapped
    around [Theta.T()], as Fit uses it, it shows the transposed weights
    without the bias row of [Theta], an outputs x inputs matrix, the only
    shape the product with the diff of the next layer accepts. *)

Definition onesAddedMat (m : Matrix) : Matrix :=
  {| Dims := (fst (Dims m), 1 + snd (Dims m));
     At := fun i j => match j with 0 => 1%float | S j' => At m i j' end |}.

Definition appliedMat (m : Matrix) (f : float -> float) : Matrix :=
  {| Dims := Dims m; At := fun i j => f (At m i j) |}.

Definition firstColumnRemovedMat (m : Matrix) : Matrix :=
  {| Dims := (fst (Dims m), snd (Dims m) - 1);
     At := fun i j => At m i (S j) |}.

(** ** Collaborators of the package

    The file under study imports the activations and loss functions of
    linear_model, the optimizers and the shuffle of base, and math/rand.
    They are taken as parameters: an instance of this class fixes them. *)

(** [lm.Activation]: the pair F, Fprime; Fprime is applied to the output of F. *)
Record Activation : Type := mkActivation {
  F : float -> float;
  Fprime : float -> float
}.

(** [lm.Loss], called in [Fit] as
    [lossFunc(Ytrue, X, Theta, Ypred, Ydiff, Grad, Alpha, L1Ratio, nSamples, activation)].
    Ytrue and X are passed as [mat.Matrix]; Theta, Ypred, Ydiff and Grad are
    pointers to dense matrices.

    Modelled from the spec: the loss functions are declared outside the file
    under study.  A loss returns the scalar loss and fills the gradient; the
    three buffers it receives by pointer (Ypred, Ydiff, Grad) are returned as
    it leaves them, the weights are only read. *)
Definition Loss_ : Type :=
  Matrix -> Matrix -> Dense -> Dense -> Dense -> Dense ->
  float -> float -> Z -> option Activation ->
  result (float * Dense * Dense * Dense).

Class Collaborators : Type := {
  (** [base.Optimizer]: an optimizer instance and its state *)
  Optimizer : Type;
  (** [optimizer.GetUpdate(update, grad)] writes the update matrix *)
  GetUpdate : Optimizer -> Dense -> Dense -> result (Optimizer * Dense);
  (** the state of math/rand's global source *)
  Rng : Type;
  (** [rand.Float64()] *)
  rand_Float64 : Rng -> float * Rng;
  (** [rand.Perm(n)] *)
  rand_Perm : Rng -> nat -> list nat * Rng;
  (** [lm.Logistic{}] *)
  Logistic : Activation;
  (** [lm.Activations], [base.Solvers], [lm.LossFunctions]: a missing key
      gives Go's zero value, a nil interface or a nil func *)
  Activations : string -> option Activation;
  Solvers : string -> option (unit -> Optimizer);
  LossFunctions : string -> option Loss_
}.

(** Dereferencing a pointer, calling a func value or a method of an interface
    value panics on nil. *)
Definition deref {A} (p : option A) : result A :=
  match p with
  | Some a => Ok a
  | None => Panic ErrNilPointer
  end.

(** [s[i]] on a slice *)
Definition index {A} (s : list A) (i : nat) : result A :=
  match s !! i with
  | Some a => Ok a
  | None => Panic ErrIndex
  end.

Section Model.
Context `{Collaborators}.

(** [base.OptimCreator] *)
Definition OptimCreator : Type := unit -> Optimizer.

(** ** Layer *)

Record Layer : Type := mkLayer {
  L_Activation : option Activation;
  Theta : Dense;
  Ytrue : option Dense;
  Ypred : option Dense;
  Ydiff : option Dense;
  Grad : option Dense;
  Update : option Dense;
  L_Optimizer : Optimizer
}.

(** [n] draws of [0.01 * rand.Float64()], in the order Apply visits the
    elements. *)
Fixpoint rand_fill (n : nat) (rng : Rng) : list float * Rng :=
  match n with
  | 0 => ([], rng)
  | S n' =>
      let '(x, rng1) := rand_Float64 rng in
      let '(xs, rng2) := rand_fill n' rng1 in
      ((0.01 * x)%float :: xs, rng2)
  end.

(** NewLayer creates a randomly initialized layer *)
Definition NewLayer (inputs outputs : Z) (activation : option Activation)
    (optimizer : Optimizer) (rng : Rng) : result (Layer * Rng) :=
  Theta0 ← NewDense inputs outputs;
  let '(d, rng') := rand_fill (rows Theta0 * cols Theta0) rng in
  Ok (mkLayer activation (mkDense (rows Theta0) (cols Theta0) d)
        None None None None None optimizer, rng').

(** Init allocate matrices for layer *)
Definition Init (L : Layer) (samples inputs : Z) : result Layer :=
  let outputs := Z.of_nat (cols (Theta L)) in
  yp ← NewDense samples outputs;
  yt ← NewDense samples outputs;
  yd ← NewDense samples outputs;
  g ← NewDense (1 + inputs) outputs;
  u ← NewDense (1 + inputs) outputs;
  Ok (mkLayer (L_Activation L) (Theta L) (Some yt) (Some yp) (Some yd)
        (Some g) (Some u) (L_Optimizer L)).

Definition set_Ypred (L : Layer) (yp : Dense) : Layer :=
  mkLayer (L_Activation L) (Theta L) (Ytrue L) (Some yp) (Ydiff L) (Grad L)
    (Update L) (L_Optimizer L).

Definition set_Ytrue_Ydiff (L : Layer) (yt yd : Dense) : Layer :=
  mkLayer (L_Activation L) (Theta L) (Some yt) (Ypred L) (Some yd) (Grad L)
    (Update L) (L_Optimizer L).

Definition set_Optimizer (L : Layer) (o : Optimizer) : Layer :=
  mkLayer (L_Activation L) (Theta L) (Ytrue L) (Ypred L) (Ydiff L) (Grad L)
    (Update L) o.

(** ** MLPRegressor *)

Record MLPRegressor : Type := mkMLPRegressor {
  regr_Optimizer : option OptimCreator;
  LossName : string;
  regr_Activation : option Activation;
  HiddenLayerSizes : list Z;
  Layers : list Layer;
  Alpha : float;
  L1Ratio : float;
  Epochs : Z;
  MiniBatchSize : Z;
  Loss : string;
  JFirst : float;
  J : float
}.

Definition set_Layers (regr : MLPRegressor) (ls : list Layer) : MLPRegressor :=
  mkMLPRegressor (regr_Optimizer regr) (LossName regr) (regr_Activation regr)
    (HiddenLayerSizes regr) ls (Alpha regr) (L1Ratio regr) (Epochs regr)
    (MiniBatchSize regr) (Loss regr) (JFirst regr) (J regr).

Definition set_Epochs (regr : MLPRegressor) (n : Z) : MLPRegressor :=
  mkMLPRegressor (regr_Optimizer regr) (LossName regr) (regr_Activation regr)
    (HiddenLayerSizes regr) (Layers regr) (Alpha regr) (L1Ratio regr) n
    (MiniBatchSize regr) (Loss regr) (JFirst regr) (J regr).

Definition set_J (regr : MLPRegressor) (j : float) : MLPRegressor :=
  mkMLPRegressor (regr_Optimizer regr) (LossName regr) (regr_Activation regr)
    (HiddenLayerSizes regr) (Layers regr) (Alpha regr) (L1Ratio regr)
    (Epochs regr) (MiniBatchSize regr) (Loss regr) (JFirst regr) j.

Definition set_JFirst (regr : MLPRegressor) (j : float) : MLPRegressor :=
  mkMLPRegressor (regr_Optimizer regr) (LossName regr) (regr_Activation regr)
    (HiddenLayerSizes regr) (Layers regr) (Alpha regr) (L1Ratio regr)
    (Epochs regr) (MiniBatchSize regr) (Loss regr) j (J regr).

Definition set_regr_Optimizer (regr : MLPRegressor) (c : option OptimCreator)
  : MLPRegressor :=
  mkMLPRegressor c (LossName regr) (regr_Activation regr)
    (HiddenLayerSizes regr) (Layers regr) (Alpha regr) (L1Ratio regr)
    (Epochs regr) (MiniBatchSize regr) (Loss regr) (JFirst regr) (J regr).

(** NewMLPRegressor returns a *MLPRegressor with defaults *)
Definition NewMLPRegressor (hiddenLayerSizes : list Z) (activation solver : string)
    (alpha : float) : MLPRegressor :=
  let activation := if (activation =? "")%string then "relu"%string else activation in
  let solver := if (solver =? "")%string then "adam"%string else solver in
  {| regr_Optimizer := Solvers solver;
     LossName := "";
     regr_Activation := Activations activation;
     HiddenLayerSizes := hiddenLayerSizes;
     Layers := [];
     Alpha := alpha;
     L1Ratio := 0%float;
     Epochs := 0%Z;
     MiniBatchSize := 0%Z;
     Loss := "square";
     JFirst := 0%float;
     J := 0%float |}.

(** NewMLPClassifier returns a *MLPRegressor with defaults *)
Definition NewMLPClassifier (hiddenLayerSizes : list Z) (activation solver : string)
    (alpha : float) : MLPRegressor :=
  let regr := NewMLPRegressor hiddenLayerSizes activation solver alpha in
  mkMLPRegressor (regr_Optimizer regr) (LossName regr) (regr_Activation regr)
    (HiddenLayerSizes regr) (Layers regr) (Alpha regr) (L1Ratio regr)
    (Epochs regr) (MiniBatchSize regr) "log" (JFirst regr) (J regr).

(** SetOptimizer changes Optimizer *)
Fixpoint SetOptimizer_layers (creator : option OptimCreator) (ls : list Layer)
  : result (list Layer) :=
  match ls with
  | [] => Ok []
  | L :: ls' =>
      c ← deref creator;
      r ← SetOptimizer_layers creator ls';
      Ok (set_Optimizer L (c tt) :: r)
  end.

Definition SetOptimizer (regr : MLPRegressor) (creator : option OptimCreator)
    (changeLayers : bool) : result MLPRegressor :=
  let regr := set_regr_Optimizer regr creator in
  if changeLayers then
    ls ← SetOptimizer_layers creator (Layers regr);
    Ok (set_Layers regr ls)
  else Ok regr.

(** ** Predict *)

Definition panicIfNaN (v : float) : result float :=
  if PrimFloat.is_nan v then Panic "NaN" else Ok v.

(** The input of layer [l]: X for the first layer, the predictions of the
    layer below otherwise ([Xl = regr.Layers[l-1].Ypred]).  Both loops use it
    after a forward step has allocated the predictions of the layer below; a
    nil pointer there is a panic at its first use. *)
Definition layer_input (X : Dense) (layers : list Layer) (l : nat) : result Dense :=
  match l with
  | 0 => Ok X
  | S l' => Lp ← index layers l'; deref (Ypred Lp)
  end.

(** The body of the loop of Predict, for layer [l]: the layer as the body
    leaves it ([L := &regr.Layers[l]] is updated through the pointer). *)
Definition forward_layer_value (X : Dense) (l : nat) (layers : list Layer)
  : result Layer :=
  L ← index layers l;
  Xl ← layer_input X layers l;
  L1 ← match Ypred L with
       | None => Init L (Z.of_nat (rows Xl)) (Z.of_nat (cols Xl))
       | Some _ => Ok L
       end;
  yp ← match Ypred L1 with
       | None => Panic "L.Ypred == nil"
       | Some yp => Ok yp
       end;
  (* compute activation.F([1 X] dot theta) *)
  yp1 ← Mul yp (onesAddedMat (of_dense Xl)) (of_dense (Theta L1));
  act ← deref (L_Activation L1);
  let yp2 := Clone (appliedMat (of_dense yp1) (F act)) in
  yp3 ← Apply yp2 (fun _ _ v => panicIfNaN v) (of_dense yp2);
  Ok (set_Ypred L1 yp3).

Definition forward_layer (X : Dense) (l : nat) (layers : list Layer)
  : result (list Layer) :=
  L' ← forward_layer_value X l layers;
  Ok (<[l := L']> layers).

(** [for l := 0; l < n; l++ { ... }] *)
Fixpoint forward_upto (X : Dense) (n : nat) (layers : list Layer)
  : result (list Layer) :=
  match n with
  | 0 => Ok layers
  | S l => ls ← forward_upto X l layers; forward_layer X l ls
  end.

(** Predict return the forward result.  [Y] is the optional output matrix;
    the result carries the regressor with its layers as the pass leaves them
    and the matrix written through [Y]. *)
Definition Predict (regr : MLPRegressor) (X : Dense) (Y : option Dense)
  : result (MLPRegressor * option Dense) :=
  ls ← forward_upto X (length (Layers regr)) (Layers regr);
  match Y with
  | None => Ok (set_Layers regr ls, None)
  | Some _ =>
      L ← index ls (length ls - 1);
      yp ← deref (Ypred L);
      Ok (set_Layers regr ls, Some (Clone (of_dense yp)))
  end.

(** Score returns accuracy. see metrics package for other scores *)
Definition Score (regr : MLPRegressor) (X Y : Dense) : float :=
  let score := 0%float in
  score.

(** ** The shuffle

    Modelled from the spec: base.DenseShuffle is declared outside the file
    under study.  It is a paired shuffle of inputs and targets: one
    permutation of the row indices of X is drawn and the rows of both
    matrices are rearranged by it. *)

Definition permute_rows (p : list nat) (m : Dense) : Dense :=
  tabulate (rows m) (cols m) (fun i j => at_ m (nth i p 0) j).

Definition DenseShuffle (X Y : Dense) (rng : Rng) : Dense * Dense * Rng :=
  let '(p, rng') := rand_Perm rng (rows X) in
  (permute_rows p X, permute_rows p Y, rng').

(** ** Fit *)

(** The state a fit works on: the regressor, the two matrices the caller
    passed by pointer (the shuffle rearranges them in place) and the random
    source. *)
Record FitState : Type := mkFitState {
  fit_regr : MLPRegressor;
  fit_X : Dense;
  fit_Y : Dense;
  fit_rng : Rng
}.

(** [for _, outputs := range regr.HiddenLayerSizes { ... }] *)
Fixpoint hidden_layers (regr : MLPRegressor) (sizes : list Z) (prevOutputs : Z)
    (layers : list Layer) (rng : Rng) : result (list Layer * Z * Rng) :=
  match sizes with
  | [] => Ok (layers, prevOutputs, rng)
  | outputs :: sizes' =>
      creator ← deref (regr_Optimizer regr);
      '(L, rng') ← NewLayer (1 + prevOutputs) outputs (regr_Activation regr)
                     (creator tt) rng;
      hidden_layers regr sizes' outputs (layers ++ [L]) rng'
  end.

(** The first part of Fit: "create layers" and the two size adjustments. *)
Definition create_layers (regr : MLPRegressor) (X Y : Dense) (rng : Rng)
  : result (list Layer * Rng) :=
  let nFeatures := Z.of_nat (cols X) in
  let nOutputs := Z.of_nat (cols Y) in
  '(layers, prevOutputs, rng) ←
    hidden_layers regr (HiddenLayerSizes regr) nFeatures [] rng;
  let lastActivation :=
    if ((LossName regr =? "cross-entropy") || (LossName regr =? "log"))%string
    then Some Logistic
    else regr_Activation regr in
  creator ← deref (regr_Optimizer regr);
  '(Lout, rng) ← NewLayer (1 + prevOutputs) nOutputs lastActivation (creator tt) rng;
  let layers := layers ++ [Lout] in
  let outputLayer := length layers - 1 in
  L0 ← index layers 0;
  let r := Z.of_nat (rows (Theta L0)) in
  let c := Z.of_nat (cols (Theta L0)) in
  (* adjust size of first layer to X features *)
  '(layers, rng) ←
    (if negb (r =? nFeatures + 1)%Z then
       creator ← deref (regr_Optimizer regr);
       '(L, rng') ← NewLayer (1 + nFeatures) c (L_Activation L0) (creator tt) rng;
       Ok (<[0 := L]> layers, rng')
     else Ok (layers, rng));
  (* adjust size of output layer to Y outputs *)
  let c := Z.of_nat (cols Y) in
  Lo ← index layers outputLayer;
  let r2 := Z.of_nat (rows (Theta Lo)) in
  let c2 := Z.of_nat (cols (Theta Lo)) in
  if negb (c =? c2)%Z then
    L0 ← index layers 0;
    creator ← deref (regr_Optimizer regr);
    '(L, rng') ← NewLayer r2 c (L_Activation L0) (creator tt) rng;
    Ok (<[outputLayer := L]> layers, rng')
  else Ok (layers, rng).

(** "compute Ydiff": the targets and the diff of layer [l]. *)
Definition compute_Ydiff (layers : list Layer) (Y : Dense) (outputLayer l : nat)
    (L : Layer) : result Layer :=
  if l =? outputLayer then
    _ ← deref (Ytrue L);
    let yt := Clone (of_dense Y) in
    yd0 ← deref (Ydiff L);
    yp ← deref (Ypred L);
    yd ← Sub yd0 (of_dense yp) (of_dense Y);
    Ok (set_Ytrue_Ydiff L yt yd)
  else
    (* compute ydiff and ytrue for non-terminal layer *)
    nextLayer ← index layers (l + 1);
    yd0 ← deref (Ydiff L);
    nyd ← deref (Ydiff nextLayer);
    yd1 ← Mul yd0 (of_dense nyd)
            (firstColumnRemovedMat (T (of_dense (Theta nextLayer))));
    yp ← deref (Ypred L);
    act ← deref (L_Activation L);
    yd2 ← MulElem yd1 (of_dense yd1) (appliedMat (of_dense yp) (Fprime act));
    yt0 ← deref (Ytrue L);
    yt ← Sub yt0 (of_dense yp) (of_dense yd2);
    Ok (set_Ytrue_Ydiff L yt yd2).

(** "compute loss J and Grad", "compute theeta Update from Grad" and the
    update of the weights, on the layer [compute_Ydiff] returned. *)
Definition loss_and_update (lossFunc : option Loss_) (regr : MLPRegressor)
    (Xl : Dense) (nSamples : Z) (L : Layer) : result (float * Layer) :=
  lf ← deref lossFunc;
  yt ← deref (Ytrue L);
  yp ← deref (Ypred L);
  yd ← deref (Ydiff L);
  g ← deref (Grad L);
  '(Jl, yp', yd', g') ←
    lf (of_dense yt) (onesAddedMat (of_dense Xl)) (Theta L) yp yd g
       (Alpha regr) (L1Ratio regr) nSamples (L_Activation L);
  u ← deref (Update L);
  '(o', u') ← GetUpdate (L_Optimizer L) u g';
  th' ← Add (Theta L) (of_dense (Theta L)) (of_dense u');
  Ok (Jl, mkLayer (L_Activation L) th' (Ytrue L) (Some yp') (Some yd')
            (Some g') (Some u') o').

(** The body of the loop over the layers, for layer [l] of epoch [epoch]. *)
Definition backward_layer (lossFunc : option Loss_) (X Y : Dense) (nSamples : Z)
    (outputLayer epoch l : nat) (regr : MLPRegressor) : result MLPRegressor :=
  L ← index (Layers regr) l;
  Xl ← layer_input X (Layers regr) l;
  L1 ← compute_Ydiff (Layers regr) Y outputLayer l L;
  '(Jl, L2) ← loss_and_update lossFunc regr Xl nSamples L1;
  let regr := set_Layers regr (<[l := L2]> (Layers regr)) in
  if l =? outputLayer then
    let regr := set_J regr Jl in
    if epoch =? 1 then Ok (set_JFirst regr Jl) else Ok regr
  else Ok regr.

(** [for l := n - 1; l >= 0; l-- { ... }] *)
Fixpoint backward_loop (lossFunc : option Loss_) (X Y : Dense) (nSamples : Z)
    (outputLayer epoch n : nat) (regr : MLPRegressor) : result MLPRegressor :=
  match n with
  | 0 => Ok regr
  | S l =>
      regr' ← backward_layer lossFunc X Y nSamples outputLayer epoch l regr;
      backward_loop lossFunc X Y nSamples outputLayer epoch l regr'
  end.

(** The body of the loop over the epochs. *)
Definition fit_epoch (lossFunc : option Loss_) (nSamples : Z) (outputLayer epoch : nat)
    (st : FitState) : result FitState :=
  let '(X, Y, rng) := DenseShuffle (fit_X st) (fit_Y st) (fit_rng st) in
  '(regr, _) ← Predict (fit_regr st) X None;
  regr ← backward_loop lossFunc X Y nSamples outputLayer epoch (S outputLayer) regr;
  Ok (mkFitState regr X Y rng).

(** [for epoch := e; epoch < e + n; epoch++ { ... }] *)
Fixpoint fit_epochs (lossFunc : option Loss_) (nSamples : Z) (outputLayer : nat)
    (n epoch : nat) (st : FitState) : result FitState :=
  match n with
  | 0 => Ok st
  | S n' =>
      st' ← fit_epoch lossFunc nSamples outputLayer epoch st;
      fit_epochs lossFunc nSamples outputLayer n' (S epoch) st'
  end.

(** Fit fits an MLPRegressor *)
Definition Fit (regr : MLPRegressor) (X Y : Dense) (rng : Rng) : result FitState :=
  let nSamples := Z.of_nat (rows X) in
  (* create layers *)
  let regr := set_Layers regr [] in
  '(layers, rng) ← create_layers regr X Y rng;
  let regr := set_Layers regr layers in
  let outputLayer := length layers - 1 in
  let lossFunc := LossFunctions (Loss regr) in
  let regr := if (Epochs regr <=? 0)%Z then set_Epochs regr 100 else regr in
  fit_epochs lossFunc nSamples outputLayer (Z.to_nat (Epochs regr)) 0
    (mkFitState regr X Y rng).

End Model.

(** ** Sample collaborators

    A small instance of [Collaborators] on which the model runs: three
    activations, plain gradient descent, a squared-error loss and a
    deterministic random source. *)

Module Sample.

Definition Identity : Activation :=
  {| F := fun x => x; Fprime := fun _ => 1%float |}.

Definition ReLU : Activation :=
  {| F := fun x => if (0 <? x)%float then x else 0%float;
     Fprime := fun y => if (0 <? y)%float then 1%float else 0%float |}.

Fixpoint square_n (n : nat) (x : float) : float :=
  match n with
  | 0 => x
  | S n' => square_n n' (x * x)%float
  end.

(** An approximation of math.Exp: (1 + x/1024)^1024. *)
Definition exp_approx (x : float) : float :=
  square_n 10 (1 + x / 1024)%float.

Definition Logistic : Activation :=
  {| F := fun x => (1 / (1 + exp_approx (- x)))%float;
     Fprime := fun y => (y * (1 - y))%float |}.

Definition Activations (name : string) : option Activation :=
  if (name =? "identity")%string then Some Identity
  else if (name =? "logistic")%string then Some Logistic
  else if (name =? "relu")%string then Some ReLU
  else None.

(** Gradient descent with a fixed learning rate: update = -0.5 * grad. *)
Definition sgd_GetUpdate (o : unit) (update grad : Dense) : result (unit * Dense) :=
  u ← MulElem update (of_dense grad)
        {| Dims := Dims (of_dense grad); At := fun _ _ => (-0.5)%float |};
  Ok (o, u).

Definition Solvers (name : string) : option (unit -> unit) :=
  if (name =? "sgd")%string then Some (fun _ => tt) else None.

Definition float_of_Z (n : Z) : float := PrimFloat.of_uint63 (Uint63.of_Z n).

(** The gradient both losses fill: X^T (diff .* Fprime(Ypred)) / n. *)
Definition gradient (Grad : Dense) (X : Matrix) (yd Ypred : Dense) (act : Activation)
    (n : float) : result Dense :=
  Mul Grad (T X)
    {| Dims := Dims (of_dense yd);
       At := fun i j => (at_ yd i j * Fprime act (at_ Ypred i j) / n)%float |}.

(** Squared error: diff = Ypred - Ytrue, J = sum diff^2 / (2 n). *)
Definition SquareLoss : Loss_ :=
  fun Ytrue X Theta Ypred Ydiff Grad alpha l1ratio nSamples activation =>
    act ← deref activation;
    yd ← Sub Ydiff (of_dense Ypred) Ytrue;
    let n := float_of_Z nSamples in
    g ← gradient Grad X yd Ypred act n;
    let Jv := (fold_left (fun acc d => acc + d * d) (data yd) 0 / (2 * n))%float in
    Ok (Jv, Ypred, yd, g).

Fixpoint sqrt_n (n : nat) (x : float) : float :=
  match n with
  | 0 => x
  | S n' => sqrt_n n' (PrimFloat.sqrt x)
  end.

(** An approximation of math.Log: 1024 (x^(1/1024) - 1). *)
Definition log_approx (x : float) : float :=
  (1024 * (sqrt_n 10 x - 1))%float.

(** Log loss: diff = Ypred - Ytrue,
    J = - sum (y log h + (1 - y) log (1 - h)) / n. *)
Definition LogLoss : Loss_ :=
  fun Ytrue X Theta Ypred Ydiff Grad alpha l1ratio nSamples activation =>
    act ← deref activation;
    yd ← Sub Ydiff (of_dense Ypred) Ytrue;
    let n := float_of_Z nSamples in
    g ← gradient Grad X yd Ypred act n;
    let yt := Clone Ytrue in
    let terms :=
      map (fun '(y, h) => (y * log_approx h + (1 - y) * log_approx (1 - h))%float)
        (combine (data yt) (data Ypred)) in
    let Jv := (- (fold_left PrimFloat.add terms 0 / n))%float in
    Ok (Jv, Ypred, yd, g).

Definition LossFunctions (name : string) : option Loss_ :=
  if (name =? "square")%string then Some SquareLoss
  else if (name =? "log")%string then Some LogLoss
  else None.

(** The random source: every draw of Float64 is 0.5 and every permutation is
    the reversal; the state counts the draws. *)
#[global] Instance collaborators : Collaborators :=
  Build_Collaborators
    unit sgd_GetUpdate
    nat (fun n => (0.5%float, S n)) (fun n k => (rev (seq 0 k), S n))
    Logistic Activations Solvers LossFunctions.

(** Two samples of one feature and one target; [Yc] holds two class labels. *)
Definition X0 : Dense := mkDense 2 1 [1%float; 2%float].
Definition Y0 : Dense := mkDense 2 1 [3%float; 5%float].
Definition Yc : Dense := mkDense 2 1 [0%float; 1%float].

(** One sample whose products overflow binary64. *)
Definition Xbig : Dense := mkDense 1 1 [1e308%float].
Definition Ybig : Dense := mkDense 1 1 [(-1e308)%float].

Definition regr0 : MLPRegressor :=
  set_Epochs (NewMLPRegressor [2%Z] "identity" "sgd" 0%float) 1.

End Sample.

(** * Specification predicates *)

(** No element of the matrix is a NaN. *)
Definition no_nan (m : Dense) : Prop :=
  Forall (fun v => PrimFloat.is_nan v = false) (data m).

(** The diff of an interior layer, element (i, j): row i of the diff [nd] of
    the next layer times row j+1 of the weights [theta] of the next layer (its
    rows after the bias row), times Fprime of the prediction. *)
Definition interior_diff (nd theta : Dense) (act : Activation) (yp : Dense)
    (i j : nat) : float :=
  (dot (cols nd) (fun k => at_ nd i k) (fun k => at_ theta (S j) k)
   * Fprime act (at_ yp i j))%float.

Section Specification.
Context `{Collaborators}.

(** Layer [l] is stable under the forward step: running the body of the loop
    again leaves it as it is. *)
Definition stable (X : Dense) (l : nat) (ls : list Layer) : Prop :=
  exists L, ls !! l = Some L /\ forward_layer_value X l ls = Ok L.

(** The buffer is allocated and is an r x c matrix. *)
Definition has_shape (r c : nat) (o : option Dense) : Prop :=
  exists m, o = Some m /\ rows m = r /\ cols m = c.

(** The weights of a layer fed by [inputs] columns have the bias row and one
    row per input. *)
Definition weights_inv (inputs : nat) (L : Layer) : Prop :=
  rows (Theta L) = 1 + inputs.

(** The buffers of a layer fed by [inputs] columns, on a batch of [samples]
    rows; outputs is the number of columns of the weights. *)
Definition buffers_inv (samples inputs : nat) (L : Layer) : Prop :=
  0 < samples /\ 0 < cols (Theta L) /\
  has_shape samples (cols (Theta L)) (Ypred L) /\
  has_shape samples (cols (Theta L)) (Ytrue L) /\
  has_shape samples (cols (Theta L)) (Ydiff L) /\
  has_shape (1 + inputs) (cols (Theta L)) (Grad L) /\
  has_shape (1 + inputs) (cols (Theta L)) (Update L).

(** The shape invariant of a layer whose buffers are allocated. *)
Definition layer_inv (samples inputs : nat) (L : Layer) : Prop :=
  weights_inv inputs L /\ buffers_inv samples inputs L.

(** Before the first forward pass the buffers of a layer are nil; they are
    allocated together by Init. *)
Definition layer_inv_lazy (samples inputs : nat) (L : Layer) : Prop :=
  weights_inv inputs L /\ (Ypred L = None \/ buffers_inv samples inputs L).

(** The number of columns that feed layer [l]: the features of X for the
    first layer, the outputs of the layer below otherwise. *)
Definition input_width (nFeatures : nat) (layers : list Layer) (l : nat) : nat :=
  match l with
  | 0 => nFeatures
  | S l' =>
      match layers !! l' with
      | Some Lp => cols (Theta Lp)
      | None => 0
      end
  end.

(** [P l w L] holds of every layer [L] of the list, [l] its index and [w]
    the number of columns that feed it. *)
Definition net_inv (P : nat -> nat -> Layer -> Prop) (nFeatures : nat)
    (layers : list Layer) : Prop :=
  forall l L, layers !! l = Some L -> P l (input_width nFeatures layers l) L.

(** The invariant during the forward pass: every layer has the lazy
    invariant, and the layers below [n] have their buffers. *)
Definition forward_inv (samples n : nat) (l w : nat) (L : Layer) : Prop :=
  layer_inv_lazy samples w L /\ (l < n -> buffers_inv samples w L).

(** A layer as NewLayer returns it: weights of the right height, no buffer. *)
Definition fresh_inv (l w : nat) (L : Layer) : Prop :=
  weights_inv w L /\ Ypred L = None.

(** A loss keeps the shapes of the buffers it writes when they are not
    empty (an operation of gonum resizes an empty receiver). *)
Definition loss_keeps_shapes (lf : Loss_) : Prop :=
  forall Yt X Th yp yd g a r n act Jl yp' yd' g',
    IsEmpty yp = false -> IsEmpty yd = false -> IsEmpty g = false ->
    lf Yt X Th yp yd g a r n act = Ok (Jl, yp', yd', g') ->
    (rows yp' = rows yp /\ cols yp' = cols yp) /\
    (rows yd' = rows yd /\ cols yd' = cols yd) /\
    (rows g' = rows g /\ cols g' = cols g).

(** GetUpdate keeps the shape of a non-empty update matrix. *)
Definition GetUpdate_keeps_shape : Prop :=
  forall o u g o' u',
    IsEmpty u = false -> GetUpdate o u g = Ok (o', u') ->
    rows u' = rows u /\ cols u' = cols u.

End Specification.

(** ** Further specification functions *)

Section MoreSpecification.
Context `{Collaborators}.

(** The first part of Fit without its two size adjustments: the hidden
    layers, then the output layer. *)
Definition create_layers_unadjusted (regr : MLPRegressor) (X Y : Dense) (rng : Rng)
  : result (list Layer * Rng) :=
  '(layers, prevOutputs, rng) ←
    hidden_layers regr (HiddenLayerSizes regr) (Z.of_nat (cols X)) [] rng;
  let lastActivation :=
    if ((LossName regr =? "cross-entropy") || (LossName regr =? "log"))%string
    then Some Logistic
    else regr_Activation regr in
  creator ← deref (regr_Optimizer regr);
  '(Lout, rng) ← NewLayer (1 + prevOutputs) (Z.of_nat (cols Y)) lastActivation
                   (creator tt) rng;
  Ok (layers ++ [Lout], rng).

(** What one layer computes: activation.F([1 X] dot theta). *)
Definition layer_forward (act : Activation) (Xl theta : Dense) : Dense :=
  tabulate (rows Xl) (cols theta)
    (fun i j =>
       F act (dot (1 + cols Xl) (At (onesAddedMat (of_dense Xl)) i)
                (fun k => at_ theta k j))).

(** The output of the first [n] layers on the input X, from the weights and
    the activations of the layers alone. *)
Fixpoint net_output (X : Dense) (ls : list Layer) (n : nat) : Dense :=
  match n with
  | 0 => X
  | S l =>
      match ls !! l with
      | Some L =>
          match L_Activation L with
          | Some act => layer_forward act (net_output X ls l) (Theta L)
          | None => X
          end
      | None => X
      end
  end.

(** What a forward pass may change of a layer: its predictions, and the nil
    buffers it allocates. *)
Definition forward_keeps (L L' : Layer) : Prop :=
  Theta L' = Theta L /\ L_Activation L' = L_Activation L /\
  L_Optimizer L' = L_Optimizer L /\
  (Ypred L <> None ->
   Ytrue L' = Ytrue L /\ Ydiff L' = Ydiff L /\ Grad L' = Grad L /\
   Update L' = Update L).

(** The dimensions of the weights of a chain of layers on inputs of [prev]
    columns, one layer per entry of [sizes]: each layer has a bias row and
    one row per output of the layer before. *)
Fixpoint layer_sizes (prev : Z) (sizes : list Z) : list (Z * Z) :=
  match sizes with
  | [] => []
  | outputs :: sizes' => ((1 + prev)%Z, outputs) :: layer_sizes outputs sizes'
  end.

Definition theta_dims (L : Layer) : Z * Z :=
  (Z.of_nat (rows (Theta L)), Z.of_nat (cols (Theta L))).

(** The fields of a regressor that configure a fit; the others are Layers,
    Epochs and the run values JFirst and J. *)
Definition same_configuration (r r' : MLPRegressor) : Prop :=
  regr_Optimizer r' = regr_Optimizer r /\ LossName r' = LossName r /\
  regr_Activation r' = regr_Activation r /\
  HiddenLayerSizes r' = HiddenLayerSizes r /\ Alpha r' = Alpha r /\
  L1Ratio r' = L1Ratio r /\ MiniBatchSize r' = MiniBatchSize r /\
  Loss r' = Loss r.

(** The activation Fit gives the first layer: the output layer is the first
    layer when there is no hidden layer. *)
Definition first_activation (regr : MLPRegressor) : option Activation :=
  match HiddenLayerSizes regr with
  | [] =>
      if ((LossName regr =? "cross-entropy") || (LossName regr =? "log"))%string
      then Some Logistic
      else regr_Activation regr
  | _ :: _ => regr_Activation regr
  end.


Definition set_MiniBatchSize (regr : MLPRegressor) (n : Z) : MLPRegressor :=
  mkMLPRegressor (regr_Optimizer regr) (LossName regr) (regr_Activation regr)
    (HiddenLayerSizes regr) (Layers regr) (Alpha regr) (L1Ratio regr)
    (Epochs regr) n (Loss regr) (JFirst regr) (J regr).

(** The result of a computation, mapped when it returns. *)
Definition on_result {A B} (f : A -> B) (r : result A) : result B :=
  match r with
  | Ok a => Ok (f a)
  | Panic msg => Panic msg
  end.

Definition set_fit_MiniBatchSize (n : Z) (st : FitState) : FitState :=
  mkFitState (set_MiniBatchSize (fit_regr st) n) (fit_X st) (fit_Y st) (fit_rng st).

End MoreSpecification.

(** * The model on the sample collaborators *)

Module Run.
Import Sample.

(** The value a computation returns, [d] if it panics. *)
Definition value {A} (d : A) (r : result A) : A :=
  match r with
  | Ok a => a
  | Panic _ => d
  end.

(** The layers [Fit regr0 X0 Y0] creates, the regressor that holds them, and
    the regressor after the forward pass over X0. *)
Definition layers0 : list Layer :=
  Eval vm_compute in value [] ('(ls, _) ← create_layers regr0 X0 Y0 0; Ok ls).

Definition regrA : MLPRegressor := Eval vm_compute in set_Layers regr0 layers0.

Definition regrF : MLPRegressor :=
  Eval vm_compute in value regrA ('(r, _) ← Predict regrA X0 None; Ok r).

(** The matrix Predict writes through its second argument. *)
Definition outF : option Dense :=
  Eval vm_compute in value None ('(_, o) ← Predict regrA X0 (Some Y0); Ok o).

(** The output layer after the forward pass, and after "compute Ydiff". *)
Definition Lout : Layer :=
  Eval vm_compute in value (mkLayer None X0 None None None None None tt)
                       (index (Layers regrF) 1).

Definition Lout' : Layer :=
  Eval vm_compute in value Lout (compute_Ydiff (Layers regrF) Y0 1 1 Lout).

(** The regressor after the backward steps of both layers. *)
Definition regrB : MLPRegressor :=
  Eval vm_compute in
    value regrF (backward_loop (LossFunctions "square") X0 Y0 2 1 0 2 regrF).

(** The state after the first epoch of a fit, and after [Fit regr0 X0 Y0]. *)
Definition st1 : FitState :=
  Eval vm_compute in
    value (mkFitState regrA X0 Y0 0)
      (fit_epoch (LossFunctions "square") 2 1 0 (mkFitState regrA X0 Y0 0)).

Definition st_fit : FitState :=
  Eval vm_compute in value (mkFitState regrA X0 Y0 0) (Fit regr0 X0 Y0 0).

(** The first epoch of [Fit regr0 X0 Y0] up to the backward step of layer 0:
    the diff of layer 0 as the code computes it, the same formula on the
    weights of layer 1 after their update, and on the weights of layer 1
    before their update. *)
Definition diff_after_and_before_update : result (float * float * float) :=
  '(layers, rng) ← create_layers regr0 X0 Y0 0;
  let '(Xs, Ys, rng) := DenseShuffle X0 Y0 rng in
  '(regrF, _) ← Predict (set_Layers regr0 layers) Xs None;
  next0 ← index (Layers regrF) 1;
  regr1 ← backward_layer (LossFunctions "square") Xs Ys 2 1 0 1 regrF;
  next1 ← index (Layers regr1) 1;
  L ← index (Layers regr1) 0;
  L1 ← compute_Ydiff (Layers regr1) Ys 1 0 L;
  yd ← deref (Ydiff L1);
  nd ← deref (Ydiff next1);
  yp ← deref (Ypred L);
  act ← deref (L_Activation L);
  Ok (at_ yd 0 0,
      interior_diff nd (Theta next1) act yp 0 0,
      interior_diff nd (Theta next0) act yp 0 0).

(** JFirst and J after a fit of [regr] on X0, Y0. *)
Definition losses (regr : MLPRegressor) : result (float * float) :=
  st ← Fit regr X0 Y0 0;
  Ok (JFirst (fit_regr st), J (fit_regr st)).

(** The weights of every layer. *)
Definition weights (ls : list Layer) : list (list float) :=
  map (fun L => data (Theta L)) ls.

(** The weights a first fit leaves, and the weights of the layers a second
    fit on the same regressor starts to train (the first step of Fit). *)
Definition weights_left_and_weights_restarted
  : result (list (list float) * list (list float)) :=
  st ← Fit regr0 X0 Y0 0;
  '(ls, _) ← create_layers (set_Layers (fit_regr st) []) (fit_X st) (fit_Y st)
               (fit_rng st);
  Ok (weights (Layers (fit_regr st)), weights ls).

(** A fit of two epochs on one sample of magnitude 1e308: the predictions
    and the weights of the only layer when Fit returns. *)
Definition overflowing_fit : result (list (option (list float) * list float)) :=
  st ← Fit (set_Epochs (NewMLPRegressor [] "identity" "sgd" 0%float) 2) Xbig Ybig 0;
  Ok (map (fun L => (option_map data (Ypred L), data (Theta L)))
        (Layers (fit_regr st))).

(** A regressor with one identity layer of weights (0, 10), and the matrix
    Predict writes for the sample of magnitude 1e308. *)
Definition regr_big : MLPRegressor :=
  set_Layers (NewMLPRegressor [] "identity" "sgd" 0%float)
    [mkLayer (Some Identity) (mkDense 2 1 [0%float; 10%float])
       None None None None None tt].

Definition overflowing_predict : result (option Dense) :=
  '(_, out) ← Predict regr_big Xbig (Some Ybig);
  Ok out.

(** The activations of the layers after a fit of a classifier. *)
Definition classifier_activations : result (list (option Activation)) :=
  st ← Fit (set_Epochs (NewMLPClassifier [2%Z] "relu" "sgd" 0%float) 1) X0 Yc 0;
  Ok (map L_Activation (Layers (fit_regr st))).

(** A regressor whose Loss field names no loss function. *)
Definition regr_no_loss : MLPRegressor :=
  mkMLPRegressor (Solvers "sgd") "" (Activations "identity") [] [] 0%float 0%float
    1%Z 0%Z "nope" 0%float 0%float.

(** A regressor whose solver name is not registered, and one with a negative
    hidden layer size. *)
Definition regr_no_solver : MLPRegressor :=
  NewMLPRegressor [] "identity" "nope" 0%float.

Definition regr_negative_size : MLPRegressor :=
  NewMLPRegressor [3%Z; (-1)%Z] "identity" "sgd" 0%float.

(** Data with two features, and data with one sample. *)
Definition X2cols : Dense :=
  mkDense 2 2 [1%float; 2%float; 3%float; 4%float].

Definition X1row : Dense := mkDense 1 1 [1%float].

(** A regressor whose activation name is not registered. *)
Definition regr_no_activation : MLPRegressor :=
  NewMLPRegressor [2%Z] "nope" "sgd" 0%float.

(** Targets for one sample. *)
Definition Y1row : Dense := mkDense 1 1 [3%float].

(** The regressor after the backward step of the output layer alone. *)
Definition regrB1 : MLPRegressor :=
  Eval vm_compute in
    value regrF (backward_layer (LossFunctions "square") X0 Y0 2 1 0 1 regrF).

End Run.

(** * Properties *)

Lemma bind_Ok {A B} (m : result A) (f : A -> result B) (b : B) :
  m ≫= f = Ok b <-> exists a, m = Ok a /\ f a = Ok b.
Proof.
  destruct m as [a|msg]; simpl; split.
  - intros Hf. exists a. auto.
  - intros (a' & Ha & Hf). injection Ha as ->. exact Hf.
  - discriminate.
  - intros (a' & Ha & _). discriminate.
Qed.

Lemma deref_Ok {A} (p : option A) (a : A) : deref p = Ok a <-> p = Some a.
Proof. destruct p; simpl; split; congruence. Qed.

Lemma index_Ok {A} (s : list A) (i : nat) (a : A) : index s i = Ok a <-> s !! i = Some a.
Proof. unfold index. destruct (s !! i); split; congruence. Qed.

(** ** Dense matrices *)

Lemma nth_flat_map_rows {A} (f : nat -> list A) (c : nat) (d : A) :
  (forall i, length (f i) = c) ->
  forall r s i j, i < r -> j < c ->
    nth (i * c + j) (flat_map f (seq s r)) d = nth j (f (s + i)) d.
Proof.
  intros Hlen r. induction r as [|r IH]; intros s i j Hi Hj; [lia|].
  simpl. destruct i as [|i].
  - rewrite Nat.add_0_r. simpl. rewrite app_nth1; [reflexivity|].
    rewrite Hlen. exact Hj.
  - rewrite app_nth2; rewrite Hlen; [|simpl; lia].
    replace (S i * c + j - c) with (i * c + j) by (simpl; lia).
    rewrite IH by lia. f_equal. f_equal. lia.
Qed.

Lemma at_tabulate (r c : nat) (f : nat -> nat -> float) (i j : nat) :
  i < r -> j < c -> at_ (tabulate r c f) i j = f i j.
Proof.
  intros Hi Hj. unfold at_, tabulate. simpl.
  rewrite (nth_flat_map_rows (fun i => map (f i) (seq 0 c)) c).
  - simpl. rewrite (nth_indep _ 0%float (f i 0)).
    + rewrite map_nth. rewrite seq_nth by exact Hj. reflexivity.
    + rewrite length_map, length_seq. exact Hj.
  - intros k. rewrite length_map, length_seq. reflexivity.
  - exact Hi.
  - exact Hj.
Qed.

Lemma reuseAs_Ok (m : Dense) (r c : nat) (u : unit) :
  reuseAs m r c = Ok u ->
  0 < r /\ 0 < c /\ (IsEmpty m = true \/ (rows m = r /\ cols m = c)).
Proof.
  unfold reuseAs.
  destruct (r =? 0) eqn:Hr; [discriminate|].
  destruct (c =? 0) eqn:Hc; [discriminate|]. simpl.
  apply Nat.eqb_neq in Hr, Hc.
  destruct (IsEmpty m); [intros _; split; [lia|split; [lia|left; reflexivity]]|].
  destruct (rows m =? r) eqn:Hmr; [|discriminate].
  destruct (cols m =? c) eqn:Hmc; [|discriminate].
  apply Nat.eqb_eq in Hmr, Hmc. intros _. split; [lia|split; [lia|right; auto]].
Qed.

Lemma reuseAs_same (m : Dense) (r c : nat) :
  0 < r -> 0 < c -> rows m = r -> cols m = c -> reuseAs m r c = Ok tt.
Proof.
  intros Hr Hc Hmr Hmc. unfold reuseAs, IsEmpty.
  destruct (r =? 0) eqn:E1; [apply Nat.eqb_eq in E1; lia|].
  destruct (c =? 0) eqn:E2; [apply Nat.eqb_eq in E2; lia|]. simpl.
  rewrite Hmr, Hmc, E1, E2. simpl. rewrite !Nat.eqb_refl. reflexivity.
Qed.

Lemma Mul_Ok (m : Dense) (a b : Matrix) (m' : Dense) :
  Mul m a b = Ok m' ->
  snd (Dims a) = fst (Dims b) /\
  reuseAs m (fst (Dims a)) (snd (Dims b)) = Ok tt /\
  m' = tabulate (fst (Dims a)) (snd (Dims b))
         (fun i j => dot (snd (Dims a)) (At a i) (fun k => At b k j)).
Proof.
  unfold Mul. destruct (Dims a) as [ar ac], (Dims b) as [br bc]. simpl.
  destruct (ac =? br) eqn:E; simpl; [|discriminate].
  apply Nat.eqb_eq in E. intros Hb. apply bind_Ok in Hb as ([] & Hr & Hm).
  injection Hm as <-. auto.
Qed.

Lemma elementwise_Ok (op : float -> float -> float) (m : Dense) (a b : Matrix)
    (m' : Dense) :
  elementwise op m a b = Ok m' ->
  Dims a = Dims b /\
  reuseAs m (fst (Dims a)) (snd (Dims a)) = Ok tt /\
  m' = tabulate (fst (Dims a)) (snd (Dims a)) (fun i j => op (At a i j) (At b i j)).
Proof.
  unfold elementwise. destruct (Dims a) as [ar ac], (Dims b) as [br bc]. simpl.
  destruct (ar =? br) eqn:E1; simpl; [|discriminate].
  destruct (ac =? bc) eqn:E2; simpl; [|discriminate].
  apply Nat.eqb_eq in E1, E2. intros Hb. apply bind_Ok in Hb as ([] & Hr & Hm).
  injection Hm as <-. subst. auto.
Qed.

Lemma NewDense_Ok (r c : Z) (m : Dense) :
  NewDense r c = Ok m ->
  (0 < r)%Z /\ (0 < c)%Z /\ rows m = Z.to_nat r /\ cols m = Z.to_nat c.
Proof.
  unfold NewDense.
  destruct (r <=? 0)%Z eqn:Hr; simpl.
  { destruct ((r =? 0)%Z || (c =? 0)%Z); discriminate. }
  destruct (c <=? 0)%Z eqn:Hc; simpl.
  { destruct ((r =? 0)%Z || (c =? 0)%Z); discriminate. }
  intros Hm. injection Hm as <-. simpl. lia.
Qed.

Lemma tabulate_ext (r c : nat) (f g : nat -> nat -> float) :
  (forall i j, i < r -> j < c -> f i j = g i j) -> tabulate r c f = tabulate r c g.
Proof.
  intros Hfg. unfold tabulate. f_equal.
  rewrite !flat_map_concat_map. f_equal.
  apply map_ext_in. intros i Hi. apply in_seq in Hi.
  apply map_ext_in. intros j Hj. apply in_seq in Hj.
  apply Hfg; lia.
Qed.

Lemma Clone_tabulate (r c : nat) (f : nat -> nat -> float) :
  Clone (of_dense (tabulate r c f)) = tabulate r c f.
Proof.
  unfold Clone. simpl. apply tabulate_ext. intros i j Hi Hj.
  apply at_tabulate; assumption.
Qed.

Lemma Clone_Clone (a : Matrix) : Clone (of_dense (Clone a)) = Clone a.
Proof.
  change (Clone a) with (tabulate (fst (Dims a)) (snd (Dims a)) (At a)).
  apply Clone_tabulate.
Qed.

Lemma Mul_receiver (m m2 : Dense) (a b : Matrix) (r : Dense) :
  Mul m a b = Ok r -> rows m2 = rows r -> cols m2 = cols r -> Mul m2 a b = Ok r.
Proof.
  intros Hm Hr Hc. apply Mul_Ok in Hm as (Hab & Hre & ->). simpl in Hr, Hc.
  apply reuseAs_Ok in Hre as (Hpr & Hpc & _).
  unfold Mul. destruct (Dims a) as [ar ac], (Dims b) as [br bc]. simpl in *.
  subst br. rewrite Nat.eqb_refl. simpl.
  rewrite (reuseAs_same m2 ar bc) by assumption. reflexivity.
Qed.

(** ** No NaN leaves Apply with panicIfNaN *)

Lemma sequence_panicIfNaN (l d : list float) :
  sequence (map panicIfNaN l) = Ok d ->
  d = l /\ Forall (fun v => PrimFloat.is_nan v = false) l.
Proof.
  revert d. induction l as [|x l IH]; intros d Hs; simpl in Hs.
  - injection Hs as <-. split; [reflexivity|constructor].
  - apply bind_Ok in Hs as (a & Ha & Hs).
    apply bind_Ok in Hs as (r & Hr & Hs). injection Hs as <-.
    unfold panicIfNaN in Ha. destruct (PrimFloat.is_nan x) eqn:Hx; [discriminate|].
    injection Ha as <-. destruct (IH r Hr) as [-> Hall].
    split; [reflexivity|constructor; assumption].
Qed.

Lemma map_flat_map_rows {A B} (g : A -> B) (f : nat -> list A) (l : list nat) :
  map g (flat_map f l) = flat_map (fun i => map g (f i)) l.
Proof.
  induction l as [|x l IH]; simpl; [reflexivity|].
  rewrite map_app, IH. reflexivity.
Qed.

Lemma Apply_panicIfNaN_Ok (m : Dense) (a : Matrix) (m' : Dense) :
  Apply m (fun _ _ v => panicIfNaN v) a = Ok m' ->
  reuseAs m (fst (Dims a)) (snd (Dims a)) = Ok tt /\ m' = Clone a /\ no_nan m'.
Proof.
  unfold Apply. destruct (Dims a) as [ar ac] eqn:Hd. simpl.
  intros Hb. apply bind_Ok in Hb as ([] & Hre & Hb).
  apply bind_Ok in Hb as (d & Hs & Hb). injection Hb as <-.
  replace (flat_map (fun i => map (fun j => panicIfNaN (At a i j)) (seq 0 ac)) (seq 0 ar))
    with (map panicIfNaN (data (Clone a))) in Hs.
  - apply sequence_panicIfNaN in Hs as [-> Hall].
    split; [exact Hre|]. unfold Clone in *. rewrite Hd in *. simpl in *.
    split; [reflexivity|exact Hall].
  - unfold Clone, tabulate. rewrite Hd. simpl. rewrite map_flat_map_rows.
    apply flat_map_ext. intros i. rewrite map_map. reflexivity.
Qed.

Section Proofs.
Context `{Collaborators}.

(** ** The forward pass *)

Lemma layer_input_insert (X : Dense) (ls : list Layer) (l : nat) (L : Layer) :
  layer_input X (<[l := L]> ls) l = layer_input X ls l.
Proof.
  destruct l as [|l']; simpl; [reflexivity|].
  unfold index. rewrite list_lookup_insert_ne by lia. reflexivity.
Qed.

Lemma forward_layer_value_Ok (X : Dense) (l : nat) (ls : list Layer) (L' : Layer) :
  forward_layer_value X l ls = Ok L' ->
  exists L Xl L1 yp yp1 act,
    ls !! l = Some L /\
    layer_input X ls l = Ok Xl /\
    match Ypred L with
    | None => Init L (Z.of_nat (rows Xl)) (Z.of_nat (cols Xl))
    | Some _ => Ok L
    end = Ok L1 /\
    Ypred L1 = Some yp /\
    Mul yp (onesAddedMat (of_dense Xl)) (of_dense (Theta L1)) = Ok yp1 /\
    L_Activation L1 = Some act /\
    Apply (Clone (appliedMat (of_dense yp1) (F act))) (fun _ _ v => panicIfNaN v)
      (of_dense (Clone (appliedMat (of_dense yp1) (F act))))
      = Ok (Clone (appliedMat (of_dense yp1) (F act))) /\
    no_nan (Clone (appliedMat (of_dense yp1) (F act))) /\
    L' = set_Ypred L1 (Clone (appliedMat (of_dense yp1) (F act))).
Proof.
  unfold forward_layer_value. intros Hf.
  apply bind_Ok in Hf as (L & HL & Hf). apply index_Ok in HL.
  apply bind_Ok in Hf as (Xl & HXl & Hf).
  apply bind_Ok in Hf as (L1 & HL1 & Hf).
  apply bind_Ok in Hf as (yp & Hyp & Hf).
  apply bind_Ok in Hf as (yp1 & Hyp1 & Hf).
  apply bind_Ok in Hf as (act & Hact & Hf). apply deref_Ok in Hact.
  apply bind_Ok in Hf as (yp3 & Hyp3 & Hf). injection Hf as <-.
  exists L, Xl, L1, yp, yp1, act.
  destruct (Ypred L1) as [yp'|] eqn:E; [|discriminate]. injection Hyp as ->.
  pose proof (Apply_panicIfNaN_Ok _ _ _ Hyp3) as (_ & Heq & Hnn).
  rewrite Clone_Clone in Heq.
  subst yp3. repeat split; assumption.
Qed.

Lemma Init_Ok (L : Layer) (samples inputs : Z) (L1 : Layer) :
  Init L samples inputs = Ok L1 ->
  exists yt yp yd g u,
    L1 = mkLayer (L_Activation L) (Theta L) (Some yt) (Some yp) (Some yd)
           (Some g) (Some u) (L_Optimizer L) /\
    (0 < samples)%Z /\ (0 < Z.of_nat (cols (Theta L)))%Z /\
    (rows yt = Z.to_nat samples /\ cols yt = cols (Theta L)) /\
    (rows yp = Z.to_nat samples /\ cols yp = cols (Theta L)) /\
    (rows yd = Z.to_nat samples /\ cols yd = cols (Theta L)) /\
    (rows g = Z.to_nat (1 + inputs) /\ cols g = cols (Theta L)) /\
    (rows u = Z.to_nat (1 + inputs) /\ cols u = cols (Theta L)).
Proof.
  unfold Init. intros Hi.
  apply bind_Ok in Hi as (yp & Hyp & Hi).
  apply bind_Ok in Hi as (yt & Hyt & Hi).
  apply bind_Ok in Hi as (yd & Hyd & Hi).
  apply bind_Ok in Hi as (g & Hg & Hi).
  apply bind_Ok in Hi as (u & Hu & Hi). injection Hi as <-.
  apply NewDense_Ok in Hyp as (? & ? & ? & ?), Hyt as (? & ? & ? & ?),
    Hyd as (? & ? & ? & ?), Hg as (? & ? & ? & ?), Hu as (? & ? & ? & ?).
  exists yt, yp, yd, g, u. rewrite Nat2Z.id in *. repeat split; assumption.
Qed.

Lemma forward_layer_value_idem (X : Dense) (l : nat) (ls : list Layer) (L' : Layer) :
  forward_layer_value X l ls = Ok L' ->
  forward_layer_value X l (<[l := L']> ls) = Ok L'.
Proof.
  intros Hf.
  apply forward_layer_value_Ok in Hf
    as (L & Xl & L1 & yp & yp1 & act & HL & HXl & HL1 & Hyp & Hmul & Hact & Happ & _ & ->).
  unfold forward_layer_value.
  unfold index at 1. rewrite list_lookup_insert_eq by (eapply lookup_lt_Some; eassumption).
  simpl. rewrite layer_input_insert, HXl. simpl.
  assert (HTh : Theta L1 = Theta L /\ L_Activation L1 = L_Activation L).
  { destruct (Ypred L); [injection HL1 as <-; auto|].
    apply Init_Ok in HL1 as (? & ? & ? & ? & ? & -> & _). auto. }
  rewrite (Mul_receiver _ _ _ _ _ Hmul) by (apply Mul_Ok in Hmul as (_ & _ & ->); reflexivity).
  simpl. rewrite Hact. simpl. rewrite Happ. simpl. reflexivity.
Qed.

Lemma forward_layer_value_ext (X : Dense) (l : nat) (ls1 ls2 : list Layer) :
  ls1 !! l = ls2 !! l ->
  (forall l', l = S l' -> ls1 !! l' = ls2 !! l') ->
  forward_layer_value X l ls1 = forward_layer_value X l ls2.
Proof.
  intros Hl Hp. unfold forward_layer_value, index. rewrite Hl.
  destruct (ls2 !! l) as [L|]; [simpl|reflexivity].
  replace (layer_input X ls1 l) with (layer_input X ls2 l); [reflexivity|].
  destruct l as [|l']; simpl; [reflexivity|].
  unfold index. rewrite (Hp l' eq_refl). reflexivity.
Qed.

Lemma forward_layer_Ok (X : Dense) (l : nat) (ls ls' : list Layer) :
  forward_layer X l ls = Ok ls' ->
  exists L', forward_layer_value X l ls = Ok L' /\ ls' = <[l := L']> ls /\ l < length ls.
Proof.
  unfold forward_layer. intros Hf.
  apply bind_Ok in Hf as (L' & HL' & Hf). injection Hf as <-.
  exists L'. split; [exact HL'|split; [reflexivity|]].
  apply forward_layer_value_Ok in HL' as (L & ? & ? & ? & ? & ? & HL & _).
  eapply lookup_lt_Some; eassumption.
Qed.

Lemma forward_layer_stable (X : Dense) (l : nat) (ls ls' : list Layer) :
  forward_layer X l ls = Ok ls' -> stable X l ls'.
Proof.
  intros Hf. apply forward_layer_Ok in Hf as (L' & HL' & -> & Hlt).
  exists L'. split; [apply list_lookup_insert_eq; exact Hlt|].
  apply forward_layer_value_idem. exact HL'.
Qed.

Lemma forward_layer_stable_frame (X : Dense) (l m : nat) (ls ls' : list Layer) :
  stable X l ls -> l < m -> forward_layer X m ls = Ok ls' -> stable X l ls'.
Proof.
  intros (L & HL & Hv) Hlm Hf.
  apply forward_layer_Ok in Hf as (L' & HL' & -> & Hlt).
  exists L. split; [rewrite list_lookup_insert_ne by lia; exact HL|].
  rewrite <- Hv. apply forward_layer_value_ext.
  - apply list_lookup_insert_ne. lia.
  - intros l' ->. apply list_lookup_insert_ne. lia.
Qed.

Lemma forward_upto_stable (X : Dense) (n : nat) (ls ls' : list Layer) :
  forward_upto X n ls = Ok ls' -> forall l, l < n -> stable X l ls'.
Proof.
  revert ls'. induction n as [|n IH]; intros ls' Hf l Hl; [lia|].
  simpl in Hf. apply bind_Ok in Hf as (ls1 & H1 & Hf).
  destruct (decide (l = n)) as [->|Hne].
  - eapply forward_layer_stable; eassumption.
  - apply (forward_layer_stable_frame X l n ls1 ls'); [apply (IH ls1 H1); lia|lia|exact Hf].
Qed.

Lemma stable_forward_upto (X : Dense) (n : nat) (ls : list Layer) :
  (forall l, l < n -> stable X l ls) -> forward_upto X n ls = Ok ls.
Proof.
  induction n as [|n IH]; intros Hs; [reflexivity|].
  simpl. rewrite IH by (intros l Hl; apply Hs; lia). simpl.
  destruct (Hs n (Nat.lt_succ_diag_r n)) as (L & HL & Hv).
  unfold forward_layer. rewrite Hv. simpl. rewrite list_insert_id by exact HL.
  reflexivity.
Qed.

Lemma forward_upto_length (X : Dense) (n : nat) (ls ls' : list Layer) :
  forward_upto X n ls = Ok ls' -> length ls' = length ls.
Proof.
  revert ls'. induction n as [|n IH]; intros ls' Hf; simpl in Hf.
  - injection Hf as <-. reflexivity.
  - apply bind_Ok in Hf as (ls1 & H1 & Hf).
    apply forward_layer_Ok in Hf as (L' & _ & -> & _).
    rewrite length_insert. apply IH. exact H1.
Qed.

(** C8. A second call of Predict with the same X, on the network as the
    first call left it (the weights are not touched in between), returns the
    same output and leaves every layer as it was. *)
Theorem C8_Predict_idempotent (regr regr1 : MLPRegressor) (X : Dense)
    (Y out : option Dense) :
  Predict regr X Y = Ok (regr1, out) ->
  Predict regr1 X out = Ok (regr1, out).
Proof.
  unfold Predict. intros Hp.
  apply bind_Ok in Hp as (ls & Hls & Hp).
  assert (Hlen : length ls = length (Layers regr))
    by (eapply forward_upto_length; eassumption).
  assert (Hst : forward_upto X (length ls) ls = Ok ls).
  { apply stable_forward_upto. intros l Hl.
    eapply forward_upto_stable; [eassumption|lia]. }
  destruct Y as [y|].
  - apply bind_Ok in Hp as (L & HL & Hp).
    apply bind_Ok in Hp as (yp & Hyp & Hp). injection Hp as <- <-.
    simpl. rewrite Hst. simpl. rewrite HL. simpl. rewrite Hyp. simpl.
    reflexivity.
  - injection Hp as <- <-. simpl. rewrite Hst. reflexivity.
Qed.

Lemma stable_no_nan (X : Dense) (l : nat) (ls : list Layer) (L : Layer) :
  stable X l ls -> ls !! l = Some L -> exists yp, Ypred L = Some yp /\ no_nan yp.
Proof.
  intros (L' & HL' & Hv) HL. rewrite HL in HL'. injection HL' as <-.
  apply forward_layer_value_Ok in Hv
    as (L0 & Xl & L1 & yp & yp1 & act & _ & _ & _ & _ & _ & _ & _ & Hnn & ->).
  eexists. split; [reflexivity|exact Hnn].
Qed.

(** C2, amended. The forward pass checks every prediction it writes with
    panicIfNaN: when Predict returns, no layer's predictions hold a NaN, and
    neither does the output matrix. *)
Theorem C2_Predict_writes_no_NaN (regr regr1 : MLPRegressor) (X : Dense)
    (Y out : option Dense) :
  Predict regr X Y = Ok (regr1, out) ->
  (forall l L, Layers regr1 !! l = Some L ->
     exists yp, Ypred L = Some yp /\ no_nan yp) /\
  (forall y, out = Some y -> no_nan y).
Proof.
  unfold Predict. intros Hp.
  apply bind_Ok in Hp as (ls & Hls & Hp).
  assert (Hlen : length ls = length (Layers regr))
    by (eapply forward_upto_length; eassumption).
  assert (Hall : forall l L, ls !! l = Some L ->
            exists yp, Ypred L = Some yp /\ no_nan yp).
  { intros l L HL. apply (stable_no_nan X l ls); [|exact HL].
    eapply forward_upto_stable; [eassumption|].
    rewrite <- Hlen. eapply lookup_lt_Some; eassumption. }
  destruct Y as [y0|].
  - apply bind_Ok in Hp as (L & HL & Hp). apply index_Ok in HL.
    apply bind_Ok in Hp as (yp & Hyp & Hp). apply deref_Ok in Hyp.
    injection Hp as <- <-. simpl. split; [exact Hall|].
    intros y Hy. injection Hy as <-.
    destruct (Hall _ _ HL) as (yp' & Hyp' & Hnn).
    rewrite Hyp in Hyp'. injection Hyp' as <-.
    pose proof (forward_upto_stable _ _ _ _ Hls (length ls - 1)) as Hst.
    destruct Hst as (L' & HL' & Hv).
    { rewrite <- Hlen. apply lookup_lt_Some in HL. lia. }
    rewrite HL in HL'. injection HL' as <-.
    apply forward_layer_value_Ok in Hv
      as (L0 & Xl & L1 & yp0 & yp1 & act & _ & _ & _ & _ & _ & _ & _ & Hnn' & HeqL).
    rewrite HeqL in Hyp. simpl in Hyp. injection Hyp as <-.
    rewrite Clone_Clone. exact Hnn'.
  - injection Hp as <- <-. simpl. split; [exact Hall|]. intros y Hy. discriminate.
Qed.

(** ** The backward pass *)

Lemma Mul_shape (m : Dense) (a b : Matrix) (r : Dense) :
  Mul m a b = Ok r ->
  rows r = fst (Dims a) /\ cols r = snd (Dims b) /\ 0 < rows r /\ 0 < cols r /\
  snd (Dims a) = fst (Dims b) /\
  (IsEmpty m = false -> rows r = rows m /\ cols r = cols m).
Proof.
  intros Hm. apply Mul_Ok in Hm as (Hab & Hre & ->). simpl.
  apply reuseAs_Ok in Hre as (Hr & Hc & Hm).
  split; [reflexivity|]. split; [reflexivity|].
  split; [assumption|]. split; [assumption|]. split; [assumption|].
  intros He. destruct Hm as [Hm|[<- <-]]; [congruence|split; reflexivity].
Qed.

Lemma elementwise_shape (op : float -> float -> float) (m : Dense) (a b : Matrix)
    (r : Dense) :
  elementwise op m a b = Ok r ->
  rows r = fst (Dims a) /\ cols r = snd (Dims a) /\ 0 < rows r /\ 0 < cols r /\
  Dims a = Dims b /\
  (IsEmpty m = false -> rows r = rows m /\ cols r = cols m).
Proof.
  intros Hm. apply elementwise_Ok in Hm as (Hab & Hre & ->). simpl.
  apply reuseAs_Ok in Hre as (Hr & Hc & Hm).
  split; [reflexivity|]. split; [reflexivity|].
  split; [assumption|]. split; [assumption|]. split; [assumption|].
  intros He. destruct Hm as [Hm|[<- <-]]; [congruence|split; reflexivity].
Qed.

Lemma compute_Ydiff_output (layers : list Layer) (Y : Dense) (outputLayer l : nat)
    (L L' : Layer) :
  (l =? outputLayer) = true ->
  compute_Ydiff layers Y outputLayer l L = Ok L' ->
  exists yp yt0 yd0,
    Ypred L = Some yp /\ Ytrue L = Some yt0 /\ Ydiff L = Some yd0 /\
    rows yp = rows Y /\ cols yp = cols Y /\ 0 < rows yp /\ 0 < cols yp /\
    L' = set_Ytrue_Ydiff L (Clone (of_dense Y))
           (tabulate (rows yp) (cols yp) (fun i j => (at_ yp i j - at_ Y i j)%float)).
Proof.
  unfold compute_Ydiff. intros -> Hc.
  apply bind_Ok in Hc as (yt0 & Hyt0 & Hc). apply deref_Ok in Hyt0.
  apply bind_Ok in Hc as (yd0 & Hyd0 & Hc). apply deref_Ok in Hyd0.
  apply bind_Ok in Hc as (yp & Hyp & Hc). apply deref_Ok in Hyp.
  apply bind_Ok in Hc as (yd & Hyd & Hc). injection Hc as <-.
  pose proof (elementwise_shape _ _ _ _ _ Hyd) as (Hr & Hcs & Hpr & Hpc & Hd & _).
  apply elementwise_Ok in Hyd as (_ & _ & ->). simpl in *.
  injection Hd as Hd1 Hd2.
  exists yp, yt0, yd0. repeat split; assumption.
Qed.

Lemma compute_Ydiff_interior (layers : list Layer) (Y : Dense) (outputLayer l : nat)
    (L L' : Layer) :
  (l =? outputLayer) = false ->
  compute_Ydiff layers Y outputLayer l L = Ok L' ->
  exists next nd act yp,
    layers !! (l + 1) = Some next /\ Ydiff next = Some nd /\
    L_Activation L = Some act /\ Ypred L = Some yp /\
    rows nd = rows yp /\ cols nd = cols (Theta next) /\
    rows (Theta next) - 1 = cols yp /\ 0 < rows yp /\ 0 < cols yp /\
    L' = set_Ytrue_Ydiff L
           (tabulate (rows yp) (cols yp)
              (fun i j => (at_ yp i j - interior_diff nd (Theta next) act yp i j)%float))
           (tabulate (rows yp) (cols yp) (interior_diff nd (Theta next) act yp)).
Proof.
  unfold compute_Ydiff. intros -> Hc.
  apply bind_Ok in Hc as (next & Hnext & Hc). apply index_Ok in Hnext.
  apply bind_Ok in Hc as (yd0 & _ & Hc).
  apply bind_Ok in Hc as (nd & Hnd & Hc). apply deref_Ok in Hnd.
  apply bind_Ok in Hc as (yd1 & Hyd1 & Hc).
  apply bind_Ok in Hc as (yp & Hyp & Hc). apply deref_Ok in Hyp.
  apply bind_Ok in Hc as (act & Hact & Hc). apply deref_Ok in Hact.
  apply bind_Ok in Hc as (yd2 & Hyd2 & Hc).
  apply bind_Ok in Hc as (yt0 & _ & Hc).
  apply bind_Ok in Hc as (yt & Hyt & Hc). injection Hc as <-.
  pose proof (Mul_shape _ _ _ _ Hyd1) as (Hr1 & Hc1 & Hpr & Hpc & Hin & _).
  apply Mul_Ok in Hyd1 as (_ & _ & Hyd1). simpl in Hr1, Hc1, Hin, Hyd1.
  apply elementwise_Ok in Hyd2 as (Hd2 & _ & Hyd2). simpl in Hd2, Hyd2.
  apply elementwise_Ok in Hyt as (Hdt & _ & Hyt). simpl in Hdt, Hyt.
  injection Hd2 as Hr2 Hc2.
  assert (Hyd2' : yd2 = tabulate (rows yp) (cols yp) (interior_diff nd (Theta next) act yp)).
  { rewrite Hyd2, Hr2, Hc2. apply tabulate_ext. intros i j Hi Hj.
    unfold interior_diff. f_equal. rewrite Hyd1. apply at_tabulate; lia. }
  exists next, nd, act, yp.
  repeat split; try assumption; try lia.
  f_equal.
  - rewrite Hyt. apply tabulate_ext. intros i j Hi Hj. f_equal.
    rewrite Hyd2'. apply at_tabulate; assumption.
  - exact Hyd2'.
Qed.

(** C1. The block "compute Ydiff" of the backward pass.  For the output
    layer the targets become a copy of Y and the diff is predictions - Y.
    For an interior layer l the diff is the product of the diff of layer
    l+1 with the transposed weights of layer l+1 without their bias row,
    multiplied elementwise by Fprime of the predictions of layer l, and the
    targets are predictions - diff.  The predictions and the weights of the
    layer are left as they were. *)
Theorem C1_compute_Ydiff (layers : list Layer) (Y : Dense) (outputLayer l : nat)
    (L L' : Layer) :
  compute_Ydiff layers Y outputLayer l L = Ok L' ->
  exists yp yt yd,
    Ypred L = Some yp /\ Ypred L' = Some yp /\
    Ytrue L' = Some yt /\ Ydiff L' = Some yd /\ Theta L' = Theta L /\
    if l =? outputLayer then
      (rows yt = rows Y /\ cols yt = cols Y /\
       forall i j, i < rows Y -> j < cols Y -> at_ yt i j = at_ Y i j) /\
      (rows yd = rows yp /\ cols yd = cols yp /\
       forall i j, i < rows yp -> j < cols yp ->
         at_ yd i j = (at_ yp i j - at_ Y i j)%float)
    else
      exists next nd act,
        layers !! (l + 1) = Some next /\ Ydiff next = Some nd /\
        L_Activation L = Some act /\
        rows yd = rows yp /\ cols yd = cols yp /\
        rows yt = rows yp /\ cols yt = cols yp /\
        forall i j, i < rows yp -> j < cols yp ->
          at_ yd i j =
            (dot (cols nd) (fun k => at_ nd i k) (fun k => at_ (Theta next) (S j) k)
             * Fprime act (at_ yp i j))%float /\
          at_ yt i j = (at_ yp i j - at_ yd i j)%float.
Proof.
  intros Hc. destruct (l =? outputLayer) eqn:Hl.
  - apply compute_Ydiff_output in Hc
      as (yp & yt0 & yd0 & Hyp & _ & _ & Hr & Hcs & _ & _ & ->); [|exact Hl].
    eexists yp, _, _. simpl.
    repeat split; try assumption; try reflexivity.
    + intros i j Hi Hj. unfold Clone. simpl. apply at_tabulate; assumption.
    + intros i j Hi Hj. apply at_tabulate; assumption.
  - apply compute_Ydiff_interior in Hc
      as (next & nd & act & yp & Hnext & Hnd & Hact & Hyp & _ & _ & _ & _ & _ & ->);
      [|exact Hl].
    eexists yp, _, _. simpl.
    repeat split; try assumption; try reflexivity.
    exists next, nd, act.
    repeat split; try assumption; try reflexivity.
    + rewrite at_tabulate by assumption. reflexivity.
    + rewrite !at_tabulate by assumption. reflexivity.
Qed.

Lemma compute_Ydiff_frame (layers : list Layer) (Y : Dense) (outputLayer l : nat)
    (L L' : Layer) :
  compute_Ydiff layers Y outputLayer l L = Ok L' ->
  exists yt yd, L' = set_Ytrue_Ydiff L yt yd.
Proof.
  intros Hc. destruct (l =? outputLayer) eqn:Hl.
  - apply compute_Ydiff_output in Hc as (? & ? & ? & _ & _ & _ & _ & _ & _ & _ & ->);
      [eauto|exact Hl].
  - apply compute_Ydiff_interior in Hc
      as (? & ? & ? & ? & _ & _ & _ & _ & _ & _ & _ & _ & _ & ->); [eauto|exact Hl].
Qed.

Lemma loss_and_update_Ok (lossFunc : option Loss_) (regr : MLPRegressor) (Xl : Dense)
    (nSamples : Z) (L : Layer) (Jl : float) (L2 : Layer) :
  loss_and_update lossFunc regr Xl nSamples L = Ok (Jl, L2) ->
  exists lf yt yp yd g yp' yd' g' u o' u' th',
    lossFunc = Some lf /\
    Ytrue L = Some yt /\ Ypred L = Some yp /\ Ydiff L = Some yd /\ Grad L = Some g /\
    lf (of_dense yt) (onesAddedMat (of_dense Xl)) (Theta L) yp yd g
       (Alpha regr) (L1Ratio regr) nSamples (L_Activation L) = Ok (Jl, yp', yd', g') /\
    Update L = Some u /\
    GetUpdate (L_Optimizer L) u g' = Ok (o', u') /\
    Add (Theta L) (of_dense (Theta L)) (of_dense u') = Ok th' /\
    L2 = mkLayer (L_Activation L) th' (Ytrue L) (Some yp') (Some yd') (Some g')
           (Some u') o'.
Proof.
  unfold loss_and_update. intros Hl.
  apply bind_Ok in Hl as (lf & Hlf & Hl). apply deref_Ok in Hlf.
  apply bind_Ok in Hl as (yt & Hyt & Hl). apply deref_Ok in Hyt.
  apply bind_Ok in Hl as (yp & Hyp & Hl). apply deref_Ok in Hyp.
  apply bind_Ok in Hl as (yd & Hyd & Hl). apply deref_Ok in Hyd.
  apply bind_Ok in Hl as (g & Hg & Hl). apply deref_Ok in Hg.
  apply bind_Ok in Hl as ([[[Jl' yp'] yd'] g'] & Hloss & Hl).
  apply bind_Ok in Hl as (u & Hu & Hl). apply deref_Ok in Hu.
  apply bind_Ok in Hl as ([o' u'] & Hup & Hl).
  apply bind_Ok in Hl as (th' & Hth & Hl). injection Hl as <- <-.
  exists lf, yt, yp, yd, g, yp', yd', g', u, o', u', th'.
  repeat split; assumption.
Qed.

Lemma backward_layer_Ok (lossFunc : option Loss_) (X Y : Dense) (nSamples : Z)
    (outputLayer epoch l : nat) (regr regr1 : MLPRegressor) :
  backward_layer lossFunc X Y nSamples outputLayer epoch l regr = Ok regr1 ->
  exists L Xl L1 Jl L2,
    Layers regr !! l = Some L /\
    layer_input X (Layers regr) l = Ok Xl /\
    compute_Ydiff (Layers regr) Y outputLayer l L = Ok L1 /\
    loss_and_update lossFunc regr Xl nSamples L1 = Ok (Jl, L2) /\
    Layers regr1 = <[l := L2]> (Layers regr) /\
    J regr1 = (if l =? outputLayer then Jl else J regr) /\
    JFirst regr1 = (if (l =? outputLayer) && (epoch =? 1) then Jl else JFirst regr) /\
    Epochs regr1 = Epochs regr /\ Alpha regr1 = Alpha regr /\
    L1Ratio regr1 = L1Ratio regr.
Proof.
  unfold backward_layer. intros Hb.
  apply bind_Ok in Hb as (L & HL & Hb). apply index_Ok in HL.
  apply bind_Ok in Hb as (Xl & HXl & Hb).
  apply bind_Ok in Hb as (L1 & HL1 & Hb).
  apply bind_Ok in Hb as ([Jl L2] & HL2 & Hb).
  exists L, Xl, L1, Jl, L2.
  destruct (l =? outputLayer); [destruct (epoch =? 1)|];
    injection Hb as <-; simpl; repeat split; assumption.
Qed.

(** C3, amended. In the loop over the layers, the step of layer l+1 ends
    with the update of its weights, and the step of layer l comes after it:
    the diff of layer l is computed from the weights of layer l+1 as
    updated in this epoch, that is the weights before the step plus the
    update. *)
Theorem C3_diff_reads_updated_weights (lossFunc : option Loss_) (X Y : Dense)
    (nSamples : Z) (outputLayer epoch l : nat) (regr regrN : MLPRegressor)
    (next0 : Layer) :
  Layers regr !! (S l) = Some next0 ->
  (l =? outputLayer) = false ->
  backward_loop lossFunc X Y nSamples outputLayer epoch (S (S l)) regr = Ok regrN ->
  exists regr1 L L1 next1 upd nd act yp yd,
    backward_layer lossFunc X Y nSamples outputLayer epoch (S l) regr = Ok regr1 /\
    Layers regr1 !! l = Some L /\
    compute_Ydiff (Layers regr1) Y outputLayer l L = Ok L1 /\
    Layers regr1 !! (S l) = Some next1 /\
    Update next1 = Some upd /\ Ydiff next1 = Some nd /\
    L_Activation L = Some act /\ Ypred L = Some yp /\ Ydiff L1 = Some yd /\
    (forall a b, a < rows (Theta next0) -> b < cols (Theta next0) ->
       at_ (Theta next1) a b = (at_ (Theta next0) a b + at_ upd a b)%float) /\
    (forall i j, i < rows yp -> j < cols yp ->
       at_ yd i j = interior_diff nd (Theta next1) act yp i j).
Proof.
  intros Hnext0 Hl Hloop. simpl in Hloop.
  apply bind_Ok in Hloop as (regr1 & Hstep1 & Hloop).
  apply bind_Ok in Hloop as (regr2 & Hstep0 & _).
  exists regr1.
  apply backward_layer_Ok in Hstep0
    as (L & Xl & L1 & Jl & L2 & HL & _ & HL1 & _).
  exists L, L1.
  pose proof (backward_layer_Ok _ _ _ _ _ _ _ _ _ Hstep1)
    as (Ln & Xn & Ln1 & Jn & Ln2 & HLn & _ & HLn1 & HLn2 & Hlayers & _).
  rewrite Hnext0 in HLn. injection HLn as <-.
  apply compute_Ydiff_frame in HLn1 as (yt' & yd' & ->).
  apply loss_and_update_Ok in HLn2
    as (lf & yt & ypn & ydn & g & yp' & ydn' & g' & u & o' & u' & th'
        & _ & _ & _ & _ & _ & _ & _ & _ & Hadd & ->).
  simpl in Hadd.
  pose proof (compute_Ydiff_interior _ _ _ _ _ _ Hl HL1)
    as (next & nd & act & yp & Hnext & Hnd & Hact & Hyp & _ & _ & _ & _ & _ & HeqL1).
  rewrite Nat.add_1_r, Hlayers in Hnext.
  rewrite list_lookup_insert_eq in Hnext by (eapply lookup_lt_Some; eassumption).
  injection Hnext as <-. simpl in Hnd. injection Hnd as <-.
  eexists _, u', ydn', act, yp, _.
  split; [exact Hstep1|]. split; [exact HL|]. split; [exact HL1|].
  split.
  { rewrite Hlayers. apply list_lookup_insert_eq. eapply lookup_lt_Some; eassumption. }
  split; [reflexivity|]. split; [reflexivity|].
  split; [exact Hact|]. split; [exact Hyp|].
  split; [rewrite HeqL1; reflexivity|].
  split.
  - intros a b Ha Hb. simpl.
    apply elementwise_Ok in Hadd as (_ & _ & ->). simpl.
    apply at_tabulate; assumption.
  - intros i j Hi Hj. simpl. apply at_tabulate; assumption.
Qed.

(** ** The shape invariant of the layers *)

Lemma IsEmpty_false (m : Dense) : 0 < rows m -> 0 < cols m -> IsEmpty m = false.
Proof.
  intros Hr Hc. unfold IsEmpty.
  destruct (rows m); [lia|]. destruct (cols m); [lia|]. reflexivity.
Qed.

Lemma input_width_insert (nFeatures : nat) (ls : list Layer) (l k : nat) (L L' : Layer) :
  ls !! l = Some L -> cols (Theta L') = cols (Theta L) ->
  input_width nFeatures (<[l := L']> ls) k = input_width nFeatures ls k.
Proof.
  intros HL Hc. destruct k as [|k]; simpl; [reflexivity|].
  destruct (decide (l = k)) as [->|Hne].
  - rewrite list_lookup_insert_eq by (eapply lookup_lt_Some; eassumption).
    rewrite HL. exact Hc.
  - rewrite list_lookup_insert_ne by exact Hne. reflexivity.
Qed.

Lemma net_inv_insert (P Q : nat -> nat -> Layer -> Prop) (nFeatures : nat)
    (ls : list Layer) (l : nat) (L L' : Layer) :
  net_inv P nFeatures ls -> ls !! l = Some L ->
  cols (Theta L') = cols (Theta L) ->
  Q l (input_width nFeatures ls l) L' ->
  (forall k w Lk, k <> l -> P k w Lk -> Q k w Lk) ->
  net_inv Q nFeatures (<[l := L']> ls).
Proof.
  intros Hinv HL Hc HQ HPQ k Lk Hk.
  rewrite (input_width_insert _ _ _ _ _ _ HL Hc).
  destruct (decide (l = k)) as [->|Hne].
  - rewrite list_lookup_insert_eq in Hk by (eapply lookup_lt_Some; eassumption).
    injection Hk as <-. exact HQ.
  - rewrite list_lookup_insert_ne in Hk by exact Hne.
    apply HPQ; [congruence|]. apply Hinv. exact Hk.
Qed.

Lemma net_inv_impl (P Q : nat -> nat -> Layer -> Prop) (nFeatures : nat)
    (ls : list Layer) :
  (forall k w Lk, k < length ls -> P k w Lk -> Q k w Lk) ->
  net_inv P nFeatures ls -> net_inv Q nFeatures ls.
Proof.
  intros HPQ Hinv k Lk Hk. apply HPQ; [eapply lookup_lt_Some; eassumption|].
  apply Hinv. exact Hk.
Qed.

Lemma NewLayer_Ok (inputs outputs : Z) (act : option Activation) (o : Optimizer)
    (rng rng' : Rng) (L : Layer) :
  NewLayer inputs outputs act o rng = Ok (L, rng') ->
  (0 < inputs)%Z /\ (0 < outputs)%Z /\
  rows (Theta L) = Z.to_nat inputs /\ cols (Theta L) = Z.to_nat outputs /\
  L_Activation L = act /\ L_Optimizer L = o /\
  Ytrue L = None /\ Ypred L = None /\ Ydiff L = None /\ Grad L = None /\
  Update L = None /\
  data (Theta L) = fst (rand_fill (Z.to_nat inputs * Z.to_nat outputs) rng) /\
  rng' = snd (rand_fill (Z.to_nat inputs * Z.to_nat outputs) rng).
Proof.
  unfold NewLayer. intros Hn.
  apply bind_Ok in Hn as (Theta0 & H0 & Hn).
  apply NewDense_Ok in H0 as (Hi & Ho & Hr & Hc).
  rewrite Hr, Hc in Hn.
  destruct (rand_fill (Z.to_nat inputs * Z.to_nat outputs) rng) as [d r'].
  injection Hn as <- <-. simpl. repeat split; assumption.
Qed.

Lemma Init_layer_inv (samples inputs : nat) (L L' : Layer) :
  weights_inv inputs L ->
  Init L (Z.of_nat samples) (Z.of_nat inputs) = Ok L' ->
  layer_inv samples inputs L' /\ Theta L' = Theta L.
Proof.
  intros Hw Hi.
  apply Init_Ok in Hi
    as (yt & yp & yd & g & u & -> & Hs & Ho & Hyt & Hyp & Hyd & Hg & Hu).
  rewrite Nat2Z.id in *.
  replace (Z.to_nat (1 + Z.of_nat inputs)) with (1 + inputs) in * by lia.
  split; [|reflexivity].
  split; [exact Hw|]. unfold buffers_inv, has_shape. simpl.
  split; [lia|]. split; [lia|].
  repeat split; eexists; (split; [reflexivity|assumption]).
Qed.

Lemma layer_input_shape (X : Dense) (n : nat) (ls : list Layer) (Xl : Dense) :
  net_inv (forward_inv (rows X) n) (cols X) ls ->
  layer_input X ls n = Ok Xl ->
  rows Xl = rows X /\ cols Xl = input_width (cols X) ls n.
Proof.
  intros Hinv Hin. destruct n as [|n']; simpl in *.
  - injection Hin as <-. auto.
  - apply bind_Ok in Hin as (Lp & HLp & Hin).
    apply index_Ok in HLp. apply deref_Ok in Hin.
    rewrite HLp.
    destruct (Hinv _ _ HLp) as [_ Hb].
    destruct (Hb (Nat.lt_succ_diag_r n')) as (_ & _ & (m & Hm & Hr & Hc) & _).
    rewrite Hin in Hm. injection Hm as <-. auto.
Qed.

Lemma forward_layer_value_shape (X : Dense) (n : nat) (ls : list Layer) (L' : Layer) :
  net_inv (forward_inv (rows X) n) (cols X) ls ->
  forward_layer_value X n ls = Ok L' ->
  exists L, ls !! n = Some L /\ cols (Theta L') = cols (Theta L) /\
    layer_inv (rows X) (input_width (cols X) ls n) L'.
Proof.
  intros Hinv Hf.
  apply forward_layer_value_Ok in Hf
    as (L & Xl & L1 & yp & yp1 & act & HL & HXl & HL1 & Hyp & Hmul & _ & _ & _ & ->).
  destruct (layer_input_shape _ _ _ _ Hinv HXl) as [HrX HcX].
  destruct (Hinv _ _ HL) as [[Hw Hlazy] _].
  assert (H1 : layer_inv (rows X) (input_width (cols X) ls n) L1 /\ Theta L1 = Theta L).
  { destruct (Ypred L) eqn:E.
    - injection HL1 as <-. destruct Hlazy as [?|Hb]; [discriminate|].
      split; [split; assumption|reflexivity].
    - rewrite HrX, HcX in HL1. apply Init_layer_inv; assumption. }
  destruct H1 as [[Hw1 (Hs & Ho & _ & Hyt & Hyd & Hg & Hu)] HTh].
  apply Mul_shape in Hmul as (Hr1 & Hc1 & _). simpl in Hr1, Hc1.
  exists L. split; [exact HL|]. simpl. split; [congruence|].
  split; [exact Hw1|]. unfold buffers_inv. simpl.
  repeat split; try assumption.
  eexists. split; [reflexivity|]. simpl. split; congruence.
Qed.

Lemma forward_upto_shape (X : Dense) (n : nat) (ls ls' : list Layer) :
  net_inv (fun _ => layer_inv_lazy (rows X)) (cols X) ls ->
  forward_upto X n ls = Ok ls' ->
  net_inv (forward_inv (rows X) n) (cols X) ls'.
Proof.
  intros Hinv. revert ls'. induction n as [|n IH]; intros ls' Hf; simpl in Hf.
  - injection Hf as <-. revert Hinv. apply net_inv_impl.
    intros k w Lk _ Hk. split; [exact Hk|lia].
  - apply bind_Ok in Hf as (ls1 & H1 & Hf).
    specialize (IH _ H1).
    apply forward_layer_Ok in Hf as (L' & HL' & -> & _).
    destruct (forward_layer_value_shape _ _ _ _ IH HL') as (L & HL & Hc & Hli).
    apply (net_inv_insert _ _ _ _ _ _ _ IH HL Hc).
    + destruct Hli as [Hw Hb]. split; [split; [exact Hw|right; exact Hb]|auto].
    + intros k w Lk Hk [Hlz Hb]. split; [exact Hlz|]. intros Hlt. apply Hb. lia.
Qed.

Lemma Predict_Ok (regr regr1 : MLPRegressor) (X : Dense) (Y out : option Dense) :
  Predict regr X Y = Ok (regr1, out) ->
  exists ls, forward_upto X (length (Layers regr)) (Layers regr) = Ok ls /\
    regr1 = set_Layers regr ls.
Proof.
  unfold Predict. intros Hp. apply bind_Ok in Hp as (ls & Hls & Hp).
  exists ls. split; [exact Hls|].
  destruct Y.
  - apply bind_Ok in Hp as (L & _ & Hp). apply bind_Ok in Hp as (yp & _ & Hp).
    injection Hp as <- _. reflexivity.
  - injection Hp as <- _. reflexivity.
Qed.

Lemma Predict_shape (regr regr1 : MLPRegressor) (X : Dense) (Y out : option Dense) :
  net_inv (fun _ => layer_inv_lazy (rows X)) (cols X) (Layers regr) ->
  Predict regr X Y = Ok (regr1, out) ->
  net_inv (fun _ => layer_inv (rows X)) (cols X) (Layers regr1).
Proof.
  intros Hinv Hp. apply Predict_Ok in Hp as (ls & Hls & ->). simpl.
  pose proof (forward_upto_length _ _ _ _ Hls) as Hlen.
  apply forward_upto_shape in Hls; [|exact Hinv].
  revert Hls. apply net_inv_impl.
  intros k w Lk Hk [[Hw _] Hb]. split; [exact Hw|]. apply Hb. lia.
Qed.

Lemma compute_Ydiff_shape (layers : list Layer) (Y : Dense) (outputLayer l : nat)
    (L L' : Layer) :
  compute_Ydiff layers Y outputLayer l L = Ok L' ->
  exists yp yt yd,
    Ypred L = Some yp /\ L' = set_Ytrue_Ydiff L yt yd /\
    rows yt = rows yp /\ cols yt = cols yp /\
    rows yd = rows yp /\ cols yd = cols yp.
Proof.
  intros Hc. destruct (l =? outputLayer) eqn:Hl.
  - apply compute_Ydiff_output in Hc
      as (yp & yt0 & yd0 & Hyp & _ & _ & Hr & Hcs & _ & _ & ->); [|exact Hl].
    eexists yp, _, _. split; [exact Hyp|]. split; [reflexivity|].
    simpl. auto.
  - apply compute_Ydiff_interior in Hc
      as (next & nd & act & yp & _ & _ & _ & Hyp & _ & _ & _ & _ & _ & ->);
      [|exact Hl].
    eexists yp, _, _. split; [exact Hyp|]. split; [reflexivity|].
    simpl. auto.
Qed.

Section KeepShapes.
Variable lossFunc : option Loss_.
Hypothesis loss_ok : forall lf, lossFunc = Some lf -> loss_keeps_shapes lf.
Hypothesis update_ok : GetUpdate_keeps_shape.

Lemma loss_and_update_shape (regr : MLPRegressor) (Xl : Dense) (nSamples : Z)
    (samples inputs : nat) (L : Layer) (Jl : float) (L2 : Layer) :
  layer_inv samples inputs L ->
  loss_and_update lossFunc regr Xl nSamples L = Ok (Jl, L2) ->
  layer_inv samples inputs L2 /\ cols (Theta L2) = cols (Theta L).
Proof.
  intros [Hw (Hs & Ho & Hyp & Hyt & Hyd & Hg & Hu)] Hl.
  apply loss_and_update_Ok in Hl
    as (lf & yt & yp & yd & g & yp' & yd' & g' & u & o' & u' & th'
        & Hlf & Eyt & Eyp & Eyd & Eg & Hloss & Eu & Hup & Hadd & ->).
  destruct Hyp as (m & Hm & Hr & Hc). rewrite Eyp in Hm. injection Hm as <-.
  destruct Hyd as (m & Hm & Hrd & Hcd). rewrite Eyd in Hm. injection Hm as <-.
  destruct Hg as (m & Hm & Hrg & Hcg). rewrite Eg in Hm. injection Hm as <-.
  destruct Hu as (m & Hm & Hru & Hcu). rewrite Eu in Hm. injection Hm as <-.
  apply (loss_ok lf Hlf) in Hloss
    as ((Hr' & Hc') & (Hrd' & Hcd') & (Hrg' & Hcg'));
    try (apply IsEmpty_false; lia).
  apply update_ok in Hup as (Hru' & Hcu'); [|apply IsEmpty_false; lia].
  apply elementwise_shape in Hadd as (Hrt & Hct & _). simpl in Hrt, Hct.
  unfold layer_inv, weights_inv, buffers_inv, has_shape in *. simpl.
  split; [|exact Hct].
  rewrite Hct. split; [lia|].
  split; [exact Hs|]. split; [lia|].
  repeat split; try exact Hyt;
    eexists; (split; [reflexivity|split; lia]).
Qed.

Lemma backward_layer_shape (X Y : Dense) (nSamples : Z) (outputLayer epoch l : nat)
    (samples nFeatures : nat) (regr regr1 : MLPRegressor) :
  net_inv (fun _ => layer_inv samples) nFeatures (Layers regr) ->
  backward_layer lossFunc X Y nSamples outputLayer epoch l regr = Ok regr1 ->
  net_inv (fun _ => layer_inv samples) nFeatures (Layers regr1).
Proof.
  intros Hinv Hb.
  apply backward_layer_Ok in Hb
    as (L & Xl & L1 & Jl & L2 & HL & _ & HL1 & HL2 & -> & _).
  pose proof (Hinv _ _ HL) as [Hw (Hs & Ho & Hyp & Hyt & Hyd & Hg & Hu)].
  apply compute_Ydiff_shape in HL1
    as (yp & yt & yd & Eyp & -> & Hrt & Hct & Hrd & Hcd).
  destruct Hyp as (m & Hm & Hr & Hc). rewrite Eyp in Hm. injection Hm as <-.
  apply loss_and_update_shape with (samples := samples)
    (inputs := input_width nFeatures (Layers regr) l) in HL2.
  - destruct HL2 as [Hinv2 Hc2]. simpl in Hc2.
    apply (net_inv_insert _ _ _ _ _ _ _ Hinv HL Hc2 Hinv2). auto.
  - split; [exact Hw|]. unfold buffers_inv, has_shape. simpl.
    split; [exact Hs|]. split; [exact Ho|].
    split; [eexists; split; [exact Eyp|auto]|].
    split; [eexists; split; [reflexivity|split; congruence]|].
    split; [eexists; split; [reflexivity|split; congruence]|].
    split; assumption.
Qed.

Lemma backward_loop_shape (X Y : Dense) (nSamples : Z) (outputLayer epoch n : nat)
    (samples nFeatures : nat) (regr regr1 : MLPRegressor) :
  net_inv (fun _ => layer_inv samples) nFeatures (Layers regr) ->
  backward_loop lossFunc X Y nSamples outputLayer epoch n regr = Ok regr1 ->
  net_inv (fun _ => layer_inv samples) nFeatures (Layers regr1).
Proof.
  revert regr. induction n as [|n IH]; intros regr Hinv Hb; simpl in Hb.
  - injection Hb as <-. exact Hinv.
  - apply bind_Ok in Hb as (regr' & Hstep & Hb).
    apply (IH regr'); [|exact Hb].
    eapply backward_layer_shape; eassumption.
Qed.

Lemma permute_rows_shape (p : list nat) (m : Dense) :
  rows (permute_rows p m) = rows m /\ cols (permute_rows p m) = cols m.
Proof. split; reflexivity. Qed.

Lemma fit_epoch_Ok (nSamples : Z) (outputLayer epoch : nat) (st st' : FitState) :
  fit_epoch lossFunc nSamples outputLayer epoch st = Ok st' ->
  exists regr1 out,
    Predict (fit_regr st)
      (permute_rows (rand_Perm (fit_rng st) (rows (fit_X st))).1 (fit_X st)) None
      = Ok (regr1, out) /\
    backward_loop lossFunc
      (permute_rows (rand_Perm (fit_rng st) (rows (fit_X st))).1 (fit_X st))
      (permute_rows (rand_Perm (fit_rng st) (rows (fit_X st))).1 (fit_Y st))
      nSamples outputLayer epoch (S outputLayer) regr1 = Ok (fit_regr st') /\
    fit_X st' = permute_rows (rand_Perm (fit_rng st) (rows (fit_X st))).1 (fit_X st) /\
    fit_Y st' = permute_rows (rand_Perm (fit_rng st) (rows (fit_X st))).1 (fit_Y st) /\
    fit_rng st' = (rand_Perm (fit_rng st) (rows (fit_X st))).2.
Proof.
  unfold fit_epoch, DenseShuffle. intros Hf.
  destruct (rand_Perm (fit_rng st) (rows (fit_X st))) as [p rng'].
  apply bind_Ok in Hf as ([regr1 out] & Hp & Hf).
  apply bind_Ok in Hf as (regr2 & Hb & Hf). injection Hf as <-.
  exists regr1, out. simpl. repeat split; assumption.
Qed.

Lemma fit_epoch_shape (nSamples : Z) (outputLayer epoch : nat) (st st' : FitState) :
  net_inv (fun _ => layer_inv_lazy (rows (fit_X st))) (cols (fit_X st))
    (Layers (fit_regr st)) ->
  fit_epoch lossFunc nSamples outputLayer epoch st = Ok st' ->
  net_inv (fun _ => layer_inv (rows (fit_X st'))) (cols (fit_X st'))
    (Layers (fit_regr st')) /\
  rows (fit_X st') = rows (fit_X st) /\ cols (fit_X st') = cols (fit_X st).
Proof.
  intros Hinv Hf.
  apply fit_epoch_Ok in Hf as (regr1 & out & Hp & Hb & HX & _ & _).
  rewrite HX. simpl. split; [|split; reflexivity].
  eapply backward_loop_shape; [|exact Hb].
  apply Predict_shape in Hp; exact Hp || exact Hinv.
Qed.

Lemma fit_epochs_shape (nSamples : Z) (outputLayer n epoch : nat) (st st' : FitState) :
  0 < n ->
  net_inv (fun _ => layer_inv_lazy (rows (fit_X st))) (cols (fit_X st))
    (Layers (fit_regr st)) ->
  fit_epochs lossFunc nSamples outputLayer n epoch st = Ok st' ->
  net_inv (fun _ => layer_inv (rows (fit_X st))) (cols (fit_X st))
    (Layers (fit_regr st')).
Proof.
  revert epoch st. induction n as [|n IH]; intros epoch st Hn Hinv Hf; [lia|].
  simpl in Hf. apply bind_Ok in Hf as (st1 & H1 & Hf).
  destruct (fit_epoch_shape _ _ _ _ _ Hinv H1) as (Hinv1 & Hr & Hc).
  destruct n as [|n].
  - simpl in Hf. injection Hf as <-. rewrite <- Hr, <- Hc. exact Hinv1.
  - rewrite <- Hr, <- Hc. apply (IH (S epoch) st1); [lia| |exact Hf].
    revert Hinv1. apply net_inv_impl.
    intros k w Lk _ [Hw Hb]. split; [exact Hw|right; exact Hb].
Qed.

End KeepShapes.

(** ** The layers Fit creates *)

Lemma input_width_app (nFeatures : nat) (acc r : list Layer) (k : nat) :
  k <= length acc -> input_width nFeatures (acc ++ r) k = input_width nFeatures acc k.
Proof.
  intros Hk. destruct k as [|k]; simpl; [reflexivity|].
  rewrite lookup_app_l by lia. reflexivity.
Qed.

Lemma net_inv_snoc (P : nat -> nat -> Layer -> Prop) (nFeatures : nat)
    (acc : list Layer) (L : Layer) :
  net_inv P nFeatures acc ->
  P (length acc) (input_width nFeatures acc (length acc)) L ->
  net_inv P nFeatures (acc ++ [L]).
Proof.
  intros Hinv HP k Lk Hk.
  destruct (decide (k < length acc)) as [Hlt|Hge].
  - rewrite lookup_app_l in Hk by exact Hlt.
    rewrite input_width_app by lia. apply Hinv. exact Hk.
  - assert (k = length acc) as ->.
    { apply lookup_lt_Some in Hk. rewrite length_app in Hk. simpl in Hk. lia. }
    rewrite list_lookup_middle in Hk by reflexivity. injection Hk as <-.
    rewrite input_width_app by lia. exact HP.
Qed.

Lemma input_width_snoc (nFeatures : nat) (acc : list Layer) (L : Layer) :
  input_width nFeatures (acc ++ [L]) (length (acc ++ [L])) = cols (Theta L).
Proof.
  rewrite length_app. simpl. rewrite Nat.add_1_r. simpl.
  rewrite list_lookup_middle by reflexivity. reflexivity.
Qed.

Lemma hidden_layers_Ok (regr : MLPRegressor) (nFeatures : nat) (sizes : list Z) :
  forall (prev : Z) (acc : list Layer) (rng : Rng) (layers : list Layer) (prev' : Z)
         (rng' : Rng),
  net_inv fresh_inv nFeatures acc ->
  prev = Z.of_nat (input_width nFeatures acc (length acc)) ->
  hidden_layers regr sizes prev acc rng = Ok (layers, prev', rng') ->
  net_inv fresh_inv nFeatures layers /\
  prev' = Z.of_nat (input_width nFeatures layers (length layers)) /\
  length layers = length acc + length sizes.
Proof.
  induction sizes as [|outputs sizes IH]; intros prev acc rng layers prev' rng' Hinv Hprev Hh;
    simpl in Hh.
  - injection Hh as <- <- <-. split; [exact Hinv|]. split; [exact Hprev|]. simpl. lia.
  - apply bind_Ok in Hh as (creator & _ & Hh).
    apply bind_Ok in Hh as ([L rng1] & HL & Hh).
    apply NewLayer_Ok in HL as (_ & Ho & Hr & Hc & _ & _ & _ & Hyp & _).
    apply IH in Hh.
    + destruct Hh as (H1 & H2 & H3). split; [exact H1|]. split; [exact H2|].
      rewrite H3, length_app. simpl. lia.
    + apply net_inv_snoc; [exact Hinv|]. split; [|exact Hyp].
      unfold weights_inv. rewrite Hr, Hprev. lia.
    + rewrite input_width_snoc, Hc. lia.
Qed.

Lemma create_layers_Ok (regr : MLPRegressor) (X Y : Dense) (rng rng' : Rng)
    (layers : list Layer) :
  create_layers regr X Y rng = Ok (layers, rng') ->
  exists hl Lout,
    layers = hl ++ [Lout] /\
    length hl = length (HiddenLayerSizes regr) /\
    net_inv fresh_inv (cols X) layers /\
    cols (Theta Lout) = cols Y /\
    L_Activation Lout =
      (if ((LossName regr =? "cross-entropy") || (LossName regr =? "log"))%string
       then Some Logistic else regr_Activation regr).
Proof.
  unfold create_layers. intros Hc.
  apply bind_Ok in Hc as ([[hl prev] rng1] & Hh & Hc).
  apply hidden_layers_Ok with (nFeatures := cols X) in Hh as (Hinv & Hprev & Hlen);
    [|intros l L Hl; rewrite lookup_nil in Hl; discriminate|reflexivity].
  apply bind_Ok in Hc as (creator & _ & Hc).
  apply bind_Ok in Hc as ([Lout rng2] & HLout & Hc).
  apply NewLayer_Ok in HLout as (_ & Ho & Hr & Hco & Hact & _ & _ & Hyp & _).
  assert (Hinv' : net_inv fresh_inv (cols X) (hl ++ [Lout])).
  { apply net_inv_snoc; [exact Hinv|]. split; [|exact Hyp].
    unfold weights_inv. rewrite Hr, Hprev. lia. }
  apply bind_Ok in Hc as (L0 & HL0 & Hc). apply index_Ok in HL0.
  destruct (Hinv' _ _ HL0) as [Hw0 _]. unfold weights_inv in Hw0. simpl in Hw0.
  replace (Z.of_nat (rows (Theta L0)) =? Z.of_nat (cols X) + 1)%Z with true in Hc
    by (symmetry; apply Z.eqb_eq; lia).
  simpl in Hc.
  apply bind_Ok in Hc as (Lo & HLo & Hc). apply index_Ok in HLo.
  replace (length (hl ++ [Lout]) - 1) with (length hl) in HLo
    by (rewrite length_app; simpl; lia).
  rewrite list_lookup_middle in HLo by reflexivity. injection HLo as <-.
  replace (Z.of_nat (cols Y) =? Z.of_nat (cols (Theta Lout)))%Z with true in Hc
    by (symmetry; apply Z.eqb_eq; lia).
  simpl in Hc. injection Hc as <- <-.
  exists hl, Lout. simpl in Hlen.
  split; [reflexivity|]. split; [exact Hlen|]. split; [exact Hinv'|].
  split; [lia|exact Hact].
Qed.

Lemma Fit_Ok (regr : MLPRegressor) (X Y : Dense) (rng : Rng) (st : FitState) :
  Fit regr X Y rng = Ok st ->
  exists layers rng1 regr1,
    create_layers (set_Layers regr []) X Y rng = Ok (layers, rng1) /\
    Layers regr1 = layers /\
    Epochs regr1 = (if (Epochs regr <=? 0)%Z then 100%Z else Epochs regr) /\
    JFirst regr1 = JFirst regr /\
    fit_epochs (LossFunctions (Loss regr)) (Z.of_nat (rows X)) (length layers - 1)
      (Z.to_nat (Epochs regr1)) 0 (mkFitState regr1 X Y rng1) = Ok st.
Proof.
  unfold Fit. intros Hf.
  apply bind_Ok in Hf as ([layers rng1] & Hc & Hf).
  exists layers, rng1.
  eexists. split; [exact Hc|].
  split; [|split; [|split; [|exact Hf]]];
    change (Epochs (set_Layers (set_Layers regr []) layers)) with (Epochs regr);
    destruct (Epochs regr <=? 0)%Z; reflexivity.
Qed.

(** C9. The shape invariant of a layer fed by [inputs] columns on batches of
    [samples] rows: the weights have 1 + inputs rows; predictions, targets
    and diff are samples x outputs; gradient and update are
    (1 + inputs) x outputs.  It is established by the creation of the layer
    (the weights) and by Init (the buffers), kept by the forward pass, by the
    backward step of a layer and by its weight update, and so holds of
    every layer when Fit returns.  The loss and the optimizer are assumed to
    keep the shapes of the buffers they write. *)
Theorem C9_shape_invariant :
  (forall name lf, LossFunctions name = Some lf -> loss_keeps_shapes lf) ->
  GetUpdate_keeps_shape ->
  (forall inputs outputs act o rng rng' L,
     NewLayer (1 + Z.of_nat inputs) outputs act o rng = Ok (L, rng') ->
     weights_inv inputs L /\ Ypred L = None) /\
  (forall samples inputs L L',
     weights_inv inputs L ->
     Init L (Z.of_nat samples) (Z.of_nat inputs) = Ok L' ->
     layer_inv samples inputs L') /\
  (forall regr regr1 X Y out,
     net_inv (fun _ => layer_inv_lazy (rows X)) (cols X) (Layers regr) ->
     Predict regr X Y = Ok (regr1, out) ->
     net_inv (fun _ => layer_inv (rows X)) (cols X) (Layers regr1)) /\
  (forall name X Y nSamples outputLayer epoch l samples nFeatures regr regr1,
     net_inv (fun _ => layer_inv samples) nFeatures (Layers regr) ->
     backward_layer (LossFunctions name) X Y nSamples outputLayer epoch l regr
       = Ok regr1 ->
     net_inv (fun _ => layer_inv samples) nFeatures (Layers regr1)) /\
  (forall name regr Xl nSamples samples inputs L Jl L2,
     layer_inv samples inputs L ->
     loss_and_update (LossFunctions name) regr Xl nSamples L = Ok (Jl, L2) ->
     layer_inv samples inputs L2) /\
  (forall regr X Y rng st,
     Fit regr X Y rng = Ok st ->
     net_inv (fun _ => layer_inv (rows X)) (cols X) (Layers (fit_regr st))).
Proof.
  intros Hloss Hupd.
  split.
  { intros inputs outputs act o rng rng' L HL.
    apply NewLayer_Ok in HL as (_ & _ & Hr & _ & _ & _ & _ & Hyp & _).
    split; [|exact Hyp]. unfold weights_inv. rewrite Hr. lia. }
  split.
  { intros samples inputs L L' Hw Hi.
    apply (Init_layer_inv samples inputs L L' Hw Hi). }
  split.
  { intros regr regr1 X Y out. apply Predict_shape. }
  split.
  { intros name X Y nSamples outputLayer epoch l samples nFeatures regr regr1.
    apply backward_layer_shape; [apply Hloss|exact Hupd]. }
  split.
  { intros name regr Xl nSamples samples inputs L Jl L2 Hinv Hl.
    eapply loss_and_update_shape; [apply Hloss|exact Hupd|exact Hinv|exact Hl]. }
  intros regr X Y rng st Hf.
  apply Fit_Ok in Hf as (layers & rng1 & regr1 & Hc & HL & HE & _ & Hf).
  apply create_layers_Ok in Hc as (hl & Lout & -> & _ & Hinv & _).
  apply fit_epochs_shape in Hf; [exact Hf|apply Hloss|exact Hupd| |].
  - rewrite HE. destruct (Epochs regr <=? 0)%Z eqn:E; [lia|].
    apply Z.leb_gt in E. lia.
  - simpl. rewrite HL. revert Hinv. apply net_inv_impl.
    intros k w Lk _ [Hw Hyp]. split; [exact Hw|left; exact Hyp].
Qed.

(** ** What the passes leave alone *)

Lemma map_insert_same {A B} (f : A -> B) (ls : list A) (l : nat) (x y : A) :
  ls !! l = Some x -> f y = f x -> map f (<[l := y]> ls) = map f ls.
Proof.
  revert l. induction ls as [|a ls IH]; intros l Hl Hf; [reflexivity|].
  destruct l as [|l]; simpl in *.
  - injection Hl as ->. rewrite Hf. reflexivity.
  - rewrite (IH l Hl Hf). reflexivity.
Qed.

Lemma forward_upto_activations (X : Dense) (n : nat) (ls ls' : list Layer) :
  forward_upto X n ls = Ok ls' -> map L_Activation ls' = map L_Activation ls.
Proof.
  revert ls'. induction n as [|n IH]; intros ls' Hf; simpl in Hf.
  - injection Hf as <-. reflexivity.
  - apply bind_Ok in Hf as (ls1 & H1 & Hf). rewrite <- (IH _ H1).
    apply forward_layer_Ok in Hf as (L' & HL' & -> & _).
    apply forward_layer_value_Ok in HL'
      as (L & Xl & L1 & yp & yp1 & act & HL & _ & HL1 & _ & _ & _ & _ & _ & ->).
    apply (map_insert_same _ _ _ L); [exact HL|]. simpl.
    destruct (Ypred L); [injection HL1 as <-; reflexivity|].
    apply Init_Ok in HL1 as (? & ? & ? & ? & ? & -> & _). reflexivity.
Qed.

Lemma backward_loop_frame (lossFunc : option Loss_) (X Y : Dense) (nSamples : Z)
    (outputLayer epoch n : nat) (regr regr1 : MLPRegressor) :
  backward_loop lossFunc X Y nSamples outputLayer epoch n regr = Ok regr1 ->
  map L_Activation (Layers regr1) = map L_Activation (Layers regr) /\
  (epoch <> 1 -> JFirst regr1 = JFirst regr).
Proof.
  revert regr. induction n as [|n IH]; intros regr Hb; simpl in Hb.
  - injection Hb as <-. auto.
  - apply bind_Ok in Hb as (regr' & Hstep & Hb).
    destruct (IH _ Hb) as [Hact HJ]. rewrite Hact.
    apply backward_layer_Ok in Hstep
      as (L & Xl & L1 & Jl & L2 & HL & _ & HL1 & HL2 & -> & _ & HJF & _).
    apply compute_Ydiff_frame in HL1 as (yt & yd & ->).
    apply loss_and_update_Ok in HL2
      as (? & ? & ? & ? & ? & ? & ? & ? & ? & ? & ? & ? & _ & _ & _ & _ & _ & _ & _ & _ & _ & ->).
    split.
    + apply (map_insert_same _ _ _ L); [exact HL|reflexivity].
    + intros Hne. rewrite (HJ Hne), HJF.
      apply Nat.eqb_neq in Hne. rewrite Hne, andb_false_r. reflexivity.
Qed.

Lemma fit_epochs_frame (lossFunc : option Loss_) (nSamples : Z) (outputLayer n epoch : nat)
    (st st' : FitState) :
  fit_epochs lossFunc nSamples outputLayer n epoch st = Ok st' ->
  map L_Activation (Layers (fit_regr st')) = map L_Activation (Layers (fit_regr st)) /\
  (epoch = 0 -> n <= 1 -> JFirst (fit_regr st') = JFirst (fit_regr st)).
Proof.
  revert epoch st. induction n as [|n IH]; intros epoch st Hf; simpl in Hf.
  - injection Hf as <-. auto.
  - apply bind_Ok in Hf as (st1 & H1 & Hf).
    apply fit_epoch_Ok in H1 as (regr1 & out & Hp & Hb & _).
    apply Predict_Ok in Hp as (ls & Hls & ->).
    apply forward_upto_activations in Hls.
    apply backward_loop_frame in Hb as [Hact HJ]. simpl in Hact, HJ.
    destruct (IH _ _ Hf) as [Hact' _]. split; [congruence|].
    intros -> Hn. destruct n; [|lia]. simpl in Hf. injection Hf as <-.
    apply HJ. discriminate.
Qed.

(** X1. When Fit returns, the layers are one hidden layer per entry of
    HiddenLayerSizes followed by the output layer, and the output layer has
    the activation Fit chose for it: logistic when LossName is
    cross-entropy or log, the configured activation otherwise. *)
Lemma Fit_output_activation (regr : MLPRegressor) (X Y : Dense) (rng : Rng)
    (st : FitState) :
  Fit regr X Y rng = Ok st ->
  exists hl Lo,
    Layers (fit_regr st) = hl ++ [Lo] /\
    length hl = length (HiddenLayerSizes regr) /\
    L_Activation Lo =
      (if ((LossName regr =? "cross-entropy") || (LossName regr =? "log"))%string
       then Some Logistic else regr_Activation regr).
Proof.
  intros Hf.
  apply Fit_Ok in Hf as (layers & rng1 & regr1 & Hc & HL & _ & _ & Hf).
  apply create_layers_Ok in Hc as (hl & Lout & -> & Hlen & _ & _ & Hact).
  apply fit_epochs_frame in Hf as [Hmap _].
  change (fit_regr (mkFitState regr1 X Y rng1)) with regr1 in Hmap.
  rewrite HL, map_app in Hmap.
  apply map_eq_app in Hmap as (hl' & lo & Heq & Hhl & Hlo).
  destruct lo as [|Lo [|]]; try discriminate. injection Hlo as Hlo.
  exists hl', Lo. split; [exact Heq|]. split.
  - rewrite <- (length_map L_Activation hl'), Hhl, length_map. exact Hlen.
  - rewrite Hlo. exact Hact.
Qed.

(** X2. A fit of one epoch never writes JFirst. *)
Lemma Fit_one_epoch_JFirst (regr : MLPRegressor) (X Y : Dense) (rng : Rng)
    (st : FitState) :
  Epochs regr = 1%Z -> Fit regr X Y rng = Ok st ->
  JFirst (fit_regr st) = JFirst regr.
Proof.
  intros He Hf.
  apply Fit_Ok in Hf as (layers & rng1 & regr1 & _ & _ & HE & HJ1 & Hf).
  rewrite He in HE. simpl in HE. rewrite HE in Hf.
  apply fit_epochs_frame in Hf as [_ HJ].
  rewrite <- HJ1. apply HJ; [reflexivity|]. simpl. lia.
Qed.

(** X3. The matrix Predict writes has as many columns as the weights of the
    last layer. *)
Lemma Predict_output_width (regr regr1 : MLPRegressor) (X : Dense) (y out : Dense) :
  Predict regr X (Some y) = Ok (regr1, Some out) ->
  exists Lo,
    Layers regr1 !! (length (Layers regr1) - 1) = Some Lo /\
    cols out = cols (Theta Lo).
Proof.
  unfold Predict. intros Hp.
  apply bind_Ok in Hp as (ls & Hls & Hp).
  apply bind_Ok in Hp as (L & HL & Hp). apply index_Ok in HL.
  apply bind_Ok in Hp as (yp & Hyp & Hp). apply deref_Ok in Hyp.
  injection Hp as <- <-. exists L. split; [exact HL|].
  pose proof (forward_upto_length _ _ _ _ Hls) as Hlen.
  destruct (forward_upto_stable _ _ _ _ Hls (length ls - 1)) as (L' & HL' & Hv).
  { rewrite <- Hlen. apply lookup_lt_Some in HL. lia. }
  rewrite HL in HL'. injection HL' as <-.
  apply forward_layer_value_Ok in Hv
    as (L0 & Xl & L1 & yp0 & yp1 & act & _ & _ & _ & _ & Hmul & _ & _ & _ & HeqL).
  rewrite HeqL in Hyp. simpl in Hyp. injection Hyp as <-.
  rewrite HeqL. simpl. apply Mul_shape in Hmul as (_ & Hc & _). exact Hc.
Qed.

(** C5, amended. Every epoch of a fit starts with the shuffle, whatever the
    regressor holds: one permutation of the row indices is drawn and the
    rows of X and the rows of Y are rearranged by it.  The permutation is a
    permutation of the row indices when rand.Perm returns one. *)
Theorem C5_every_epoch_shuffles_X_and_Y_alike (lossFunc : option Loss_)
    (nSamples : Z) (outputLayer epoch : nat) (st st' : FitState) :
  fit_epoch lossFunc nSamples outputLayer epoch st = Ok st' ->
  exists p,
    p = (rand_Perm (fit_rng st) (rows (fit_X st))).1 /\
    ((forall rng n, Permutation (rand_Perm rng n).1 (seq 0 n)) ->
     Permutation p (seq 0 (rows (fit_X st)))) /\
    rows (fit_X st') = rows (fit_X st) /\ cols (fit_X st') = cols (fit_X st) /\
    rows (fit_Y st') = rows (fit_Y st) /\ cols (fit_Y st') = cols (fit_Y st) /\
    (forall i j, i < rows (fit_X st) -> j < cols (fit_X st) ->
       at_ (fit_X st') i j = at_ (fit_X st) (nth i p 0) j) /\
    (forall i j, i < rows (fit_Y st) -> j < cols (fit_Y st) ->
       at_ (fit_Y st') i j = at_ (fit_Y st) (nth i p 0) j).
Proof.
  intros Hf. apply fit_epoch_Ok in Hf as (regr1 & out & _ & _ & HX & HY & _).
  exists (rand_Perm (fit_rng st) (rows (fit_X st))).1.
  split; [reflexivity|]. split; [intros Hperm; apply Hperm|].
  rewrite HX, HY. unfold permute_rows. simpl.
  split; [reflexivity|]. split; [reflexivity|].
  split; [reflexivity|]. split; [reflexivity|].
  split; intros i j Hi Hj; rewrite at_tabulate by assumption; reflexivity.
Qed.

(** C6, amended. Fit never reads the layers the regressor holds: it starts
    from an empty list and creates every layer anew, so its result is the
    same whatever layers an earlier fit left. *)
Theorem C6_Fit_discards_existing_layers (regr : MLPRegressor) (ls : list Layer)
    (X Y : Dense) (rng : Rng) :
  Fit (set_Layers regr ls) X Y rng = Fit regr X Y rng.
Proof. unfold Fit. destruct regr. reflexivity. Qed.

(** C10. Score returns 0 whatever the regressor and the matrices are. *)
Theorem C10_Score_is_zero (regr : MLPRegressor) (X Y : Dense) :
  Score regr X Y = 0%float.
Proof. unfold Score. reflexivity. Qed.

End Proofs.

(** * Further properties of the code *)

Section MoreProofs.
Context `{Collaborators}.

(** ** The layers Fit creates, again *)

Lemma create_layers_unadjusted_eq (regr : MLPRegressor) (X Y : Dense) (rng : Rng) :
  create_layers regr X Y rng = create_layers_unadjusted regr X Y rng.
Proof.
  unfold create_layers, create_layers_unadjusted.
  destruct (hidden_layers regr (HiddenLayerSizes regr) (Z.of_nat (cols X)) [] rng)
    as [[[hl prev] rng1]|msg] eqn:Hh; [|reflexivity].
  simpl.
  destruct (deref (regr_Optimizer regr)) as [creator|msg]; [|reflexivity].
  simpl.
  match goal with |- context [NewLayer ?i ?o ?a ?c ?r] =>
    destruct (NewLayer i o a c r) as [[Lout rng2]|msg] eqn:HLout end;
    [|reflexivity].
  simpl.
  apply hidden_layers_Ok with (nFeatures := cols X) in Hh as (Hinv & Hprev & Hlen);
    [|intros l L Hl; rewrite lookup_nil in Hl; discriminate|reflexivity].
  apply NewLayer_Ok in HLout as (_ & Ho & Hr & Hco & _ & _ & _ & Hyp & _).
  assert (Hinv' : net_inv fresh_inv (cols X) (hl ++ [Lout])).
  { apply net_inv_snoc; [exact Hinv|]. split; [|exact Hyp].
    unfold weights_inv. rewrite Hr, Hprev. lia. }
  assert (H0 : exists L0, (hl ++ [Lout]) !! 0 = Some L0).
  { destruct hl; simpl; eauto. }
  destruct H0 as (L0 & HL0).
  rewrite (proj2 (index_Ok _ _ _) HL0). simpl.
  destruct (Hinv' _ _ HL0) as [Hw0 _]. unfold weights_inv in Hw0. simpl in Hw0.
  replace (Z.of_nat (rows (Theta L0)) =? Z.of_nat (cols X) + 1)%Z with true
    by (symmetry; apply Z.eqb_eq; lia).
  simpl.
  replace (length (hl ++ [Lout]) - 1) with (length hl)
    by (rewrite length_app; simpl; lia).
  rewrite (proj2 (index_Ok (hl ++ [Lout]) (length hl) Lout))
    by (apply list_lookup_middle; reflexivity).
  simpl.
  replace (Z.of_nat (cols Y) =? Z.of_nat (cols (Theta Lout)))%Z with true
    by (symmetry; apply Z.eqb_eq; lia).
  reflexivity.
Qed.

(** X4. The two size adjustments of Fit ("adjust size of first layer to X
    features", "adjust size of output layer to Y outputs") never replace a
    layer: Fit has just created the first layer with 1 + nFeatures rows and
    the output layer with nOutputs columns, so on every input, panics
    included, the first part of Fit is the creation of the hidden layers
    followed by the creation of the output layer. *)
Theorem create_layers_never_adjusts (regr : MLPRegressor) (X Y : Dense) (rng : Rng) :
  create_layers regr X Y rng = create_layers_unadjusted regr X Y rng.
Proof.
  exact (create_layers_unadjusted_eq regr X Y rng).
Qed.

(** ** Missing registry keys and bad sizes *)

(** X5. With a nil optimizer creator (the solver name is not a key of
    base.Solvers) Fit panics on the nil func before it creates a layer. *)
Theorem Fit_nil_optimizer_panics (regr : MLPRegressor) (X Y : Dense) (rng : Rng) :
  regr_Optimizer regr = None -> Fit regr X Y rng = Panic ErrNilPointer.
Proof.
  intros Hn. unfold Fit, create_layers. simpl.
  destruct (HiddenLayerSizes regr) as [|o sizes]; simpl; rewrite Hn; reflexivity.
Qed.

Lemma hidden_layers_negative_size (regr : MLPRegressor) (sizes : list Z) (s : Z) :
  In s sizes -> (s < 0)%Z ->
  forall prev acc rng r, hidden_layers regr sizes prev acc rng <> Ok r.
Proof.
  intros Hin Hs. induction sizes as [|o sizes IH]; [destruct Hin|].
  intros prev acc rng r Hh. simpl in Hh.
  apply bind_Ok in Hh as (creator & _ & Hh).
  apply bind_Ok in Hh as ([L rng1] & HL & Hh).
  destruct Hin as [->|Hin].
  - apply NewLayer_Ok in HL as (_ & Ho & _). lia.
  - exact (IH Hin _ _ _ _ Hh).
Qed.

(** X8. A negative entry in HiddenLayerSizes makes Fit panic (NewDense
    refuses the dimension), whatever the other entries and the data are. *)
Theorem Fit_negative_hidden_size_panics (regr : MLPRegressor) (X Y : Dense)
    (rng : Rng) (s : Z) :
  In s (HiddenLayerSizes regr) -> (s < 0)%Z ->
  exists msg, Fit regr X Y rng = Panic msg.
Proof.
  intros Hin Hs. unfold Fit, create_layers. simpl.
  destruct (hidden_layers (set_Layers regr []) (HiddenLayerSizes regr)
              (Z.of_nat (cols X)) [] rng) as [r|msg] eqn:Hh.
  - exfalso. exact (hidden_layers_negative_size _ _ _ Hin Hs _ _ _ _ Hh).
  - exists msg. reflexivity.
Qed.

Lemma backward_loop_nil_loss (X Y : Dense) (nSamples : Z) (outputLayer epoch n : nat)
    (regr r : MLPRegressor) :
  backward_loop None X Y nSamples outputLayer epoch (S n) regr <> Ok r.
Proof.
  intros Hb. simpl in Hb. apply bind_Ok in Hb as (regr' & Hstep & _).
  apply backward_layer_Ok in Hstep as (L & Xl & L1 & Jl & L2 & _ & _ & _ & HL2 & _).
  apply loss_and_update_Ok in HL2 as (lf & ? & ? & ? & ? & ? & ? & ? & ? & ? & ? & ? & Hlf & _).
  discriminate.
Qed.

Lemma fit_epochs_positive (lossFunc : option Loss_) (nSamples : Z)
    (outputLayer n epoch : nat) (st st' : FitState) :
  fit_epochs lossFunc nSamples outputLayer (S n) epoch st = Ok st' ->
  exists st1, fit_epoch lossFunc nSamples outputLayer epoch st = Ok st1.
Proof.
  intros Hf. simpl in Hf. apply bind_Ok in Hf as (st1 & H1 & _). eauto.
Qed.

Lemma Fit_first_epoch (regr : MLPRegressor) (X Y : Dense) (rng : Rng) (st : FitState) :
  Fit regr X Y rng = Ok st ->
  exists layers rng1 regr1 st1,
    create_layers (set_Layers regr []) X Y rng = Ok (layers, rng1) /\
    Layers regr1 = layers /\
    fit_epoch (LossFunctions (Loss regr)) (Z.of_nat (rows X)) (length layers - 1) 0
      (mkFitState regr1 X Y rng1) = Ok st1.
Proof.
  intros Hf. apply Fit_Ok in Hf as (layers & rng1 & regr1 & Hc & HL & HE & _ & Hf).
  assert (Hpos : exists n, Z.to_nat (Epochs regr1) = S n).
  { rewrite HE. destruct (Epochs regr <=? 0)%Z eqn:E.
    - exists 99. reflexivity.
    - apply Z.leb_gt in E. exists (Z.to_nat (Epochs regr) - 1). lia. }
  destruct Hpos as (n & Hn). rewrite Hn in Hf.
  apply fit_epochs_positive in Hf as (st1 & Hf).
  exists layers, rng1, regr1, st1. auto.
Qed.

(** X6. When the name in regr.Loss is not a key of lm.LossFunctions, Fit
    panics: every fit runs at least one epoch, and the backward step of the
    output layer calls the nil loss function. *)
Theorem Fit_nil_loss_panics (regr : MLPRegressor) (X Y : Dense) (rng : Rng) :
  LossFunctions (Loss regr) = None -> exists msg, Fit regr X Y rng = Panic msg.
Proof.
  intros Hn. destruct (Fit regr X Y rng) as [st|msg] eqn:Hf; [exfalso|eauto].
  apply Fit_first_epoch in Hf as (layers & rng1 & regr1 & st1 & _ & _ & Hf).
  rewrite Hn in Hf.
  apply fit_epoch_Ok in Hf as (regr2 & out & _ & Hb & _).
  exact (backward_loop_nil_loss _ _ _ _ _ _ _ _ Hb).
Qed.

(** ** Predict, again *)

(** X9. On a regressor without layers (before any Fit) Predict with a nil
    output matrix does nothing, and Predict with an output matrix panics on
    the index of the last layer. *)
Theorem Predict_without_layers (regr : MLPRegressor) (X : Dense) :
  Layers regr = [] ->
  Predict regr X None = Ok (regr, None) /\
  forall y, Predict regr X (Some y) = Panic ErrIndex.
Proof.
  intros Hl. destruct regr. simpl in Hl. subst. split; reflexivity.
Qed.

Lemma forward_upto_first_layer (X : Dense) (n : nat) (ls ls' : list Layer) :
  forward_upto X (S n) ls = Ok ls' ->
  exists L', forward_layer_value X 0 ls = Ok L'.
Proof.
  revert ls'. induction n as [|n IH]; intros ls' Hf.
  - simpl in Hf. apply forward_layer_Ok in Hf as (L' & HL' & _). eauto.
  - change (forward_upto X (S (S n)) ls)
      with (forward_upto X (S n) ls ≫= forward_layer X (S n)) in Hf.
    apply bind_Ok in Hf as (ls1 & H1 & _). eapply IH. exact H1.
Qed.

(** X10. Predict does not adapt to the data: when the first layer's weights do
    not have 1 + (columns of X) rows, Predict panics. *)
Theorem Predict_feature_mismatch_panics (regr : MLPRegressor) (X : Dense)
    (Y : option Dense) (L0 : Layer) :
  Layers regr !! 0 = Some L0 -> rows (Theta L0) <> 1 + cols X ->
  exists msg, Predict regr X Y = Panic msg.
Proof.
  intros HL0 Hne.
  destruct (Predict regr X Y) as [[regr1 out]|msg] eqn:Hp; [exfalso|eauto].
  apply Predict_Ok in Hp as (ls & Hls & _).
  destruct (Layers regr) as [|La rest] eqn:El; [discriminate|].
  simpl length in Hls.
  apply forward_upto_first_layer in Hls as (L' & Hv).
  apply forward_layer_value_Ok in Hv
    as (L & Xl & L1 & yp & yp1 & act & HL & HXl & HL1 & _ & Hmul & _).
  rewrite HL0 in HL. injection HL as <-. simpl in HXl. injection HXl as <-.
  assert (HTh : Theta L1 = Theta L0).
  { destruct (Ypred L0); [injection HL1 as <-; reflexivity|].
    apply Init_Ok in HL1 as (? & ? & ? & ? & ? & -> & _). reflexivity. }
  apply Mul_shape in Hmul as (_ & _ & _ & _ & Hin & _). simpl in Hin.
  rewrite HTh in Hin. lia.
Qed.

(** X11. Predict never reallocates the buffers: once a forward pass over X
    has returned, a forward pass over a matrix with another number of rows
    panics. *)
Theorem Predict_other_batch_size_panics (regr regr1 : MLPRegressor) (X X' : Dense)
    (Y out Y' : option Dense) :
  Predict regr X Y = Ok (regr1, out) -> Layers regr <> [] ->
  rows X' <> rows X ->
  exists msg, Predict regr1 X' Y' = Panic msg.
Proof.
  intros Hp Hne Hrows.
  apply Predict_Ok in Hp as (ls & Hls & ->).
  pose proof (forward_upto_length _ _ _ _ Hls) as Hlen.
  assert (Hst : stable X 0 ls).
  { eapply forward_upto_stable; [exact Hls|]. destruct (Layers regr); [congruence|].
    simpl. lia. }
  destruct Hst as (L & HL & Hv).
  apply forward_layer_value_Ok in Hv
    as (La & Xl & L1 & yp & yp1 & act & _ & HXl & _ & _ & Hmul & _ & _ & _ & HeqL).
  simpl in HXl. injection HXl as <-.
  apply Mul_shape in Hmul as (Hr1 & Hc1 & Hpr & Hpc & _). simpl in Hr1.
  destruct (Predict (set_Layers regr ls) X' Y') as [[regr2 out2]|msg] eqn:Hp2;
    [exfalso|eauto].
  apply Predict_Ok in Hp2 as (ls2 & Hls2 & _). simpl in Hls2.
  destruct ls as [|Lb rest] eqn:Els; [discriminate|]. simpl length in Hls2.
  apply forward_upto_first_layer in Hls2 as (L' & Hv2).
  apply forward_layer_value_Ok in Hv2
    as (Lc & Xl2 & L2 & yp2 & yp3 & act2 & HLc & HXl2 & HL2 & Hyp2 & Hmul2 & _).
  rewrite HL in HLc. injection HLc as <-.
  simpl in HXl2. injection HXl2 as <-.
  rewrite HeqL in HL2. simpl in HL2. injection HL2 as <-.
  simpl in Hyp2. injection Hyp2 as <-.
  apply Mul_shape in Hmul2 as (Hr2 & _ & _ & _ & _ & Hrec). simpl in Hr2.
  destruct Hrec as [Hrr _].
  { apply IsEmpty_false; simpl; lia. }
  simpl in Hrr. lia.
Qed.

Lemma forward_layer_value_keeps (X : Dense) (l : nat) (ls : list Layer) (L L' : Layer) :
  ls !! l = Some L -> forward_layer_value X l ls = Ok L' -> forward_keeps L L'.
Proof.
  intros HL Hv.
  apply forward_layer_value_Ok in Hv
    as (La & Xl & L1 & yp & yp1 & act & HLa & _ & HL1 & _ & _ & _ & _ & _ & ->).
  rewrite HL in HLa. injection HLa as <-.
  unfold forward_keeps. simpl.
  destruct (Ypred L) eqn:E.
  - injection HL1 as <-. repeat split; reflexivity.
  - apply Init_Ok in HL1 as (? & ? & ? & ? & ? & -> & _). simpl.
    split; [reflexivity|]. split; [reflexivity|]. split; [reflexivity|].
    intros Hn. congruence.
Qed.

Lemma forward_upto_lookup (X : Dense) (n : nat) (ls ls' : list Layer) :
  forward_upto X n ls = Ok ls' ->
  forall l,
    (n <= l -> ls' !! l = ls !! l) /\
    (forall L, ls !! l = Some L ->
       exists L', ls' !! l = Some L' /\ forward_keeps L L').
Proof.
  revert ls'. induction n as [|n IH]; intros ls' Hf l; simpl in Hf.
  - injection Hf as <-. split; [reflexivity|]. intros L HL. exists L.
    split; [exact HL|]. unfold forward_keeps. repeat split; reflexivity.
  - apply bind_Ok in Hf as (ls1 & H1 & Hf).
    destruct (IH _ H1 l) as [Hge Hk].
    apply forward_layer_Ok in Hf as (Ln' & Hv & -> & Hlt).
    destruct (decide (l = n)) as [->|Hne].
    + split; [lia|]. intros L HL.
      exists Ln'. split; [apply list_lookup_insert_eq; exact Hlt|].
      apply (forward_layer_value_keeps X n ls1); [|exact Hv].
      rewrite Hge by lia. exact HL.
    + rewrite list_lookup_insert_ne by congruence.
      split; [intros Hl; apply Hge; lia|exact Hk].
Qed.

(** X12. Predict changes nothing of the model but the predictions: the number
    of layers, the weights, the activation and the optimizer of every layer
    are as before, the other buffers of a layer whose buffers were allocated
    are as before, and no field of the regressor other than Layers changes. *)
Theorem Predict_keeps_the_model (regr regr1 : MLPRegressor) (X : Dense)
    (Y out : option Dense) :
  Predict regr X Y = Ok (regr1, out) ->
  regr1 = set_Layers regr (Layers regr1) /\
  length (Layers regr1) = length (Layers regr) /\
  forall l L, Layers regr !! l = Some L ->
    exists L', Layers regr1 !! l = Some L' /\
      Theta L' = Theta L /\ L_Activation L' = L_Activation L /\
      L_Optimizer L' = L_Optimizer L /\
      (Ypred L <> None ->
       Ytrue L' = Ytrue L /\ Ydiff L' = Ydiff L /\ Grad L' = Grad L /\
       Update L' = Update L).
Proof.
  intros Hp. apply Predict_Ok in Hp as (ls & Hls & ->). simpl.
  split; [reflexivity|]. split; [eapply forward_upto_length; exact Hls|].
  intros l L HL. destruct (forward_upto_lookup _ _ _ _ Hls l) as [_ Hk].
  exact (Hk L HL).
Qed.

Lemma stable_layer (X : Dense) (ls : list Layer) (l : nat) (L : Layer) :
  stable X l ls -> ls !! l = Some L ->
  exists Xl yp yp1 act,
    layer_input X ls l = Ok Xl /\
    Mul yp (onesAddedMat (of_dense Xl)) (of_dense (Theta L)) = Ok yp1 /\
    L_Activation L = Some act /\
    Ypred L = Some (Clone (appliedMat (of_dense yp1) (F act))).
Proof.
  intros (L' & HL' & Hv) HL. rewrite HL in HL'. injection HL' as <-.
  apply forward_layer_value_Ok in Hv
    as (La & Xl & L1 & yp & yp1 & act & HLa & HXl & HL1 & _ & Hmul & Hact & _ & _ & HeqL).
  rewrite HL in HLa. injection HLa as <-.
  assert (HypL : Ypred L = Some (Clone (appliedMat (of_dense yp1) (F act))))
    by (rewrite HeqL; reflexivity).
  rewrite HypL in HL1. injection HL1 as <-.
  exists Xl, yp, yp1, act. auto.
Qed.

Lemma layer_forward_Mul (act : Activation) (yp Xl theta yp1 : Dense) :
  Mul yp (onesAddedMat (of_dense Xl)) (of_dense theta) = Ok yp1 ->
  Clone (appliedMat (of_dense yp1) (F act)) = layer_forward act Xl theta.
Proof.
  intros Hmul. apply Mul_Ok in Hmul as (_ & _ & ->).
  unfold Clone, layer_forward.
  cbn [Dims appliedMat of_dense rows cols tabulate fst snd onesAddedMat].
  apply tabulate_ext. intros i j Hi Hj. cbn [At appliedMat of_dense]. f_equal.
  rewrite at_tabulate by assumption. reflexivity.
Qed.

Lemma stable_output (X : Dense) (ls : list Layer) (l : nat) :
  (forall k, k <= l -> stable X k ls) ->
  forall L, ls !! l = Some L -> Ypred L = Some (net_output X ls (S l)).
Proof.
  induction l as [|l IH]; intros Hst L HL;
    destruct (stable_layer X ls _ L (Hst _ (Nat.le_refl _)) HL)
      as (Xl & yp & yp1 & act & HXl & Hmul & Hact & Hyp);
    rewrite Hyp; f_equal; rewrite (layer_forward_Mul _ _ _ _ _ Hmul);
    change (net_output X ls (S ?n))
      with (match ls !! n with
            | Some L =>
                match L_Activation L with
                | Some act => layer_forward act (net_output X ls n) (Theta L)
                | None => X
                end
            | None => X
            end);
    rewrite HL, Hact; f_equal.
  - simpl in HXl. injection HXl as <-. reflexivity.
  - simpl in HXl. apply bind_Ok in HXl as (Lp & HLp & HXl).
    apply index_Ok in HLp. apply deref_Ok in HXl.
    rewrite (IH (fun k Hk => Hst k (Nat.le_trans _ _ _ Hk (Nat.le_succ_diag_r l))) Lp HLp)
      in HXl.
    injection HXl as <-. reflexivity.
Qed.

Lemma net_output_ext (X : Dense) (ls1 ls2 : list Layer) (n : nat) :
  (forall l L1, ls1 !! l = Some L1 ->
     exists L2, ls2 !! l = Some L2 /\ Theta L2 = Theta L1 /\
       L_Activation L2 = L_Activation L1) ->
  length ls2 = length ls1 ->
  net_output X ls2 n = net_output X ls1 n.
Proof.
  intros Hk Hlen. induction n as [|n IH]; [reflexivity|]. simpl.
  destruct (ls1 !! n) as [L1|] eqn:E1.
  - destruct (Hk _ _ E1) as (L2 & -> & -> & ->). rewrite IH. reflexivity.
  - rewrite (proj2 (lookup_ge_None ls2 n)); [reflexivity|].
    apply lookup_ge_None in E1. lia.
Qed.

(** X13. What Predict computes depends on X, the weights and the activations
    only: when it returns, the predictions of layer l are
    F_l([1 input_l] x Theta_l) with input_0 = X and input_l the predictions of
    layer l-1, and the output matrix is the predictions of the last layer. *)
Theorem Predict_computes_net_output (regr regr1 : MLPRegressor) (X : Dense)
    (Y out : option Dense) :
  Predict regr X Y = Ok (regr1, out) ->
  (forall l L1, Layers regr1 !! l = Some L1 ->
     Ypred L1 = Some (net_output X (Layers regr) (S l))) /\
  (forall o, out = Some o ->
     o = net_output X (Layers regr) (length (Layers regr))).
Proof.
  intros Hp. unfold Predict in Hp.
  apply bind_Ok in Hp as (ls & Hls & Hp).
  pose proof (forward_upto_length _ _ _ _ Hls) as Hlen.
  assert (Hext : forall n, net_output X ls n = net_output X (Layers regr) n).
  { intros n. apply net_output_ext; [|exact Hlen].
    intros l L HL. destruct (forward_upto_lookup _ _ _ _ Hls l) as [_ Hk].
    destruct (Hk L HL) as (L' & HL' & HTh & Hact & _). eauto. }
  assert (Hall : forall l L1, ls !! l = Some L1 ->
            Ypred L1 = Some (net_output X (Layers regr) (S l))).
  { intros l L1 HL1. rewrite <- Hext. apply stable_output; [|exact HL1].
    intros k Hk. eapply forward_upto_stable; [exact Hls|].
    apply lookup_lt_Some in HL1. lia. }
  destruct Y as [y|].
  - apply bind_Ok in Hp as (L & HL & Hp). apply index_Ok in HL.
    apply bind_Ok in Hp as (yp & Hyp & Hp). apply deref_Ok in Hyp.
    injection Hp as <- <-. simpl. split; [exact Hall|].
    intros o Ho. injection Ho as <-.
    pose proof (Hall _ _ HL) as Hyp'. rewrite Hyp in Hyp'. injection Hyp' as Hyp'.
    assert (Hl : S (length ls - 1) = length (Layers regr)).
    { apply lookup_lt_Some in HL. lia. }
    rewrite <- Hl. transitivity yp; [|exact Hyp'].
    destruct (forward_upto_stable _ _ _ _ Hls (length ls - 1)) as (L' & HL' & Hv).
    { apply lookup_lt_Some in HL. lia. }
    rewrite HL in HL'. injection HL' as <-.
    apply forward_layer_value_Ok in Hv
      as (L0 & Xl & L1 & yp0 & yp1 & act & _ & _ & _ & _ & _ & _ & _ & _ & HeqL).
    rewrite HeqL in Hyp. simpl in Hyp. injection Hyp as <-.
    apply Clone_Clone.
  - injection Hp as <- <-. simpl. split; [exact Hall|]. intros o Ho. discriminate.
Qed.

(** ** The layers and the configuration when Fit returns *)

Lemma create_layers_parts (regr : MLPRegressor) (X Y : Dense) (rng rng' : Rng)
    (layers : list Layer) :
  create_layers regr X Y rng = Ok (layers, rng') ->
  exists hl prev rng1 c Lout,
    hidden_layers regr (HiddenLayerSizes regr) (Z.of_nat (cols X)) [] rng
      = Ok (hl, prev, rng1) /\
    regr_Optimizer regr = Some c /\
    NewLayer (1 + prev) (Z.of_nat (cols Y))
      (if ((LossName regr =? "cross-entropy") || (LossName regr =? "log"))%string
       then Some Logistic else regr_Activation regr) (c tt) rng1 = Ok (Lout, rng') /\
    layers = hl ++ [Lout].
Proof.
  rewrite create_layers_unadjusted_eq. unfold create_layers_unadjusted. intros Hc.
  apply bind_Ok in Hc as ([[hl prev] rng1] & Hh & Hc).
  apply bind_Ok in Hc as (c & Hcr & Hc). apply deref_Ok in Hcr.
  apply bind_Ok in Hc as ([Lout rng2] & HLout & Hc). injection Hc as <- <-.
  exists hl, prev, rng1, c, Lout. auto.
Qed.

Lemma NewLayer_theta_dims (inputs outputs : Z) (act : option Activation)
    (o : Optimizer) (rng rng' : Rng) (L : Layer) :
  NewLayer inputs outputs act o rng = Ok (L, rng') -> theta_dims L = (inputs, outputs).
Proof.
  intros HL. apply NewLayer_Ok in HL as (Hi & Ho & Hr & Hc & _).
  unfold theta_dims. rewrite Hr, Hc. f_equal; lia.
Qed.

Lemma hidden_layers_new (regr : MLPRegressor) (sizes : list Z) :
  forall prev acc rng layers prev' rng',
  hidden_layers regr sizes prev acc rng = Ok (layers, prev', rng') ->
  exists new,
    layers = acc ++ new /\
    Forall (fun L => L_Activation L = regr_Activation regr) new /\
    map theta_dims new = layer_sizes prev sizes /\
    prev' = fold_left (fun _ o => o) sizes prev.
Proof.
  induction sizes as [|o sizes IH]; intros prev acc rng layers prev' rng' Hh;
    simpl in Hh.
  - injection Hh as <- <- <-. exists []. rewrite app_nil_r.
    split; [reflexivity|]. split; [constructor|]. split; reflexivity.
  - apply bind_Ok in Hh as (creator & _ & Hh).
    apply bind_Ok in Hh as ([L rng1] & HL & Hh).
    pose proof (NewLayer_theta_dims _ _ _ _ _ _ _ HL) as Hd.
    apply NewLayer_Ok in HL as (_ & _ & _ & _ & Hact & _).
    apply IH in Hh as (new & -> & Hall & Hdims & ->).
    exists (L :: new). rewrite <- app_assoc.
    split; [reflexivity|]. split; [constructor; assumption|].
    split; [simpl; rewrite Hd, Hdims; reflexivity|reflexivity].
Qed.

Lemma layer_sizes_app (sizes : list Z) (prev o : Z) :
  layer_sizes prev (sizes ++ [o])
  = layer_sizes prev sizes ++ [((1 + fold_left (fun _ x => x) sizes prev)%Z, o)].
Proof.
  revert prev. induction sizes as [|a sizes IH]; intros prev; simpl;
    [reflexivity|]. rewrite IH. reflexivity.
Qed.

Lemma create_layers_dims (regr : MLPRegressor) (X Y : Dense) (rng rng' : Rng)
    (layers : list Layer) :
  create_layers regr X Y rng = Ok (layers, rng') ->
  map theta_dims layers
  = layer_sizes (Z.of_nat (cols X)) (HiddenLayerSizes regr ++ [Z.of_nat (cols Y)]) /\
  exists L0, layers !! 0 = Some L0 /\ L_Activation L0 = first_activation regr.
Proof.
  intros Hc.
  apply create_layers_parts in Hc as (hl & prev & rng1 & c & Lout & Hh & _ & HLout & ->).
  apply hidden_layers_new in Hh as (new & Hnew & Hall & Hdims & ->).
  simpl in Hnew. subst hl.
  pose proof (NewLayer_theta_dims _ _ _ _ _ _ _ HLout) as Hd.
  apply NewLayer_Ok in HLout as (_ & _ & _ & _ & Hact & _).
  split.
  - rewrite map_app, layer_sizes_app, Hdims. simpl. rewrite Hd. reflexivity.
  - unfold first_activation.
    destruct (HiddenLayerSizes regr) as [|s sizes]; destruct new as [|L0 new];
      try discriminate Hdims.
    + exists Lout. split; [reflexivity|exact Hact].
    + exists L0. split; [reflexivity|]. inversion Hall. assumption.
Qed.

Lemma forward_upto_Theta (X : Dense) (n : nat) (ls ls' : list Layer) :
  forward_upto X n ls = Ok ls' -> map Theta ls' = map Theta ls.
Proof.
  revert ls'. induction n as [|n IH]; intros ls' Hf; simpl in Hf.
  - injection Hf as <-. reflexivity.
  - apply bind_Ok in Hf as (ls1 & H1 & Hf). rewrite <- (IH _ H1).
    apply forward_layer_Ok in Hf as (L' & HL' & -> & _).
    destruct (ls1 !! n) as [L|] eqn:HL.
    + apply (map_insert_same _ _ _ L); [exact HL|].
      apply (forward_layer_value_keeps _ _ _ _ _ HL HL').
    + apply forward_layer_value_Ok in HL' as (L & ? & ? & ? & ? & ? & HL0 & _).
      congruence.
Qed.

Lemma backward_layer_dims (lossFunc : option Loss_) (X Y : Dense) (nSamples : Z)
    (outputLayer epoch l : nat) (regr regr1 : MLPRegressor) :
  backward_layer lossFunc X Y nSamples outputLayer epoch l regr = Ok regr1 ->
  map theta_dims (Layers regr1) = map theta_dims (Layers regr).
Proof.
  intros Hstep.
  apply backward_layer_Ok in Hstep
    as (L & Xl & L1 & Jl & L2 & HL & _ & HL1 & HL2 & -> & _).
  apply compute_Ydiff_frame in HL1 as (yt & yd & ->).
  apply loss_and_update_Ok in HL2
    as (? & ? & ? & ? & ? & ? & ? & ? & ? & ? & ? & th' & _ & _ & _ & _ & _ & _ & _ & _
        & Hadd & ->).
  apply elementwise_shape in Hadd as (Hr & Hc & _).
  apply (map_insert_same _ _ _ L); [exact HL|].
  unfold theta_dims. simpl in *. rewrite Hr, Hc. reflexivity.
Qed.

Lemma backward_layer_configuration (lossFunc : option Loss_) (X Y : Dense)
    (nSamples : Z) (outputLayer epoch l : nat) (regr regr1 : MLPRegressor) :
  backward_layer lossFunc X Y nSamples outputLayer epoch l regr = Ok regr1 ->
  same_configuration regr regr1 /\ Epochs regr1 = Epochs regr.
Proof.
  unfold backward_layer. intros Hb.
  apply bind_Ok in Hb as (L & _ & Hb).
  apply bind_Ok in Hb as (Xl & _ & Hb).
  apply bind_Ok in Hb as (L1 & _ & Hb).
  apply bind_Ok in Hb as ([Jl L2] & _ & Hb).
  unfold same_configuration.
  destruct (l =? outputLayer); [destruct (epoch =? 1)|];
    injection Hb as <-; simpl; repeat split; reflexivity.
Qed.

Lemma backward_loop_keeps (lossFunc : option Loss_) (X Y : Dense) (nSamples : Z)
    (outputLayer epoch n : nat) (regr regr1 : MLPRegressor) :
  backward_loop lossFunc X Y nSamples outputLayer epoch n regr = Ok regr1 ->
  map theta_dims (Layers regr1) = map theta_dims (Layers regr) /\
  same_configuration regr regr1 /\ Epochs regr1 = Epochs regr.
Proof.
  revert regr. induction n as [|n IH]; intros regr Hb; simpl in Hb.
  - injection Hb as <-. unfold same_configuration. repeat split; reflexivity.
  - apply bind_Ok in Hb as (regr' & Hstep & Hb).
    destruct (IH _ Hb) as (Hd & Hc & He).
    pose proof (backward_layer_dims _ _ _ _ _ _ _ _ _ Hstep) as Hd'.
    apply backward_layer_configuration in Hstep as [Hc' He'].
    split; [congruence|]. split; [|congruence].
    unfold same_configuration in *. intuition congruence.
Qed.

Lemma fit_epochs_keeps (lossFunc : option Loss_) (nSamples : Z)
    (outputLayer n epoch : nat) (st st' : FitState) :
  fit_epochs lossFunc nSamples outputLayer n epoch st = Ok st' ->
  map theta_dims (Layers (fit_regr st')) = map theta_dims (Layers (fit_regr st)) /\
  same_configuration (fit_regr st) (fit_regr st') /\
  Epochs (fit_regr st') = Epochs (fit_regr st).
Proof.
  revert epoch st. induction n as [|n IH]; intros epoch st Hf; simpl in Hf.
  - injection Hf as <-. unfold same_configuration. repeat split; reflexivity.
  - apply bind_Ok in Hf as (st1 & H1 & Hf).
    destruct (IH _ _ Hf) as (Hd & Hc & He).
    apply fit_epoch_Ok in H1 as (regr1 & out & Hp & Hb & _).
    apply Predict_Ok in Hp as (ls & Hls & ->).
    apply forward_upto_Theta in Hls.
    apply backward_loop_keeps in Hb as (Hd' & Hc' & He'). simpl in Hd', Hc', He'.
    split.
    + rewrite Hd, Hd'. unfold theta_dims.
      rewrite <- (map_map Theta (fun t => (Z.of_nat (rows t), Z.of_nat (cols t)))), Hls,
        map_map. reflexivity.
    + split; [|congruence].
      unfold same_configuration in *. simpl in Hc'. intuition congruence.
Qed.

Lemma Fit_parts (regr : MLPRegressor) (X Y : Dense) (rng : Rng) (st : FitState) :
  Fit regr X Y rng = Ok st ->
  exists layers rng1 regr1,
    create_layers (set_Layers regr []) X Y rng = Ok (layers, rng1) /\
    Layers regr1 = layers /\
    Epochs regr1 = (if (Epochs regr <=? 0)%Z then 100%Z else Epochs regr) /\
    same_configuration regr regr1 /\
    fit_epochs (LossFunctions (Loss regr)) (Z.of_nat (rows X)) (length layers - 1)
      (Z.to_nat (Epochs regr1)) 0 (mkFitState regr1 X Y rng1) = Ok st.
Proof.
  unfold Fit. intros Hf.
  apply bind_Ok in Hf as ([layers rng1] & Hc & Hf).
  exists layers, rng1.
  eexists. split; [exact Hc|].
  split; [|split; [|split; [|exact Hf]]];
    change (Epochs (set_Layers (set_Layers regr []) layers)) with (Epochs regr);
    unfold same_configuration;
    destruct (Epochs regr <=? 0)%Z; repeat split; reflexivity.
Qed.

(** X14. When Fit returns, the weight matrices have the dimensions the
    configuration and the data give: layer 0 has 1 + (columns of X) rows,
    every other layer one row more than the layer below has columns, the
    hidden layers have the columns of HiddenLayerSizes and the output layer
    the columns of Y. *)
Theorem Fit_layer_sizes (regr : MLPRegressor) (X Y : Dense) (rng : Rng)
    (st : FitState) :
  Fit regr X Y rng = Ok st ->
  map theta_dims (Layers (fit_regr st))
  = layer_sizes (Z.of_nat (cols X)) (HiddenLayerSizes regr ++ [Z.of_nat (cols Y)]).
Proof.
  intros Hf.
  apply Fit_parts in Hf as (layers & rng1 & regr1 & Hc & HL & _ & _ & Hf).
  apply fit_epochs_keeps in Hf as (Hd & _). simpl in Hd. rewrite Hd, HL.
  apply create_layers_dims in Hc as [Hc _]. exact Hc.
Qed.

(** X15. Fit keeps the configuration of the regressor (optimizer creator,
    LossName, activation, HiddenLayerSizes, Alpha, L1Ratio, MiniBatchSize,
    Loss) and overwrites Epochs with 100 when it was zero or negative: the
    default is stored in the regressor, not only used for this fit. *)
Theorem Fit_keeps_configuration (regr : MLPRegressor) (X Y : Dense) (rng : Rng)
    (st : FitState) :
  Fit regr X Y rng = Ok st ->
  same_configuration regr (fit_regr st) /\
  Epochs (fit_regr st) = (if (Epochs regr <=? 0)%Z then 100%Z else Epochs regr).
Proof.
  intros Hf.
  apply Fit_parts in Hf as (layers & rng1 & regr1 & _ & _ & He & Hc & Hf).
  apply fit_epochs_keeps in Hf as (_ & Hc' & He'). simpl in Hc', He'.
  split; [|congruence].
  unfold same_configuration in *. intuition congruence.
Qed.

(** X7. With a nil activation (the activation name is not a key of
    lm.Activations) Fit panics in the forward pass of its first epoch, unless
    there is no hidden layer and the output layer is logistic. *)
Theorem Fit_nil_activation_panics (regr : MLPRegressor) (X Y : Dense) (rng : Rng) :
  first_activation regr = None -> exists msg, Fit regr X Y rng = Panic msg.
Proof.
  intros Hn. destruct (Fit regr X Y rng) as [st|msg] eqn:Hf; [exfalso|eauto].
  apply Fit_first_epoch in Hf as (layers & rng1 & regr1 & st1 & Hc & HL & Hf).
  apply create_layers_dims in Hc as (_ & L0 & HL0 & Hact).
  change (first_activation (set_Layers regr [])) with (first_activation regr) in Hact.
  apply fit_epoch_Ok in Hf as (regr2 & out & Hp & _).
  apply Predict_Ok in Hp as (ls & Hls & _). simpl in Hls. rewrite HL in Hls.
  destruct layers as [|La layers]; [discriminate HL0|].
  simpl in HL0. injection HL0 as ->.
  change (length (L0 :: layers)) with (S (length layers)) in Hls.
  apply forward_upto_first_layer in Hls as (L' & HL').
  assert (H0 : (L0 :: layers) !! 0 = Some L0) by reflexivity.
  pose proof (forward_layer_value_keeps _ _ _ _ _ H0 HL') as (_ & Ha & _).
  apply forward_layer_value_Ok in HL'
    as (L & Xl & L1 & yp & yp1 & act & _ & _ & _ & _ & _ & Hact1 & _ & _ & ->).
  simpl in Ha. congruence.
Qed.

(** ** SetOptimizer *)

Lemma SetOptimizer_layers_Some (c : OptimCreator) (ls : list Layer) :
  SetOptimizer_layers (Some c) ls = Ok (map (fun L => set_Optimizer L (c tt)) ls).
Proof.
  induction ls as [|L ls IH]; simpl; [reflexivity|]. rewrite IH. reflexivity.
Qed.

(** X16. SetOptimizer with a creator never panics and stores the creator;
    with changeLayers it gives every layer an optimizer the creator returns
    and keeps the weights, the activation and the buffers of every layer;
    without changeLayers the layers keep the optimizers they have.  No other
    field of the regressor changes. *)
Theorem SetOptimizer_replaces_optimizers (regr : MLPRegressor) (c : OptimCreator)
    (changeLayers : bool) :
  exists regr1,
    SetOptimizer regr (Some c) changeLayers = Ok regr1 /\
    regr_Optimizer regr1 = Some c /\
    Layers regr1 =
      (if changeLayers then map (fun L => set_Optimizer L (c tt)) (Layers regr)
       else Layers regr) /\
    regr1 = set_Layers (set_regr_Optimizer regr (Some c)) (Layers regr1).
Proof.
  unfold SetOptimizer. destruct changeLayers.
  - change (Layers (set_regr_Optimizer regr (Some c))) with (Layers regr).
    rewrite SetOptimizer_layers_Some. eexists. split; [reflexivity|].
    split; [reflexivity|]. split; reflexivity.
  - eexists. split; [reflexivity|]. split; [reflexivity|]. split; [reflexivity|].
    destruct regr; reflexivity.
Qed.

(** X17. SetOptimizer with a nil creator and changeLayers panics as soon as
    there is a layer: the loop calls the creator. *)
Theorem SetOptimizer_nil_creator_panics (regr : MLPRegressor) :
  Layers regr <> [] -> SetOptimizer regr None true = Panic ErrNilPointer.
Proof.
  intros Hne. unfold SetOptimizer.
  change (Layers (set_regr_Optimizer regr None)) with (Layers regr).
  destruct (Layers regr) as [|L ls]; [congruence|reflexivity].
Qed.

(** ** NewLayer and Init *)

Lemma rand_fill_length (n : nat) (rng : Rng) : length (fst (rand_fill n rng)) = n.
Proof.
  revert rng. induction n as [|n IH]; intros rng; simpl; [reflexivity|].
  destruct (rand_Float64 rng) as [x rng1].
  specialize (IH rng1). destruct (rand_fill n rng1) as [xs rng2].
  simpl in *. rewrite IH. reflexivity.
Qed.

(** X18. NewLayer with positive dimensions returns a layer whose weights are
    an inputs x outputs matrix with one drawn element per entry, with the
    activation and the optimizer it was given and with every buffer nil. *)
Theorem NewLayer_positive_dimensions (inputs outputs : Z) (act : option Activation)
    (o : Optimizer) (rng : Rng) :
  (0 < inputs)%Z -> (0 < outputs)%Z ->
  exists L rng',
    NewLayer inputs outputs act o rng = Ok (L, rng') /\
    theta_dims L = (inputs, outputs) /\
    length (data (Theta L)) = rows (Theta L) * cols (Theta L) /\
    L_Activation L = act /\ L_Optimizer L = o /\
    Ytrue L = None /\ Ypred L = None /\ Ydiff L = None /\ Grad L = None /\
    Update L = None.
Proof.
  intros Hi Ho.
  destruct (NewLayer inputs outputs act o rng) as [[L rng']|msg] eqn:HN.
  - exists L, rng'. split; [reflexivity|].
    pose proof (NewLayer_theta_dims _ _ _ _ _ _ _ HN) as Hd.
    apply NewLayer_Ok in HN
      as (_ & _ & Hr & Hc & Hact & Hopt & Hyt & Hyp & Hyd & Hg & Hu & Hdata & _).
    split; [exact Hd|]. split; [rewrite Hdata, rand_fill_length, Hr, Hc; reflexivity|].
    repeat split; assumption.
  - exfalso. unfold NewLayer, NewDense in HN.
    replace (inputs <=? 0)%Z with false in HN by (symmetry; apply Z.leb_gt; lia).
    replace (outputs <=? 0)%Z with false in HN by (symmetry; apply Z.leb_gt; lia).
    simpl in HN.
    destruct (rand_fill (Z.to_nat inputs * Z.to_nat outputs) rng). discriminate HN.
Qed.



(** ** One step of the loop over the layers *)

(** X20. The step of layer l in the loop over the layers changes layer l
    only: the number of layers and every other layer are as before, layer l
    keeps its activation and the dimensions of its weights, the
    configuration and Epochs are as before, and J and JFirst are written at
    the output layer only, JFirst in the epoch of index 1 only. *)
Theorem backward_layer_changes_one_layer (lossFunc : option Loss_) (X Y : Dense)
    (nSamples : Z) (outputLayer epoch l : nat) (regr regr1 : MLPRegressor) :
  backward_layer lossFunc X Y nSamples outputLayer epoch l regr = Ok regr1 ->
  length (Layers regr1) = length (Layers regr) /\
  (forall k, k <> l -> Layers regr1 !! k = Layers regr !! k) /\
  (exists L L2, Layers regr !! l = Some L /\ Layers regr1 !! l = Some L2 /\
     L_Activation L2 = L_Activation L /\ theta_dims L2 = theta_dims L) /\
  same_configuration regr regr1 /\ Epochs regr1 = Epochs regr /\
  (l <> outputLayer -> J regr1 = J regr) /\
  (l <> outputLayer \/ epoch <> 1 -> JFirst regr1 = JFirst regr).
Proof.
  intros Hstep.
  pose proof (backward_layer_configuration _ _ _ _ _ _ _ _ _ Hstep) as [Hc He].
  apply backward_layer_Ok in Hstep
    as (L & Xl & L1 & Jl & L2 & HL & _ & HL1 & HL2 & HLs & HJ & HJF & _).
  apply compute_Ydiff_frame in HL1 as (yt & yd & ->).
  apply loss_and_update_Ok in HL2
    as (? & ? & ? & ? & ? & ? & ? & ? & ? & ? & ? & th' & _ & _ & _ & _ & _ & _ & _ & _
        & Hadd & HL2).
  apply elementwise_shape in Hadd as (Hr & Hco & _).
  rewrite HLs. split; [apply length_insert|].
  split; [intros k Hk; apply list_lookup_insert_ne; congruence|].
  split.
  - exists L, L2. split; [exact HL|].
    split; [apply list_lookup_insert_eq; apply lookup_lt_Some in HL; exact HL|].
    subst L2. unfold theta_dims. simpl in *. rewrite Hr, Hco.
    split; reflexivity.
  - split; [exact Hc|]. split; [exact He|]. split.
    + intros Hne. apply Nat.eqb_neq in Hne. rewrite HJ, Hne. reflexivity.
    + intros [Hne|Hne]; apply Nat.eqb_neq in Hne; rewrite HJF, Hne;
        [reflexivity|rewrite andb_false_r; reflexivity].
Qed.

(** ** MiniBatchSize *)

Lemma hidden_layers_ext (regr regr' : MLPRegressor) (sizes : list Z) :
  regr_Optimizer regr' = regr_Optimizer regr ->
  regr_Activation regr' = regr_Activation regr ->
  forall prev acc rng,
    hidden_layers regr' sizes prev acc rng = hidden_layers regr sizes prev acc rng.
Proof.
  intros Ho Ha. induction sizes as [|o sizes IH]; intros prev acc rng; simpl;
    [reflexivity|].
  rewrite Ho, Ha. destruct (deref (regr_Optimizer regr)) as [c|]; [|reflexivity].
  simpl. destruct (NewLayer (1 + prev) o (regr_Activation regr) (c tt) rng)
    as [[L rng1]|]; [|reflexivity].
  simpl. apply IH.
Qed.

Lemma create_layers_MiniBatchSize (regr : MLPRegressor) (n : Z) (X Y : Dense)
    (rng : Rng) :
  create_layers (set_Layers (set_MiniBatchSize regr n) []) X Y rng
  = create_layers (set_Layers regr []) X Y rng.
Proof.
  unfold create_layers.
  rewrite (hidden_layers_ext (set_Layers regr []) (set_Layers (set_MiniBatchSize regr n) []))
    by reflexivity.
  reflexivity.
Qed.

Lemma backward_layer_MiniBatchSize (lossFunc : option Loss_) (X Y : Dense)
    (nSamples : Z) (outputLayer epoch l : nat) (regr : MLPRegressor) (n : Z) :
  backward_layer lossFunc X Y nSamples outputLayer epoch l (set_MiniBatchSize regr n)
  = on_result (fun r => set_MiniBatchSize r n)
      (backward_layer lossFunc X Y nSamples outputLayer epoch l regr).
Proof.
  unfold backward_layer.
  change (Layers (set_MiniBatchSize regr n)) with (Layers regr).
  destruct (index (Layers regr) l) as [L|]; [|reflexivity]. simpl.
  destruct (layer_input X (Layers regr) l) as [Xl|]; [|reflexivity]. simpl.
  destruct (compute_Ydiff (Layers regr) Y outputLayer l L) as [L1|]; [|reflexivity].
  simpl.
  change (loss_and_update lossFunc (set_MiniBatchSize regr n) Xl nSamples L1)
    with (loss_and_update lossFunc regr Xl nSamples L1).
  destruct (loss_and_update lossFunc regr Xl nSamples L1) as [[Jl L2]|]; [|reflexivity].
  simpl. destruct (l =? outputLayer); [destruct (epoch =? 1)|]; reflexivity.
Qed.

Lemma backward_loop_MiniBatchSize (lossFunc : option Loss_) (X Y : Dense)
    (nSamples : Z) (outputLayer epoch k : nat) (regr : MLPRegressor) (n : Z) :
  backward_loop lossFunc X Y nSamples outputLayer epoch k (set_MiniBatchSize regr n)
  = on_result (fun r => set_MiniBatchSize r n)
      (backward_loop lossFunc X Y nSamples outputLayer epoch k regr).
Proof.
  revert regr. induction k as [|k IH]; intros regr; simpl; [reflexivity|].
  rewrite backward_layer_MiniBatchSize.
  destruct (backward_layer lossFunc X Y nSamples outputLayer epoch k regr) as [r|];
    [|reflexivity].
  simpl. apply IH.
Qed.

Lemma Predict_MiniBatchSize (regr : MLPRegressor) (n : Z) (X : Dense) (Y : option Dense) :
  Predict (set_MiniBatchSize regr n) X Y
  = on_result (fun ro => (set_MiniBatchSize (fst ro) n, snd ro)) (Predict regr X Y).
Proof.
  unfold Predict.
  change (Layers (set_MiniBatchSize regr n)) with (Layers regr).
  destruct (forward_upto X (length (Layers regr)) (Layers regr)) as [ls|];
    [|reflexivity].
  simpl. destruct Y as [y|]; [|reflexivity].
  destruct (index ls (length ls - 1)) as [L|]; [|reflexivity]. simpl.
  destruct (deref (Ypred L)) as [yp|]; reflexivity.
Qed.

Lemma fit_epoch_MiniBatchSize (lossFunc : option Loss_) (nSamples : Z)
    (outputLayer epoch : nat) (st : FitState) (n : Z) :
  fit_epoch lossFunc nSamples outputLayer epoch (set_fit_MiniBatchSize n st)
  = on_result (set_fit_MiniBatchSize n) (fit_epoch lossFunc nSamples outputLayer epoch st).
Proof.
  unfold fit_epoch, set_fit_MiniBatchSize at 1. simpl.
  destruct (DenseShuffle (fit_X st) (fit_Y st) (fit_rng st)) as [[Xs Ys] rng'].
  rewrite Predict_MiniBatchSize.
  destruct (Predict (fit_regr st) Xs None) as [[r1 o]|]; [|reflexivity]. simpl.
  pose proof (backward_loop_MiniBatchSize lossFunc Xs Ys nSamples outputLayer epoch
                (S outputLayer) r1 n) as E.
  simpl in E. rewrite E.
  match goal with |- context [on_result _ ?x] => destruct x end; reflexivity.
Qed.

Lemma fit_epochs_MiniBatchSize (lossFunc : option Loss_) (nSamples : Z)
    (outputLayer k epoch : nat) (st : FitState) (n : Z) :
  fit_epochs lossFunc nSamples outputLayer k epoch (set_fit_MiniBatchSize n st)
  = on_result (set_fit_MiniBatchSize n)
      (fit_epochs lossFunc nSamples outputLayer k epoch st).
Proof.
  revert epoch st. induction k as [|k IH]; intros epoch st; simpl; [reflexivity|].
  rewrite fit_epoch_MiniBatchSize.
  destruct (fit_epoch lossFunc nSamples outputLayer epoch st) as [st1|]; [|reflexivity].
  simpl. apply IH.
Qed.

(** X21. Fit never reads MiniBatchSize: with another value in the field the
    fit panics on the same inputs, with the same message, and returns the
    same layers, losses, matrices and random state; every epoch trains on
    the whole of X. *)
Theorem Fit_ignores_MiniBatchSize (regr : MLPRegressor) (n : Z) (X Y : Dense)
    (rng : Rng) :
  Fit (set_MiniBatchSize regr n) X Y rng
  = on_result (set_fit_MiniBatchSize n) (Fit regr X Y rng).
Proof.
  unfold Fit. rewrite create_layers_MiniBatchSize.
  destruct (create_layers (set_Layers regr []) X Y rng) as [[layers rng1]|];
    [|reflexivity].
  simpl.
  change (Epochs (set_MiniBatchSize regr n)) with (Epochs regr).
  destruct (Epochs regr <=? 0)%Z.
  - exact (fit_epochs_MiniBatchSize (LossFunctions (Loss regr)) (Z.of_nat (rows X))
             (length layers - 1) (Z.to_nat 100) 0
             (mkFitState (set_Epochs (set_Layers (set_Layers regr []) layers) 100)
                X Y rng1) n).
  - exact (fit_epochs_MiniBatchSize (LossFunctions (Loss regr)) (Z.of_nat (rows X))
             (length layers - 1) (Z.to_nat (Epochs regr)) 0
             (mkFitState (set_Layers (set_Layers regr []) layers) X Y rng1) n).
Qed.

(** ** The number of samples *)

(** X22. Fit panics when Y does not have as many rows as X: the layers are
    sized by the columns of X and Y only, and the first backward step of the
    output layer subtracts Y from predictions that have the rows of X. *)
Theorem Fit_sample_count_mismatch_panics (regr : MLPRegressor) (X Y : Dense)
    (rng : Rng) :
  rows Y <> rows X -> exists msg, Fit regr X Y rng = Panic msg.
Proof.
  intros Hne. destruct (Fit regr X Y rng) as [st|msg] eqn:Hf; [exfalso|eauto].
  apply Fit_first_epoch in Hf as (layers & rng1 & regr1 & st1 & Hc & HL & Hf).
  apply create_layers_Ok in Hc as (hl & Lout & Heq & Hlen & Hinv & _).
  apply fit_epoch_Ok in Hf as (regr2 & out & Hp & Hb & _).
  change (fit_regr (mkFitState regr1 X Y rng1)) with regr1 in Hp.
  change (fit_X (mkFitState regr1 X Y rng1)) with X in Hp, Hb.
  change (fit_Y (mkFitState regr1 X Y rng1)) with Y in Hb.
  change (fit_rng (mkFitState regr1 X Y rng1)) with rng1 in Hp, Hb.
  remember (rand_Perm rng1 (rows X)).1 as p eqn:Hp0. clear Hp0.
  apply Predict_shape in Hp.
  2:{ rewrite HL. revert Hinv. apply net_inv_impl.
      intros k w Lk _ [Hw Hyp]. split; [exact Hw|left; exact Hyp]. }
  change (backward_loop (LossFunctions (Loss regr)) (permute_rows p X)
            (permute_rows p Y) (Z.of_nat (rows X)) (length layers - 1) 0
            (S (length layers - 1)) regr2)
    with (backward_layer (LossFunctions (Loss regr)) (permute_rows p X)
            (permute_rows p Y) (Z.of_nat (rows X)) (length layers - 1) 0
            (length layers - 1) regr2
          ≫= backward_loop (LossFunctions (Loss regr)) (permute_rows p X)
               (permute_rows p Y) (Z.of_nat (rows X)) (length layers - 1) 0
               (length layers - 1)) in Hb.
  apply bind_Ok in Hb as (regr3 & Hstep & _).
  apply backward_layer_Ok in Hstep as (L & Xl & L1 & Jl & L2 & HLo & _ & HL1 & _).
  apply compute_Ydiff_output in HL1 as (yp & _ & _ & Hyp & _ & _ & Hr & _);
    [|apply Nat.eqb_refl].
  destruct (Hp _ _ HLo) as (_ & _ & _ & (yp' & Hyp' & Hr' & _) & _).
  rewrite Hyp in Hyp'. injection Hyp' as <-.
  destruct (permute_rows_shape p X) as [HrX _].
  destruct (permute_rows_shape p Y) as [HrY _].
  congruence.
Qed.

End MoreProofs.

(** * Properties on the sample collaborators *)

Module OnSample.
Import Sample Run.

Lemma sgd_keeps_shape : GetUpdate_keeps_shape.
Proof.
  intros o u g o' u' He Hg.
  change (sgd_GetUpdate o u g = Ok (o', u')) in Hg. unfold sgd_GetUpdate in Hg.
  apply bind_Ok in Hg as (u1 & Hu1 & Hg). injection Hg as _ <-.
  apply elementwise_shape in Hu1 as (_ & _ & _ & _ & _ & Hrec).
  apply Hrec. exact He.
Qed.

Lemma gradient_shape (Grad : Dense) (X : Matrix) (yd Ypred : Dense) (act : Activation)
    (n : float) (g : Dense) :
  IsEmpty Grad = false -> gradient Grad X yd Ypred act n = Ok g ->
  rows g = rows Grad /\ cols g = cols Grad.
Proof.
  intros He Hg. unfold gradient in Hg.
  apply Mul_shape in Hg as (_ & _ & _ & _ & _ & Hrec). apply Hrec. exact He.
Qed.

Lemma losses_keep_shapes (name : string) (lf : Loss_) :
  LossFunctions name = Some lf -> loss_keeps_shapes lf.
Proof.
  intros Hlf. change (Sample.LossFunctions name = Some lf) in Hlf.
  unfold Sample.LossFunctions in Hlf.
  assert (Hcases : lf = SquareLoss \/ lf = LogLoss).
  { destruct (name =? "square")%string; [left; congruence|].
    destruct (name =? "log")%string; [right; congruence|discriminate]. }
  clear Hlf.
  intros Yt X Th yp yd g a r n act Jl yp' yd' g' Hyp Hyd Hg Hl.
  destruct Hcases as [-> | ->]; unfold SquareLoss, LogLoss in Hl;
    apply bind_Ok in Hl as (ac & _ & Hl);
    apply bind_Ok in Hl as (yd1 & Hyd1 & Hl);
    apply bind_Ok in Hl as (g1 & Hg1 & Hl);
    injection Hl as _ <- <- <-;
    apply elementwise_shape in Hyd1 as (_ & _ & _ & _ & _ & Hrec);
    apply gradient_shape in Hg1; auto.
Qed.

(** C1 on the sample: the output layer of the network after the forward
    pass gets Y as its targets and predictions - Y as its diff. *)
Lemma C1_witness :
  exists L L' yp yt yd,
    Layers regrF !! 1 = Some L /\
    compute_Ydiff (Layers regrF) Y0 1 1 L = Ok L' /\
    Ypred L = Some yp /\ Ytrue L' = Some yt /\ Ydiff L' = Some yd /\
    (forall i j, i < rows Y0 -> j < cols Y0 -> at_ yt i j = at_ Y0 i j) /\
    (forall i j, i < rows yp -> j < cols yp ->
       at_ yd i j = (at_ yp i j - at_ Y0 i j)%float).
Proof.
  assert (EL : Layers regrF !! 1 = Some Lout) by (vm_compute; reflexivity).
  assert (EC : compute_Ydiff (Layers regrF) Y0 1 1 Lout = Ok Lout')
    by (vm_compute; reflexivity).
  destruct (C1_compute_Ydiff _ _ _ _ _ _ EC)
    as (yp & yt & yd & Hyp & _ & Hyt & Hyd & _ & Hout).
  simpl in Hout. destruct Hout as [(_ & _ & Hat) (_ & _ & Hat')].
  exists Lout, Lout', yp, yt, yd.
  split; [exact EL|]. split; [exact EC|]. split; [exact Hyp|].
  split; [exact Hyt|]. split; [exact Hyd|]. split; [exact Hat|exact Hat'].
Defined.

(** C2, amended, on the sample: the forward pass over the layers Fit created
    returns, and no prediction is a NaN. *)
Lemma C2_witness :
  exists regr1,
    Predict regrA X0 None = Ok (regr1, None) /\
    forall l L, Layers regr1 !! l = Some L ->
      exists yp, Ypred L = Some yp /\ no_nan yp.
Proof.
  assert (E : Predict regrA X0 None = Ok (regrF, None))
    by (vm_compute; reflexivity).
  exists regrF. split; [exact E|].
  apply (C2_Predict_writes_no_NaN _ _ _ _ _ E).
Defined.

(** C2, as stated, fails: Predict returns an infinite prediction on a finite
    input; and a fit of two epochs on finite inputs returns although the
    forward pass of its second epoch wrote an infinite prediction and the
    backward pass wrote an infinite weight and a NaN weight. *)
Lemma C2_counterexample :
  overflowing_predict = Ok (Some (mkDense 1 1 [infinity])) /\
  overflowing_fit = Ok [(Some [neg_infinity], [infinity; nan])].
Proof. split; vm_compute; reflexivity. Qed.

(** C3, amended, on the sample: the backward loop over the two layers. *)
Lemma C3_witness :
  exists next0 regrN regr1 next1 upd,
    Layers regrF !! 1 = Some next0 /\
    backward_loop (LossFunctions "square") X0 Y0 2 1 0 2 regrF = Ok regrN /\
    backward_layer (LossFunctions "square") X0 Y0 2 1 0 1 regrF = Ok regr1 /\
    Layers regr1 !! 1 = Some next1 /\ Update next1 = Some upd /\
    forall a b, a < rows (Theta next0) -> b < cols (Theta next0) ->
      at_ (Theta next1) a b = (at_ (Theta next0) a b + at_ upd a b)%float.
Proof.
  assert (E0 : Layers regrF !! 1 = Some Lout) by (vm_compute; reflexivity).
  assert (EN : backward_loop (LossFunctions "square") X0 Y0 2 1 0 2 regrF = Ok regrB)
    by (vm_compute; reflexivity).
  destruct (C3_diff_reads_updated_weights (LossFunctions "square") X0 Y0 2 1 0 0
              regrF regrB Lout E0 eq_refl EN)
    as (regr1 & L & L1 & next1 & upd & nd & act & yp & yd
        & H1 & _ & _ & Hn1 & Hupd & _ & _ & _ & _ & Hth & _).
  exists Lout, regrB, regr1, next1, upd.
  split; [exact E0|]. split; [exact EN|]. split; [exact H1|].
  split; [exact Hn1|]. split; [exact Hupd|exact Hth].
Defined.

(** C3, as stated, fails: in the first epoch of [Fit regr0 X0 Y0] the diff of
    layer 0 is the value the formula gives on the updated weights of layer
    1, and not the value it gives on the weights before their update. *)
Lemma C3_counterexample :
  diff_after_and_before_update =
    Ok ((-0.15592891512187498)%float, (-0.15592891512187498)%float,
        (-0.02497425)%float) /\
  ((-0.15592891512187498) =? (-0.02497425))%float = false.
Proof. split; vm_compute; reflexivity. Qed.

(** C4 fails on the code: a classifier built by NewMLPClassifier with the
    relu activation has Loss = "log" and an empty LossName, and after Fit its
    output layer has the relu activation, not the logistic one. *)
Lemma C4_classifier_output_layer_is_not_logistic :
  Loss (NewMLPClassifier [2%Z] "relu" "sgd" 0%float) = "log"%string /\
  classifier_activations = Ok [Some ReLU; Some ReLU] /\
  Fprime ReLU 2%float = 1%float /\ Fprime Logistic 2%float = (-2)%float.
Proof. split; [reflexivity|]. split; [vm_compute; reflexivity|]. split; reflexivity. Qed.

(** C5, amended, on the sample: the first epoch of a fit. *)
Lemma C5_witness :
  exists st' p,
    fit_epoch (LossFunctions "square") 2 1 0 (mkFitState regrA X0 Y0 0) = Ok st' /\
    p = [1; 0] /\
    (forall i j, i < 2 -> j < 1 -> at_ (fit_X st') i j = at_ X0 (nth i p 0) j) /\
    (forall i j, i < 2 -> j < 1 -> at_ (fit_Y st') i j = at_ Y0 (nth i p 0) j).
Proof.
  assert (E : fit_epoch (LossFunctions "square") 2 1 0 (mkFitState regrA X0 Y0 0)
              = Ok st1) by (vm_compute; reflexivity).
  destruct (C5_every_epoch_shuffles_X_and_Y_alike _ _ _ _ _ _ E)
    as (p & Hp & _ & _ & _ & _ & _ & HX & HY).
  exists st1, p. split; [exact E|]. split; [exact Hp|].
  split; [exact HX|exact HY].
Defined.

(** C5, as stated, fails: a fit of one epoch leaves the rows of X0 and Y0
    rearranged, and no regressor avoids it: whatever its fields hold, an
    epoch that returns has rearranged them. *)
Lemma C5_counterexample :
  (st ← Fit regr0 X0 Y0 0; Ok (fit_X st, fit_Y st))
    = Ok (mkDense 2 1 [2%float; 1%float], mkDense 2 1 [5%float; 3%float]) /\
  (forall regr lossFunc nSamples outputLayer epoch rng st',
     fit_epoch lossFunc nSamples outputLayer epoch (mkFitState regr X0 Y0 rng) = Ok st' ->
     fit_X st' = mkDense 2 1 [2%float; 1%float] /\
     fit_Y st' = mkDense 2 1 [5%float; 3%float]).
Proof.
  split; [vm_compute; reflexivity|].
  intros regr lossFunc nSamples outputLayer epoch rng st' Hf.
  apply fit_epoch_Ok in Hf as (_ & _ & _ & _ & HX & HY & _).
  rewrite HX, HY. split; reflexivity.
Qed.

(** C6, as stated, fails: the layers a second fit trains have the weights
    NewLayer draws, not the weights the first fit left. *)
Lemma C6_counterexample :
  weights_left_and_weights_restarted =
    Ok ([[0.067355879035156246%float; 0.067355879035156246%float;
          0.10633810781562499%float; 0.10633810781562499%float];
         [2.0024374999999996%float; 0.031217937500000001%float;
          0.031217937500000001%float]],
        [[0.005%float; 0.005%float; 0.005%float; 0.005%float];
         [0.005%float; 0.005%float; 0.005%float]]).
Proof. vm_compute. reflexivity. Qed.

(** C7 fails on the code: JFirst is written in the iteration epoch = 1, the
    second one.  A fit of one epoch leaves JFirst as it was (0) although the
    loss of its only epoch is 8.479...; fits of two and of three epochs
    record the loss of the second epoch, 2.463... *)
Lemma C7_JFirst_is_the_loss_of_the_second_epoch :
  losses regr0 = Ok (0%float, 8.4794881331249989%float) /\
  losses (set_Epochs regr0 2) = Ok (2.463619880162359%float, 2.463619880162359%float) /\
  losses (set_Epochs regr0 3) = Ok (2.463619880162359%float, 0.39122208423241367%float).
Proof. repeat split; vm_compute; reflexivity. Qed.

(** C8 on the sample: two forward passes over the layers Fit created. *)
Lemma C8_witness :
  exists regr1 out,
    Predict regrA X0 (Some Y0) = Ok (regr1, out) /\
    Predict regr1 X0 out = Ok (regr1, out).
Proof.
  assert (E : Predict regrA X0 (Some Y0) = Ok (regrF, outF))
    by (vm_compute; reflexivity).
  exists regrF, outF. split; [exact E|].
  apply (C8_Predict_idempotent _ _ _ _ _ E).
Defined.

(** C9 on the sample: the sample loss functions and optimizer keep the
    shapes, and every layer of a fit on two samples of one feature has the
    invariant. *)
Lemma C9_witness :
  (forall name lf, LossFunctions name = Some lf -> loss_keeps_shapes lf) /\
  GetUpdate_keeps_shape /\
  exists st,
    Fit regr0 X0 Y0 0 = Ok st /\
    net_inv (fun _ => layer_inv 2) 1 (Layers (fit_regr st)).
Proof.
  split; [exact losses_keep_shapes|]. split; [exact sgd_keeps_shape|].
  assert (E : Fit regr0 X0 Y0 0 = Ok st_fit) by (vm_compute; reflexivity).
  exists st_fit. split; [exact E|].
  destruct (@C9_shape_invariant collaborators losses_keep_shapes sgd_keeps_shape)
    as (_ & _ & _ & _ & _ & HFit).
  apply (HFit _ _ _ _ _ E).
Defined.

(** X1 on the sample. *)
Lemma X1_witness :
  exists hl Lo,
    Fit regr0 X0 Y0 0 = Ok st_fit /\
    Layers (fit_regr st_fit) = hl ++ [Lo] /\ length hl = 1 /\
    L_Activation Lo = Some Identity.
Proof.
  assert (E : Fit regr0 X0 Y0 0 = Ok st_fit) by (vm_compute; reflexivity).
  destruct (Fit_output_activation _ _ _ _ _ E) as (hl & Lo & Hl & Hlen & Hact).
  exists hl, Lo. split; [exact E|]. split; [exact Hl|]. split; [exact Hlen|exact Hact].
Defined.

(** X2 on the sample. *)
Lemma X2_witness :
  Epochs regr0 = 1%Z /\ Fit regr0 X0 Y0 0 = Ok st_fit /\
  JFirst (fit_regr st_fit) = JFirst regr0.
Proof.
  assert (E : Fit regr0 X0 Y0 0 = Ok st_fit) by (vm_compute; reflexivity).
  split; [reflexivity|]. split; [exact E|].
  apply (Fit_one_epoch_JFirst regr0 X0 Y0 0 st_fit eq_refl E).
Defined.

(** X3 on the sample. *)
Lemma X3_witness :
  exists out Lo,
    Predict regrA X0 (Some Y0) = Ok (regrF, Some out) /\
    Layers regrF !! (length (Layers regrF) - 1) = Some Lo /\
    cols out = cols (Theta Lo).
Proof.
  assert (E : Predict regrA X0 (Some Y0) = Ok (regrF, outF))
    by (vm_compute; reflexivity).
  destruct (Predict_output_width regrA regrF X0 Y0 _ E) as (Lo & HLo & Hc).
  eexists _, Lo. split; [exact E|]. split; [exact HLo|exact Hc].
Defined.

(** X5 on the sample: "nope" is not a solver. *)
Lemma X5_witness :
  regr_Optimizer regr_no_solver = None /\
  Fit regr_no_solver X0 Y0 0 = Panic ErrNilPointer.
Proof.
  split; [reflexivity|].
  apply (Fit_nil_optimizer_panics regr_no_solver X0 Y0 0 eq_refl).
Defined.

(** X6 on the sample: "nope" is not a loss function. *)
Lemma X6_witness :
  LossFunctions (Loss regr_no_loss) = None /\
  exists msg, Fit regr_no_loss X0 Y0 0 = Panic msg.
Proof.
  split; [reflexivity|].
  apply (Fit_nil_loss_panics regr_no_loss X0 Y0 0 eq_refl).
Defined.

(** X8 on the sample: hidden layer sizes 3 and -1. *)
Lemma X8_witness :
  In (-1)%Z (HiddenLayerSizes regr_negative_size) /\
  exists msg, Fit regr_negative_size X0 Y0 0 = Panic msg.
Proof.
  assert (Hin : In (-1)%Z (HiddenLayerSizes regr_negative_size))
    by (right; left; reflexivity).
  split; [exact Hin|].
  apply (Fit_negative_hidden_size_panics regr_negative_size X0 Y0 0 (-1)%Z Hin).
  reflexivity.
Defined.

(** X9 on the sample: a regressor that was never fitted. *)
Lemma X9_witness :
  Layers regr0 = [] /\
  Predict regr0 X0 None = Ok (regr0, None) /\
  Predict regr0 X0 (Some Y0) = Panic ErrIndex.
Proof.
  split; [reflexivity|].
  destruct (Predict_without_layers regr0 X0 eq_refl) as [Hnil Hsome].
  split; [exact Hnil|exact (Hsome Y0)].
Defined.

(** X10 on the sample: layers made for one feature, data with two. *)
Lemma X10_witness :
  exists L0 msg,
    Layers regrA !! 0 = Some L0 /\
    (rows (Theta L0) =? 1 + cols X2cols) = false /\
    Predict regrA X2cols None = Panic msg.
Proof.
  destruct (index (Layers regrA) 0) as [L0|] eqn:E; [|discriminate E].
  apply index_Ok in E.
  assert (Hne : rows (Theta L0) <> 1 + cols X2cols).
  { vm_compute in E. injection E as <-. vm_compute. discriminate. }
  destruct (Predict_feature_mismatch_panics regrA X2cols None L0 E Hne) as [msg Hp].
  exists L0, msg. split; [exact E|]. split; [|exact Hp].
  apply Nat.eqb_neq. exact Hne.
Defined.

(** X11 on the sample: a forward pass over the two rows of X0, then one over
    a single row. *)
Lemma X11_witness :
  exists msg,
    Predict regrA X0 None = Ok (regrF, None) /\
    (rows X1row =? rows X0) = false /\
    Predict regrF X1row None = Panic msg.
Proof.
  assert (E : Predict regrA X0 None = Ok (regrF, None)) by (vm_compute; reflexivity).
  assert (Hne : Layers regrA <> []) by discriminate.
  assert (Hr : rows X1row <> rows X0) by discriminate.
  destruct (Predict_other_batch_size_panics regrA regrF X0 X1row None None None
              E Hne Hr) as [msg Hp].
  exists msg. split; [exact E|]. split; [reflexivity|exact Hp].
Defined.

(** X12 on the sample: the forward pass of a fit keeps the weights of the
    output layer. *)
Lemma X12_witness :
  exists L L',
    Predict regrA X0 (Some Y0) = Ok (regrF, outF) /\
    Layers regrA !! 1 = Some L /\ Layers regrF !! 1 = Some L' /\
    Theta L' = Theta L /\ length (Layers regrF) = length (Layers regrA).
Proof.
  assert (E : Predict regrA X0 (Some Y0) = Ok (regrF, outF))
    by (vm_compute; reflexivity).
  destruct (Predict_keeps_the_model regrA regrF X0 (Some Y0) outF E)
    as (_ & Hlen & Hk).
  destruct (index (Layers regrA) 1) as [L|] eqn:EL; [|discriminate EL].
  apply index_Ok in EL.
  destruct (Hk 1 L EL) as (L' & HL' & Hth & _).
  exists L, L'. split; [exact E|]. split; [exact EL|]. split; [exact HL'|].
  split; [exact Hth|exact Hlen].
Defined.

(** X13 on the sample. *)
Lemma X13_witness :
  exists o,
    Predict regrA X0 (Some Y0) = Ok (regrF, Some o) /\
    o = net_output X0 (Layers regrA) (length (Layers regrA)).
Proof.
  assert (E : Predict regrA X0 (Some Y0) = Ok (regrF, outF))
    by (vm_compute; reflexivity).
  destruct (Predict_computes_net_output regrA regrF X0 (Some Y0) outF E)
    as [_ Ho].
  destruct outF as [o|] eqn:Eo; [|discriminate Eo].
  exists o. split; [exact E|]. apply Ho. reflexivity.
Defined.

(** X7 on the sample: "nope" is not an activation. *)
Lemma X7_witness :
  first_activation regr_no_activation = None /\
  exists msg, Fit regr_no_activation X0 Y0 0 = Panic msg.
Proof.
  split; [reflexivity|].
  apply (Fit_nil_activation_panics regr_no_activation X0 Y0 0 eq_refl).
Defined.

(** X14 on the sample: one feature, two hidden units, one output. *)
Lemma X14_witness :
  Fit regr0 X0 Y0 0 = Ok st_fit /\
  map theta_dims (Layers (fit_regr st_fit)) = [(2, 2); (3, 1)]%Z.
Proof.
  assert (E : Fit regr0 X0 Y0 0 = Ok st_fit) by (vm_compute; reflexivity).
  split; [exact E|]. exact (Fit_layer_sizes regr0 X0 Y0 0 st_fit E).
Defined.

(** X15 on the sample. *)
Lemma X15_witness :
  Fit regr0 X0 Y0 0 = Ok st_fit /\
  same_configuration regr0 (fit_regr st_fit) /\ Epochs (fit_regr st_fit) = 1%Z.
Proof.
  assert (E : Fit regr0 X0 Y0 0 = Ok st_fit) by (vm_compute; reflexivity).
  split; [exact E|]. exact (Fit_keeps_configuration regr0 X0 Y0 0 st_fit E).
Defined.

(** X17 on the sample: layers, and a nil creator. *)
Lemma X17_witness :
  length (Layers regrA) = 2 /\ SetOptimizer regrA None true = Panic ErrNilPointer.
Proof.
  split; [reflexivity|].
  apply (SetOptimizer_nil_creator_panics regrA). discriminate.
Defined.

(** X18 on the sample: a layer of 2 inputs and 3 outputs. *)
Lemma X18_witness :
  exists L rng',
    @NewLayer collaborators 2 3 (Some Identity) tt 0 = Ok (L, rng') /\
    theta_dims L = (2, 3)%Z /\ length (data (Theta L)) = rows (Theta L) * cols (Theta L).
Proof.
  destruct (@NewLayer_positive_dimensions collaborators 2 3 (Some Identity) tt 0)
    as (L & rng' & HN & Hd & Hlen & _); [reflexivity|reflexivity|].
  exists L, rng'. split; [exact HN|]. split; [exact Hd|exact Hlen].
Defined.


(** X20 on the sample: the step of the output layer. *)
Lemma X20_witness :
  backward_layer (LossFunctions "square") X0 Y0 2 1 0 1 regrF = Ok regrB1 /\
  length (Layers regrB1) = length (Layers regrF) /\
  Layers regrB1 !! 0 = Layers regrF !! 0 /\
  same_configuration regrF regrB1.
Proof.
  assert (E : backward_layer (LossFunctions "square") X0 Y0 2 1 0 1 regrF = Ok regrB1)
    by (vm_compute; reflexivity).
  destruct (backward_layer_changes_one_layer _ _ _ _ _ _ _ _ _ E)
    as (Hlen & Hk & _ & Hc & _).
  split; [exact E|]. split; [exact Hlen|]. split; [|exact Hc].
  apply Hk. discriminate.
Defined.

(** X22 on the sample: two samples, targets for one. *)
Lemma X22_witness :
  (rows Y1row =? rows X0) = false /\
  exists msg, Fit regr0 X0 Y1row 0 = Panic msg.
Proof.
  split; [reflexivity|].
  apply (Fit_sample_count_mismatch_panics regr0 X0 Y1row 0). discriminate.
Defined.

End OnSample.
